(** * glimpse.util.zmq_cluster: a shallow embedding of the task-dispatch fabric

    The development follows [src/glimpse/util/zmq_cluster.py]: endpoint
    descriptors ([Connect]), the ventilator, the basic and the strict sink,
    the result envelope ([ClusterResult]) and the worker loop.  Python
    objects are records, instance attributes that [del] can remove are
    [option] fields, dictionaries are [gmap]s, generators are explicit
    resumable machines, and the transport (sockets, poller, clock) is an
    explicit state that every operation threads through. *)

From Stdlib Require Import ZArith QArith Lqa.
From stdpp Require Import gmap strings list fin_maps.

Local Open Scope Z_scope.

(** ** Python values and exceptions *)

(** The values the fabric moves around without looking inside; each of
    them is one that [pickle], which [send_pyobj] applies, can serialise. *)
Inductive pyobj :=
  | PyNone
  | PyInt (z : Z)
  | PyStr (s : string).

Global Instance pyobj_eq_dec : EqDecision pyobj.
Proof. solve_decision. Defined.

(** An exception object thrown by a user callback: its class name and the
    text that [str(e)] gives.  It is one that [pickle] can serialise. *)
Record exn := { exn_class : string; exn_text : string }.

Global Instance exn_eq_dec : EqDecision exn.
Proof. solve_decision. Defined.

(** [WorkerException]: the message given to the constructor, and the class
    attribute [worker_exception], which an instance inherits unless it is
    assigned. *)
Record WorkerException := {
  we_message : string;
  worker_exception : option exn
}.

(** What a call of the fabric can raise. *)
Inductive raised :=
  | ReceiverTimeoutException
  | RaisedWorkerException (w : WorkerException)
  | AttributeError (attr : string)
  | TypeError
  | IOError
  | Escaped (e : exn).

(** ** The clock *)

(** [time.time()] and [time.sleep()] act on a clock, in seconds.  The
    readings are exact rationals, and the clock is moved by [time.sleep]
    alone: the time that the statements between two readings take to run
    counts as nothing. *)
Inductive event :=
  | EvSleep (d : Q)
  | EvSetsockopt (k : Z) (v : pyobj)
  | EvBind (u : string)
  | EvConnect (u : string)
  | EvSendPyobj (o : pyobj).

(** The trace keeps, with every event, the reading of the clock at which
    it happened. *)
Record world := { clock : Q; trace : list (Q * event) }.

Definition time_time (w : world) : Q := clock w.

Definition emit (e : event) (w : world) : world :=
  {| clock := clock w; trace := trace w ++ [(clock w, e)] |}.

(** [time.sleep(d)]: a negative duration is refused by the system call;
    otherwise the clock has advanced by [d] when the call returns. *)
Definition time_sleep (d : Q) (w : world) : (raised + unit) * world :=
  if Qle_bool 0 d
  then (inr tt, {| clock := (clock w + d)%Q;
                   trace := trace w ++ [(clock w, EvSleep d)] |})
  else (inl IOError, w).

Definition sleep_opt (d : option Q) (w : world) : (raised + unit) * world :=
  match d with
  | None => (inr tt, w)
  | Some d => time_sleep d w
  end.

(** ** Dictionaries *)

(** [dict(pairs)]: the pairs are inserted from left to right, so a later
    pair replaces an earlier one with the same key. *)
Definition py_dict (pairs : list (Z * pyobj)) : gmap Z pyobj :=
  foldl (fun m kv => <[kv.1 := kv.2]> m) ∅ pairs.

(** [d.items()] *)
Definition items (d : gmap Z pyobj) : list (Z * pyobj) := map_to_list d.

(** ** Sockets *)

(** The socket types that [SocketTypeToString] lists. *)
Inductive socket_type := PUSH | PULL | PUB | SUB | REQ | REP.

Definition SUBSCRIBE : Z := 6.

(** A socket as [MakeSocket] leaves it: its role, the options that
    [setsockopt] has stored, and the end-point it was bound or connected
    to. *)
Record socket := {
  sock_type : socket_type;
  sockopts : gmap Z pyobj;
  sock_bound : bool;
  sock_url : option string
}.

Definition setsockopt (k : Z) (v : pyobj) (sw : socket * world) : socket * world :=
  ({| sock_type := sock_type sw.1;
      sockopts := <[k := v]> (sockopts sw.1);
      sock_bound := sock_bound sw.1;
      sock_url := sock_url sw.1 |},
   emit (EvSetsockopt k v) sw.2).

(** ** Connect *)

Module Connect.

Record t := {
  url : option string;
  type : option socket_type;
  bind : bool;
  options : option (gmap Z pyobj);
  pre_delay : option Q;
  post_delay : option Q
}.

(** [x if x != None else d] *)
Definition or_else {A} (x d : option A) : option A :=
  match x with
  | Some _ => x
  | None => d
  end.

(** The options that [MakeSocket] applies: the caller's dictionary, an
    empty one when the caller gives none, then, when the descriptor has
    options, [dict(options.items() + self.options.items())]. *)
Definition merged_options (self : t) (opts : option (gmap Z pyobj)) : gmap Z pyobj :=
  let opts := match opts with None => ∅ | Some o => o end in
  match options self with
  | None => opts
  | Some own => py_dict (items opts ++ items own)
  end.

(** [MakeSocket].  The clock and the trace are returned in every case:
    a sleep that has happened stays happened when a later step raises.
    The transport library is taken to carry out what it is asked
    ([context.socket], [setsockopt], [bind], [connect]): a run in which it
    refuses, for an end-point it cannot parse or an address in use, ends
    with its error at that call and is not among the runs described here;
    nor is a run with a socket type that [SocketTypeToString] does not
    list. *)
Definition MakeSocket (self : t) (w : world)
    (url0 : option string) (type0 : option socket_type) (bind0 : option bool)
    (options0 : option (gmap Z pyobj)) (pre_delay0 post_delay0 : option Q)
    : (raised + socket) * world :=
  let type1 := or_else type0 (type self) in
  let url1 := or_else url0 (url self) in
  let bind1 := match bind0 with None => bind self | Some b => b end in
  let options1 := merged_options self options0 in
  let pre1 := or_else pre_delay0 (pre_delay self) in
  let post1 := or_else post_delay0 (post_delay self) in
  match type1 with
  | None => (inl TypeError, w)
  | Some ty =>
      let s0 := {| sock_type := ty; sockopts := ∅;
                   sock_bound := false; sock_url := None |} in
      let sw1 :=
        foldl (fun sw kv => setsockopt kv.1 kv.2 sw) (s0, w) (items options1) in
      match sleep_opt pre1 sw1.2 with
      | (inl e, w2) => (inl e, w2)
      | (inr _, w2) =>
          match url1 with
          | None => (inl TypeError, w2)
          | Some u =>
              let s2 := {| sock_type := ty; sockopts := sockopts sw1.1;
                           sock_bound := bind1; sock_url := Some u |} in
              let w3 := emit (if bind1 then EvBind u else EvConnect u) w2 in
              match sleep_opt post1 w3 with
              | (inl e, w4) => (inl e, w4)
              | (inr _, w4) => (inr s2, w4)
              end
          end
      end
  end.

(** [__call__] *)
Definition call (self : t) (w : world)
    (url0 : option string) (type0 : option socket_type) (bind0 : option bool)
    (options0 : option (gmap Z pyobj)) : (raised + socket) * world :=
  MakeSocket self w url0 type0 bind0 options0 None None.

End Connect.

(** A constructor argument that is either a [Connect] descriptor or a
    socket that the caller has made ([isinstance(x, Connect)]). *)
Inductive endpoint :=
  | ByConnect (c : Connect.t)
  | BySocket (s : socket).

(** [x.MakeSocket(context, type = ty)] for a descriptor, [x] itself for a
    socket. *)
Definition materialize (x : endpoint) (ty : socket_type) (w : world)
    : (raised + socket) * world :=
  match x with
  | ByConnect c => Connect.MakeSocket c w None (Some ty) None None None None
  | BySocket s => (inr s, w)
  end.

(** ** BasicVentilator *)

Module BasicVentilator.

(** An attribute that [Setup] creates and [del] removes is [None] while
    the instance does not have it. *)
Record t := {
  request_sender : endpoint;
  _ready : bool;
  worker_connect_delay : Q;
  _sender : option socket;
  _connect_delay : option Q
}.

Definition init (request_sender : endpoint) (worker_connect_delay : option Q) : t :=
  {| request_sender := request_sender;
     _ready := false;
     worker_connect_delay :=
       match worker_connect_delay with None => 1%Q | Some d => d end;
     _sender := None;
     _connect_delay := None |}.

Definition Setup (self : t) (w : world) : (raised + unit) * t * world :=
  match materialize (request_sender self) PUSH w with
  | (inl e, w1) => (inl e, self, w1)
  | (inr s, w1) =>
      (inr tt,
       {| request_sender := request_sender self;
          _ready := true;
          worker_connect_delay := worker_connect_delay self;
          _sender := Some s;
          _connect_delay := Some (time_time w1 + worker_connect_delay self)%Q |},
       w1)
  end.

Definition Shutdown (self : t) : (raised + unit) * t :=
  match _sender self with
  | None => (inl (AttributeError "_sender"), self)
  | Some _ =>
      (inr tt,
       {| request_sender := request_sender self;
          _ready := false;
          worker_connect_delay := worker_connect_delay self;
          _sender := None;
          _connect_delay := _connect_delay self |})
  end.

(** [x > 0] on the clock's readings *)
Definition positive (x : Q) : bool := negb (Qle_bool x 0).

(** The [for request in requests] loop: every request is sent on
    [self._sender] and counted. *)
Fixpoint send_all (self : t) (requests : list pyobj) (num_requests : Z) (w : world)
    : (raised + Z) * world :=
  match requests with
  | [] => (inr num_requests, w)
  | request :: rest =>
      match _sender self with
      | None => (inl (AttributeError "_sender"), w)
      | Some _ =>
          send_all self rest (num_requests + 1) (emit (EvSendPyobj request) w)
      end
  end.

Definition Send (self : t) (requests : list pyobj) (w : world)
    : (raised + Z) * t * world :=
  let '(r, self1, w1) :=
    if _ready self then (inr tt, self, w) else Setup self w in
  match r with
  | inl e => (inl e, self1, w1)
  | inr _ =>
      match _connect_delay self1 with
      | None => (inl (AttributeError "_connect_delay"), self1, w1)
      | Some ready_at =>
          let time_delta := (time_time w1 - ready_at)%Q in
          let '(r2, w2) :=
            if positive time_delta then time_sleep time_delta w1
            else (inr tt, w1) in
          match r2 with
          | inl e => (inl e, self1, w2)
          | inr _ =>
              let '(r3, w3) := send_all self1 requests 0 w2 in
              (r3, self1, w3)
          end
      end
  end.

End BasicVentilator.

(** ** ClusterResult *)

Module ClusterResult.

Record t := {
  status : option string;
  payload : pyobj;
  exception : option exn
}.

Definition STATUS_SUCCESS : string := "OK".
Definition STATUS_FAIL : string := "FAIL".

(** [ClusterResult()] *)
Definition init : t :=
  {| status := None; payload := PyNone; exception := None |}.

Definition set_payload (v : pyobj) (r : t) : t :=
  {| status := status r; payload := v; exception := exception r |}.

Definition set_status (s : string) (r : t) : t :=
  {| status := Some s; payload := payload r; exception := exception r |}.

Definition set_exception (e : exn) (r : t) : t :=
  {| status := status r; payload := payload r; exception := Some e |}.

End ClusterResult.

(** ** The transport seen by one component

    A sink or a worker owns a data socket and, optionally, a command
    socket.  The state of the transport is what has already arrived on
    each of them and what will arrive: [future] lists the next arrivals,
    each with the time in milliseconds that separates it from the one
    before (from now, for the first). *)

Inductive sock_id := DataSock | CmdSock.

Global Instance sock_id_eq_dec : EqDecision sock_id.
Proof. solve_decision. Defined.

Inductive arrival (A : Type) :=
  | OnData (m : A)
  | OnCommand (c : pyobj).
Arguments OnData {A} m.
Arguments OnCommand {A} c.

Record transport (A : Type) := {
  data_q : list A;
  cmd_q : list pyobj;
  future : list (Z * arrival A)
}.
Arguments data_q {A} _.
Arguments cmd_q {A} _.
Arguments future {A} _.

Inductive poll_result (A : Type) :=
  | PollBlocks
  | PollReturns (socks : list sock_id) (tr : transport A).
Arguments PollBlocks {A}.
Arguments PollReturns {A} socks tr.

Section Transport.
Context {A : Type}.

Definition mem (s : sock_id) (socks : list sock_id) : bool :=
  existsb (fun s' => bool_decide (s = s')) socks.

Definition readable (dq : list A) (cq : list pyobj) (s : sock_id) : bool :=
  match s with
  | DataSock => match dq with [] => false | _ => true end
  | CmdSock => match cq with [] => false | _ => true end
  end.

(** The registered sockets that have a message waiting. *)
Definition ready_socks (registered : list sock_id) (dq : list A) (cq : list pyobj)
    : list sock_id :=
  List.filter (readable dq cq) registered.

(** [poll] takes milliseconds; [None] and a negative value mean no
    limit. *)
Definition budget_of (timeout : option Z) : option Z :=
  match timeout with
  | None => None
  | Some t => if t <? 0 then None else Some t
  end.

(** Waiting with nothing ready: arrivals are delivered in order while
    the budget lasts, until one makes a registered socket readable. *)
Fixpoint wait (registered : list sock_id) (budget : option Z)
    (fut : list (Z * arrival A)) (dq : list A) (cq : list pyobj) : poll_result A :=
  match fut with
  | [] =>
      match budget with
      | None => PollBlocks
      | Some _ => PollReturns [] {| data_q := dq; cmd_q := cq; future := [] |}
      end
  | (d, a) :: rest =>
      let in_time := match budget with None => true | Some t => d <=? t end in
      if in_time then
        let dq' := match a with OnData m => dq ++ [m] | OnCommand _ => dq end in
        let cq' := match a with OnData _ => cq | OnCommand c => cq ++ [c] end in
        match ready_socks registered dq' cq' with
        | [] =>
            wait registered
              (match budget with None => None | Some t => Some (t - d) end)
              rest dq' cq'
        | socks =>
            PollReturns socks {| data_q := dq'; cmd_q := cq'; future := rest |}
        end
      else
        PollReturns []
          {| data_q := dq; cmd_q := cq;
             future :=
               (match budget with None => d | Some t => d - t end, a) :: rest |}
  end.

(** [poller.poll(timeout)]: returns at once when a registered socket is
    readable, otherwise waits. *)
Definition poll (registered : list sock_id) (timeout : option Z) (tr : transport A)
    : poll_result A :=
  match ready_socks registered (data_q tr) (cmd_q tr) with
  | [] => wait registered (budget_of timeout) (future tr) (data_q tr) (cmd_q tr)
  | socks => PollReturns socks tr
  end.

(** [recv_pyobj()] on the data socket: the oldest message; with none
    waiting the call blocks until one arrives, and for ever when none
    will. *)
Fixpoint recv_data_wait (fut : list (Z * arrival A)) (cq : list pyobj)
    : option (A * transport A) :=
  match fut with
  | [] => None
  | (_, OnData m) :: rest =>
      Some (m, {| data_q := []; cmd_q := cq; future := rest |})
  | (_, OnCommand c) :: rest => recv_data_wait rest (cq ++ [c])
  end.

Definition recv_data (tr : transport A) : option (A * transport A) :=
  match data_q tr with
  | m :: dq => Some (m, {| data_q := dq; cmd_q := cmd_q tr; future := future tr |})
  | [] => recv_data_wait (future tr) (cmd_q tr)
  end.

Fixpoint recv_cmd_wait (fut : list (Z * arrival A)) (dq : list A)
    : option (pyobj * transport A) :=
  match fut with
  | [] => None
  | (_, OnCommand c) :: rest =>
      Some (c, {| data_q := dq; cmd_q := []; future := rest |})
  | (_, OnData m) :: rest => recv_cmd_wait rest (dq ++ [m])
  end.

Definition recv_cmd (tr : transport A) : option (pyobj * transport A) :=
  match cmd_q tr with
  | c :: cq => Some (c, {| data_q := data_q tr; cmd_q := cq; future := future tr |})
  | [] => recv_cmd_wait (future tr) (data_q tr)
  end.

(** The messages that are waiting or still to come. *)
Definition pending (tr : transport A) : nat :=
  (length (data_q tr) + length (cmd_q tr) + length (future tr))%nat.

End Transport.

(** What a component does on its sockets, in the order in which it does
    it. *)
Inductive io_event (A B : Type) :=
  | IoPoll (timeout : option Z)
  | IoRecvData (m : A)
  | IoRecvCommand (c : pyobj)
  | IoCallback (m : A)
  | IoSend (r : B).
Arguments IoPoll {A B} timeout.
Arguments IoRecvData {A B} m.
Arguments IoRecvCommand {A B} c.
Arguments IoCallback {A B} m.
Arguments IoSend {A B} r.

(** The surroundings of a sink or a worker: the clock, the transport, and
    the log of what it has done. *)
Record env (A B : Type) := {
  env_world : world;
  net : transport A;
  io : list (io_event A B)
}.
Arguments env_world {A B} _.
Arguments net {A B} _.
Arguments io {A B} _.

Definition with_world {A B} (w : world) (e : env A B) : env A B :=
  {| env_world := w; net := net e; io := io e |}.

Definition with_net {A B} (tr : transport A) (e : env A B) : env A B :=
  {| env_world := env_world e; net := tr; io := io e |}.

Definition log {A B} (ev : io_event A B) (e : env A B) : env A B :=
  {| env_world := env_world e; net := net e; io := io e ++ [ev] |}.

(** What a call, or one step of a generator, comes to. *)
Inductive step (Y : Type) :=
  | Yield (y : Y)
  | StopIteration
  | Raise (e : raised)
  | Blocks
  | OutOfFuel.
Arguments Yield {Y} y.
Arguments StopIteration {Y}.
Arguments Raise {Y} e.
Arguments Blocks {Y}.
Arguments OutOfFuel {Y}.

(** ** BasicSink *)

Module BasicSink.

Definition CMD_KILL : pyobj := PyStr "CLUSTER_SINK_KILL".

(** [_poller] holds the sockets registered with the poller.
    [_command_socket] is [Some None] when the attribute is bound to
    Python's [None]. *)
Record t := {
  result_receiver : endpoint;
  command_receiver : option endpoint;
  receive_timeout : option Z;
  _ready : bool;
  _poller : option (list sock_id);
  _receiver_socket : option socket;
  _command_socket : option (option socket)
}.

Definition init (result_receiver : endpoint) (command_receiver : option endpoint)
    (receive_timeout : option Z) : t :=
  {| result_receiver := result_receiver;
     command_receiver := command_receiver;
     receive_timeout := receive_timeout;
     _ready := false;
     _poller := None;
     _receiver_socket := None;
     _command_socket := None |}.

Definition update (self : t) (ready : bool) (poller : option (list sock_id))
    (rs : option socket) (cs : option (option socket)) : t :=
  {| result_receiver := result_receiver self;
     command_receiver := command_receiver self;
     receive_timeout := receive_timeout self;
     _ready := ready;
     _poller := poller;
     _receiver_socket := rs;
     _command_socket := cs |}.

Definition Setup (self : t) (w : world) : (raised + unit) * t * world :=
  let self0 :=
    update self (_ready self) (Some []) (_receiver_socket self)
      (_command_socket self) in
  match materialize (result_receiver self) PULL w with
  | (inl e, w1) => (inl e, self0, w1)
  | (inr rs, w1) =>
      let self1 := update self (_ready self) (Some [DataSock]) (Some rs) (Some None) in
      match command_receiver self with
      | None => (inr tt, update self1 true (Some [DataSock]) (Some rs) (Some None), w1)
      | Some c =>
          match materialize c SUB w1 with
          | (inl e, w2) => (inl e, self1, w2)
          | (inr cs, w2) =>
              (inr tt,
               update self1 true (Some [DataSock; CmdSock]) (Some rs) (Some (Some cs)),
               w2)
          end
      end
  end.

(** The two shapes in which a successful [Setup] leaves the sink:
    without and with a command socket. *)
Definition set_up (self : t) : bool :=
  _ready self &&
  match _poller self, _receiver_socket self, _command_socket self with
  | Some [DataSock], Some _, Some None => true
  | Some [DataSock; CmdSock], Some _, Some (Some _) => true
  | _, _, _ => false
  end.

(** The three [del] statements run in order; the first attribute that
    is missing stops the call. *)
Definition Shutdown (self : t) : (raised + unit) * t :=
  match _poller self with
  | None => (inl (AttributeError "_poller"), self)
  | Some _ =>
      let self1 :=
        update self (_ready self) None (_receiver_socket self) (_command_socket self) in
      match _receiver_socket self1 with
      | None => (inl (AttributeError "_receiver_socket"), self1)
      | Some _ =>
          let self2 := update self1 (_ready self1) None None (_command_socket self1) in
          match _command_socket self2 with
          | None => (inl (AttributeError "_command_socket"), self2)
          | Some _ => (inr tt, update self2 (_ready self2) None None None)
          end
      end
  end.

(** *** [Receive], a generator

    Calling [Receive] runs nothing; the body runs when the consumer asks
    for the next item.  [Suspended] is the generator stopped at its
    [yield], with the values of its local variables. *)
Inductive pc :=
  | Fresh
  | Suspended (idx : Z) (timeout : option Z) (socks : list sock_id)
  | Finished.

Record generator := {
  num_results : option Z;
  timeout : option Z;
  at_ : pc
}.

Definition Receive (num_results timeout : option Z) : generator :=
  {| num_results := num_results; timeout := timeout; at_ := Fresh |}.

Definition env := env ClusterResult.t unit.

(** Where the body is inside the [while] loop. *)
Inductive position :=
  | AtTop (idx : Z)
  | AtCommand (idx : Z) (socks : list sock_id).

(** The loop from [pos] to the next [yield], [break] or exception.  The
    sink object is read, never written, inside the loop. *)
Fixpoint run (fuel : nat) (num_results timeout : option Z) (self : t)
    (pos : position) (e : env) : step ClusterResult.t * pc * env :=
  match fuel with
  | O => (OutOfFuel, Finished, e)
  | S fuel =>
      match pos with
      | AtTop idx =>
          if match num_results with Some n => n <=? idx | None => false end
          then (StopIteration, Finished, e)
          else
            match _poller self with
            | None => (Raise (AttributeError "_poller"), Finished, e)
            | Some registered =>
                match poll registered timeout (net e) with
                | PollBlocks => (Blocks, Finished, e)
                | PollReturns socks tr1 =>
                    let e1 := log (IoPoll timeout) (with_net tr1 e) in
                    match socks with
                    | [] => (Raise ReceiverTimeoutException, Finished, e1)
                    | _ =>
                        match _receiver_socket self with
                        | None =>
                            (Raise (AttributeError "_receiver_socket"), Finished, e1)
                        | Some _ =>
                            if mem DataSock socks then
                              match recv_data (net e1) with
                              | None => (Blocks, Finished, e1)
                              | Some (result, tr2) =>
                                  (Yield result, Suspended idx timeout socks,
                                   log (IoRecvData result) (with_net tr2 e1))
                              end
                            else run fuel num_results timeout self (AtCommand idx socks) e1
                        end
                    end
                end
            end
      | AtCommand idx socks =>
          match _command_socket self with
          | None => (Raise (AttributeError "_command_socket"), Finished, e)
          | Some cs =>
              if match cs with Some _ => mem CmdSock socks | None => false end then
                match recv_cmd (net e) with
                | None => (Blocks, Finished, e)
                | Some (cmd, tr1) =>
                    let e1 := log (IoRecvCommand cmd) (with_net tr1 e) in
                    if bool_decide (cmd = CMD_KILL)
                    then (StopIteration, Finished, e1)
                    else run fuel num_results timeout self (AtTop idx) e1
                end
              else run fuel num_results timeout self (AtTop idx) e
          end
      end
  end.

(** Two positions are visited for every message taken off a socket. *)
Definition fuel_for (e : env) : nat :=
  S (S (S (pending (net e) + pending (net e)))).

(** [next(g)]: the sink object is shared with the caller, so its current
    state comes in and its new state goes out. *)
Definition next (g : generator) (self : t) (e : env)
    : step ClusterResult.t * generator * t * env :=
  let resume (timeout1 : option Z) (self1 : t) (pos : position) (e1 : env) :=
    let '(r, pc1, e2) :=
      run (fuel_for e1) (num_results g) timeout1 self1 pos e1 in
    (r, {| num_results := num_results g; timeout := timeout g; at_ := pc1 |},
     self1, e2) in
  match at_ g with
  | Finished => (StopIteration, g, self, e)
  | Fresh =>
      let '(r, self1, w1) :=
        if _ready self then (inr tt, self, env_world e)
        else Setup self (env_world e) in
      match r with
      | inl x =>
          (Raise x,
           {| num_results := num_results g; timeout := timeout g; at_ := Finished |},
           self1, with_world w1 e)
      | inr _ =>
          let timeout1 :=
            match timeout g with
            | None => receive_timeout self1
            | Some _ => timeout g
            end in
          resume timeout1 self1 (AtTop 0) (with_world w1 e)
      end
  | Suspended idx timeout1 socks =>
      resume timeout1 self (AtCommand (idx + 1) socks) e
  end.

(** A consumer that takes items of the basic generator until it ends, at
    most [n] of them. *)
Fixpoint consume (n : nat) (g : generator) (self : t) (e : env)
    : list ClusterResult.t * step ClusterResult.t * t * env :=
  match n with
  | O => ([], OutOfFuel, self, e)
  | S n =>
      match next g self e with
      | (Yield y, g1, self1, e1) =>
          let '(ys, r, self2, e2) := consume n g1 self1 e1 in
          (y :: ys, r, self2, e2)
      | (r, _, self1, e1) => ([], r, self1, e1)
      end
  end.

(** [SendKillCommand], a static method: the publisher is made, the
    subscribers get a second to connect, the command is sent. *)
Definition SendKillCommand (command_sender : endpoint) (w : world)
    : (raised + unit) * world :=
  match materialize command_sender PUB w with
  | (inl e, w1) => (inl e, w1)
  | (inr _, w1) =>
      match time_sleep 1 w1 with
      | (inl e, w2) => (inl e, w2)
      | (inr _, w2) => (inr tt, emit (EvSendPyobj CMD_KILL) w2)
      end
  end.

End BasicSink.

(** ** Sink *)

Module Sink.

(** [class Sink(BasicSink)]: the object is a [BasicSink.t]; only
    [Receive] is overridden. *)

(** [str(x)] for the [exception] attribute, which is an exception or
    [None]. *)
Definition str_exception (x : option exn) : string :=
  match x with
  | None => "None"
  | Some e => exn_text e
  end.

(** [WorkerException("Caught exception in worker node: %s" % x)]: the
    constructor gets the message and nothing else. *)
Definition make_WorkerException (x : option exn) : WorkerException :=
  {| we_message := "Caught exception in worker node: " +:+ str_exception x;
     worker_exception := None |}.

(** [Iterating] is the body inside its [for] loop, holding the generator
    [results] that [BasicSink.Receive] returned. *)
Inductive pc :=
  | Fresh
  | Iterating (results : BasicSink.generator)
  | Finished.

Record generator := {
  num_results : option Z;
  timeout : option Z;
  at_ : pc
}.

Definition Receive (num_results timeout : option Z) : generator :=
  {| num_results := num_results; timeout := timeout; at_ := Fresh |}.

Definition goto (g : generator) (p : pc) : generator :=
  {| num_results := num_results g; timeout := timeout g; at_ := p |}.

(** One turn of [for result in results]. *)
Definition iterate (g : generator) (results : BasicSink.generator)
    (self : BasicSink.t) (e : BasicSink.env)
    : step pyobj * generator * BasicSink.t * BasicSink.env :=
  let '(r, results1, self1, e1) := BasicSink.next results self e in
  match r with
  | Yield result =>
      if bool_decide (ClusterResult.status result
                      = Some ClusterResult.STATUS_SUCCESS)
      then (Yield (ClusterResult.payload result), goto g (Iterating results1),
            self1, e1)
      else (Raise (RaisedWorkerException
                     (make_WorkerException (ClusterResult.exception result))),
            goto g Finished, self1, e1)
  | StopIteration => (StopIteration, goto g Finished, self1, e1)
  | Raise x => (Raise x, goto g Finished, self1, e1)
  | Blocks => (Blocks, goto g Finished, self1, e1)
  | OutOfFuel => (OutOfFuel, goto g Finished, self1, e1)
  end.

Definition next (g : generator) (self : BasicSink.t) (e : BasicSink.env)
    : step pyobj * generator * BasicSink.t * BasicSink.env :=
  match at_ g with
  | Finished => (StopIteration, g, self, e)
  | Fresh => iterate g (BasicSink.Receive (num_results g) (timeout g)) self e
  | Iterating results => iterate g results self e
  end.

(** A consumer that takes items until the generator ends, at most
    [n] of them: the items in order, how the generator ended, and what is
    left. *)
Fixpoint consume (n : nat) (g : generator) (self : BasicSink.t) (e : BasicSink.env)
    : list pyobj * step pyobj * BasicSink.t * BasicSink.env :=
  match n with
  | O => ([], OutOfFuel, self, e)
  | S n =>
      match next g self e with
      | (Yield y, g1, self1, e1) =>
          let '(ys, r, self2, e2) := consume n g1 self1 e1 in
          (y :: ys, r, self2, e2)
      | (r, _, self1, e1) => ([], r, self1, e1)
      end
  end.

(** The same consumer, giving back the generator as it is left. *)
Fixpoint exhaust (n : nat) (g : generator) (self : BasicSink.t) (e : BasicSink.env)
    : list pyobj * step pyobj * generator * BasicSink.t * BasicSink.env :=
  match n with
  | O => ([], OutOfFuel, g, self, e)
  | S n =>
      match next g self e with
      | (Yield y, g1, self1, e1) =>
          let '(ys, r, g2, self2, e2) := exhaust n g1 self1 e1 in
          (y :: ys, r, g2, self2, e2)
      | (r, g1, self1, e1) => ([], r, g1, self1, e1)
      end
  end.

End Sink.

(** ** Worker *)

(** What a call of the user's callback comes to: a value; an exception
    [e] that derives from [Exception] and that [str(e)] turns into its
    text; an exception that derives from [Exception] and on which [str]
    itself raises [x] (a [__str__] that raises, a message that the default
    codec cannot encode); or an exception that does not derive from
    [Exception] (such as [KeyboardInterrupt] or [SystemExit]). *)
Inductive outcome :=
  | Returns (v : pyobj)
  | RaisesException (e : exn)
  | RaisesUnprintable (x : exn)
  | RaisesOther (e : exn).

Module Worker.

Definition CMD_KILL : pyobj := PyStr "CLUSTER_WORKER_KILL".

(** [receiver] is bound from the constructor on ([None] there);
    [sender], [poller] and [cmd_subscriber] exist once [Setup] has bound
    them. *)
Record t := {
  request_receiver : Connect.t;
  result_sender : Connect.t;
  callback : pyobj -> outcome;
  command_receiver : option endpoint;
  receiver_timeout : option Z;
  receiver : option socket;
  sender : option socket;
  poller : option (list sock_id);
  cmd_subscriber : option (option socket)
}.

Definition init (request_receiver result_sender : Connect.t)
    (callback : pyobj -> outcome) (command_receiver : option endpoint)
    (receiver_timeout : option Z) : t :=
  {| request_receiver := request_receiver;
     result_sender := result_sender;
     callback := callback;
     command_receiver := command_receiver;
     receiver_timeout := receiver_timeout;
     receiver := None;
     sender := None;
     poller := None;
     cmd_subscriber := None |}.

Definition update (self : t) (r s : option socket) (p : option (list sock_id))
    (c : option (option socket)) : t :=
  {| request_receiver := request_receiver self;
     result_sender := result_sender self;
     callback := callback self;
     command_receiver := command_receiver self;
     receiver_timeout := receiver_timeout self;
     receiver := r;
     sender := s;
     poller := p;
     cmd_subscriber := c |}.

Definition Setup (self : t) (w : world) : (raised + unit) * t * world :=
  match Connect.MakeSocket (request_receiver self) w None (Some PULL) None None None None with
  | (inl e, w1) => (inl e, self, w1)
  | (inr r, w1) =>
      let self1 := update self (Some r) (sender self) (poller self) (cmd_subscriber self) in
      match Connect.MakeSocket (result_sender self) w1 None (Some PUSH) None None None None with
      | (inl e, w2) => (inl e, self1, w2)
      | (inr s, w2) =>
          let self2 := update self (Some r) (Some s) (Some [DataSock]) (cmd_subscriber self) in
          match command_receiver self with
          | None => (inr tt, update self (Some r) (Some s) (Some [DataSock]) (Some None), w2)
          | Some (BySocket _) => (inl (AttributeError "MakeSocket"), self2, w2)
          | Some (ByConnect c) =>
              match Connect.MakeSocket c w2 None (Some SUB) None
                      (Some {[ SUBSCRIBE := PyStr "" ]}) None None with
              | (inl e, w3) => (inl e, self2, w3)
              | (inr cs, w3) =>
                  (inr tt,
                   update self (Some r) (Some s) (Some [DataSock; CmdSock])
                     (Some (Some cs)),
                   w3)
              end
          end
      end
  end.

(** The two shapes in which a successful [Setup] leaves the worker:
    without and with a command socket. *)
Definition set_up (self : t) : bool :=
  match receiver self, sender self, poller self, cmd_subscriber self with
  | Some _, Some _, Some [DataSock], Some None => true
  | Some _, Some _, Some [DataSock; CmdSock], Some (Some _) => true
  | _, _, _, _ => false
  end.

Definition env := env pyobj ClusterResult.t.

(** How [Run] ends: it returns after the kill command, it raises, it
    waits for ever on a socket, or it is still looping when the fuel is
    spent. *)
Inductive ending :=
  | Returned
  | Raised (e : raised)
  | Blocked
  | Unfinished.

(** The [try] statement: [result] starts as [ClusterResult()]; the
    payload is assigned only when the callback returns, the exception
    only when [except Exception, e] catches it.  The handler first builds
    the line for the log with ["%s" % e], before it touches [result]: when
    [str(e)] raises, that exception leaves the handler, and the [try]
    statement with it. *)
Definition process (cb : pyobj -> outcome) (request : pyobj)
    : raised + ClusterResult.t :=
  let result := ClusterResult.init in
  match cb request with
  | Returns v =>
      inr (ClusterResult.set_status ClusterResult.STATUS_SUCCESS
             (ClusterResult.set_payload v result))
  | RaisesException e =>
      inr (ClusterResult.set_status ClusterResult.STATUS_FAIL
             (ClusterResult.set_exception e result))
  | RaisesUnprintable x => inl (Escaped x)
  | RaisesOther e => inl (Escaped e)
  end.

(** [if self.receiver in socks: ...]; [None] means: go on. *)
Definition serve_request (self : t) (socks : list sock_id) (e : env)
    : option ending * env :=
  if match receiver self with Some _ => mem DataSock socks | None => false end then
    match recv_data (net e) with
    | None => (Some Blocked, e)
    | Some (request, tr1) =>
        let e1 := log (IoCallback request)
                    (log (IoRecvData request) (with_net tr1 e)) in
        match process (callback self) request with
        | inl x => (Some (Raised x), e1)
        | inr result =>
            match sender self with
            | None => (Some (Raised (AttributeError "sender")), e1)
            | Some _ => (None, log (IoSend result) e1)
            end
        end
    end
  else (None, e).

(** [if self.cmd_subscriber in socks: ...] *)
Definition serve_command (self : t) (socks : list sock_id) (e : env)
    : option ending * env :=
  match cmd_subscriber self with
  | None => (Some (Raised (AttributeError "cmd_subscriber")), e)
  | Some cs =>
      if match cs with Some _ => mem CmdSock socks | None => false end then
        match recv_cmd (net e) with
        | None => (Some Blocked, e)
        | Some (cmd, tr1) =>
            let e1 := log (IoRecvCommand cmd) (with_net tr1 e) in
            if bool_decide (cmd = CMD_KILL) then (Some Returned, e1)
            else (None, e1)
        end
      else (None, e)
  end.

(** The body of [while True]. *)
Definition iteration (self : t) (e : env) : option ending * env :=
  match poller self with
  | None => (Some (Raised (AttributeError "poller")), e)
  | Some registered =>
      match poll registered (receiver_timeout self) (net e) with
      | PollBlocks => (Some Blocked, e)
      | PollReturns socks tr1 =>
          let e1 := log (IoPoll (receiver_timeout self)) (with_net tr1 e) in
          match socks with
          | [] => (Some (Raised ReceiverTimeoutException), e1)
          | _ =>
              match serve_request self socks e1 with
              | (None, e2) => serve_command self socks e2
              | stopped => stopped
              end
          end
      end
  end.

Fixpoint loop (fuel : nat) (self : t) (e : env) : ending * env :=
  match fuel with
  | O => (Unfinished, e)
  | S fuel =>
      match iteration self e with
      | (None, e1) => loop fuel self e1
      | (Some r, e1) => (r, e1)
      end
  end.

(** Every turn of the loop that goes on has taken a message off a
    socket. *)
Definition fuel_for (e : env) : nat := S (pending (net e)).

Definition Run (self : t) (e : env) : ending * t * env :=
  let '(r, self1, w1) :=
    match receiver self with
    | None => Setup self (env_world e)
    | Some _ => (inr tt, self, env_world e)
    end in
  match r with
  | inl x => (Raised x, self1, with_world w1 e)
  | inr _ =>
      let e1 := with_world w1 e in
      let '(r1, e2) := loop (fuel_for e1) self1 e1 in
      (r1, self1, e2)
  end.

(** [SendKillCommand], a static method. *)
Definition SendKillCommand (command_sender : endpoint) (w : world)
    : (raised + unit) * world :=
  match materialize command_sender PUB w with
  | (inl e, w1) => (inl e, w1)
  | (inr _, w1) =>
      match time_sleep 1 w1 with
      | (inl e, w2) => (inl e, w2)
      | (inr _, w2) => (inr tt, emit (EvSendPyobj CMD_KILL) w2)
      end
  end.

End Worker.

(** ** Relay devices

    [zmq.device] forwards frames from the frontend to the backend until
    the process ends, so a launch that gets that far does not return: what
    is given back here is the pair of sockets the device runs on.  The
    [logging.info] calls have no part in it. *)

Inductive device_kind := STREAMER | FORWARDER.

Inductive launched :=
  | LaunchRaises (e : raised)
  | DeviceRuns (kind : device_kind) (frontend backend : socket).

Definition LaunchStreamerDevice (frontend_connect backend_connect : Connect.t)
    (w : world) : launched * world :=
  match Connect.MakeSocket frontend_connect w None (Some PULL) (Some true)
          None None None with
  | (inl e, w1) => (LaunchRaises e, w1)
  | (inr frontend, w1) =>
      match Connect.MakeSocket backend_connect w1 None (Some PUSH) (Some true)
              None None None with
      | (inl e, w2) => (LaunchRaises e, w2)
      | (inr backend, w2) => (DeviceRuns STREAMER frontend backend, w2)
      end
  end.

Definition LaunchForwarderDevice (frontend_connect backend_connect : Connect.t)
    (w : world) : launched * world :=
  match Connect.MakeSocket frontend_connect w None (Some SUB) (Some false)
          (Some {[ SUBSCRIBE := PyStr "" ]}) None None with
  | (inl e, w1) => (LaunchRaises e, w1)
  | (inr frontend, w1) =>
      match Connect.MakeSocket backend_connect w1 None (Some PUB) (Some true)
              None None None with
      | (inl e, w2) => (LaunchRaises e, w2)
      | (inr backend, w2) => (DeviceRuns FORWARDER frontend backend, w2)
      end
  end.

(** ** Sample objects *)

Definition world0 : world := {| clock := 0; trace := [] |}.

(** A descriptor of a subscriber with the match-all filter. *)
Definition subscriber : Connect.t :=
  {| Connect.url := Some "tcp://127.0.0.1:5557";
     Connect.type := Some SUB;
     Connect.bind := false;
     Connect.options := Some {[ SUBSCRIBE := PyStr "" ]};
     Connect.pre_delay := None;
     Connect.post_delay := None |}.

Definition plain (u : string) : Connect.t :=
  {| Connect.url := Some u;
     Connect.type := None;
     Connect.bind := false;
     Connect.options := None;
     Connect.pre_delay := None;
     Connect.post_delay := None |}.

Definition push_socket : socket :=
  {| sock_type := PUSH; sockopts := ∅; sock_bound := false;
     sock_url := Some "tcp://127.0.0.1:5555" |}.

Definition pull_socket : socket :=
  {| sock_type := PULL; sockopts := ∅; sock_bound := true;
     sock_url := Some "tcp://127.0.0.1:5556" |}.

Definition sub_socket : socket :=
  {| sock_type := SUB; sockopts := {[ SUBSCRIBE := PyStr "" ]}; sock_bound := false;
     sock_url := Some "tcp://127.0.0.1:5557" |}.

Definition ventilator0 : BasicVentilator.t :=
  BasicVentilator.init (BySocket push_socket) None.

Definition sink0 : BasicSink.t :=
  BasicSink.init (BySocket pull_socket) (Some (BySocket sub_socket)) (Some 100).

(** The sink as [Setup] leaves it. *)
Definition sink1 : BasicSink.t :=
  BasicSink.update sink0 true (Some [DataSock; CmdSock]) (Some pull_socket)
    (Some (Some sub_socket)).

Definition ventilator1 : BasicVentilator.t :=
  {| BasicVentilator.request_sender := BySocket push_socket;
     BasicVentilator._ready := true;
     BasicVentilator.worker_connect_delay := 1;
     BasicVentilator._sender := Some push_socket;
     BasicVentilator._connect_delay := Some 1%Q |}.

(** A callback that returns nothing, such as one that is run for its
    effect. *)
Definition returns_none : pyobj -> outcome := fun _ => Returns PyNone.

(** The callback of the mixed-failure scenario: [3] raises [E("bad")],
    any other number is doubled. *)
Definition bad : exn := {| exn_class := "E"; exn_text := "bad" |}.

Definition double_unless_3 : pyobj -> outcome := fun x =>
  match x with
  | PyInt z => if z =? 3 then RaisesException bad else Returns (PyInt (z * 2))
  | _ => RaisesException {| exn_class := "TypeError"; exn_text := "not a number" |}
  end.

Definition worker0 (cb : pyobj -> outcome) (timeout : option Z) : Worker.t :=
  Worker.init (plain "tcp://127.0.0.1:5555") (plain "tcp://127.0.0.1:5556") cb
    (Some (ByConnect (plain "tcp://127.0.0.1:5557"))) timeout.

(** The worker as [Setup] leaves it. *)
Definition worker1 (cb : pyobj -> outcome) (timeout : option Z) : Worker.t :=
  Worker.update (worker0 cb timeout)
    (Some {| sock_type := PULL; sockopts := ∅; sock_bound := false;
             sock_url := Some "tcp://127.0.0.1:5555" |})
    (Some {| sock_type := PUSH; sockopts := ∅; sock_bound := false;
             sock_url := Some "tcp://127.0.0.1:5556" |})
    (Some [DataSock; CmdSock])
    (Some (Some {| sock_type := SUB; sockopts := {[ SUBSCRIBE := PyStr "" ]};
                   sock_bound := false;
                   sock_url := Some "tcp://127.0.0.1:5557" |})).

(** Surroundings in which [dq] waits on the data socket, [cq] on the
    command socket, and [fut] is still to come. *)
Definition surroundings {A B} (dq : list A) (cq : list pyobj)
    (fut : list (Z * arrival A)) : env A B :=
  {| env_world := world0;
     net := {| data_q := dq; cmd_q := cq; future := fut |};
     io := [] |}.

(** ** The envelope discipline

    A field is populated when it is not [None]. *)
Definition populated (v : pyobj) : Prop := v <> PyNone.

(** The discipline as the specification words it: success, a populated
    payload and an absent exception go together. *)
Definition envelope_discipline (r : ClusterResult.t) : Prop :=
  (ClusterResult.status r = Some ClusterResult.STATUS_SUCCESS
     <-> populated (ClusterResult.payload r)) /\
  (populated (ClusterResult.payload r) <-> ClusterResult.exception r = None).

(** The discipline that the worker keeps, for the envelope [r] that
    answers [request]: the status is one of the two constants; it is the
    success constant exactly when there is no exception; a failure has no
    payload; the payload of a success is what the callback returned on
    [request], and the exception of a failure is what it raised on
    [request]. *)
Definition envelope_wellformed (cb : pyobj -> outcome) (request : pyobj)
    (r : ClusterResult.t) : Prop :=
  (ClusterResult.status r = Some ClusterResult.STATUS_SUCCESS \/
   ClusterResult.status r = Some ClusterResult.STATUS_FAIL) /\
  (ClusterResult.status r = Some ClusterResult.STATUS_SUCCESS
     <-> ClusterResult.exception r = None) /\
  (ClusterResult.status r = Some ClusterResult.STATUS_FAIL
     -> ClusterResult.payload r = PyNone) /\
  (ClusterResult.status r = Some ClusterResult.STATUS_SUCCESS
     -> cb request = Returns (ClusterResult.payload r)) /\
  (forall x, ClusterResult.exception r = Some x -> cb request = RaisesException x).

(** Every envelope sent in the stretch [new] of a log comes right after
    the receipt of a request and the call of the callback on that very
    request, and satisfies [P] for it. *)
Definition answers_only {A B} (P : A -> B -> Prop) (new : list (io_event A B)) : Prop :=
  forall pre r post,
    new = pre ++ IoSend r :: post ->
    exists pre' request,
      pre = pre' ++ [IoRecvData request; IoCallback request] /\ P request r.

(** [e'] is [e] after more has been done, and every envelope sent in
    between answers, in the sense of [P], the request received right
    before it. *)
Definition answering {A B} (P : A -> B -> Prop) (e e' : env A B) : Prop :=
  exists new, io e' = io e ++ new /\ answers_only P new.

(** The envelope of a success. *)
Definition success (v : pyobj) : ClusterResult.t :=
  {| ClusterResult.status := Some ClusterResult.STATUS_SUCCESS;
     ClusterResult.payload := v;
     ClusterResult.exception := None |}.

(** The envelope of a failure. *)
Definition failure (x : exn) : ClusterResult.t :=
  {| ClusterResult.status := Some ClusterResult.STATUS_FAIL;
     ClusterResult.payload := PyNone;
     ClusterResult.exception := Some x |}.

(** Nothing waits on either socket and nothing arrives within [t]
    milliseconds. *)
Definition idle_for {A} (t : Z) (tr : transport A) : Prop :=
  data_q tr = [] /\ cmd_q tr = [] /\
  match future tr with
  | [] => True
  | (d, _) :: _ => t < d
  end.

(** The basic generator [g], made by [Receive(n, t)], is about to look for
    its item number [idx]: it is fresh, or suspended at the [yield] of the
    item before with no command to examine. *)
Definition awaiting (n t : option Z) (idx : Z) (g : BasicSink.generator) : Prop :=
  BasicSink.num_results g = n /\ BasicSink.timeout g = t /\
  match BasicSink.at_ g with
  | BasicSink.Fresh => idx = 0
  | BasicSink.Suspended i _ socks => idx = i + 1 /\ mem CmdSock socks = false
  | BasicSink.Finished => False
  end.

(** An exception that the transport layer or the sink itself raises, as
    opposed to the one that reports a worker's failure. *)
Definition own_error (x : raised) : Prop :=
  match x with
  | RaisedWorkerException _ => False
  | _ => True
  end.

(** ** Vocabulary for the traces *)

(** A delay that [time.sleep] accepts; one that is not configured is not
    slept at all. *)
Definition acceptable (d : option Q) : Prop :=
  match d with
  | Some d => Qle_bool 0 d = true
  | None => True
  end.

(** The reading of the clock after an optional sleep. *)
Definition after (d : option Q) (c : Q) : Q :=
  match d with
  | Some d => (c + d)%Q
  | None => c
  end.

(** The trace of an optional sleep that starts at [c]. *)
Definition sleep_events (d : option Q) (c : Q) : list (Q * event) :=
  match d with
  | Some d => [(c, EvSleep d)]
  | None => []
  end.

(** The objects sent, in order. *)
Definition sent_objects (tr : list (Q * event)) : list pyobj :=
  omap (fun te => match te.2 with EvSendPyobj o => Some o | _ => None end) tr.

(** The envelopes a worker has sent, in order. *)
Definition sent_envelopes {A B} (l : list (io_event A B)) : list B :=
  omap (fun ev => match ev with IoSend r => Some r | _ => None end) l.

(** The commands taken off the command socket, in order. *)
Definition received_commands {A B} (l : list (io_event A B)) : list pyobj :=
  omap (fun ev => match ev with IoRecvCommand c => Some c | _ => None end) l.

(** The number of polls made. *)
Definition polls {A B} (l : list (io_event A B)) : nat :=
  length (omap (fun ev => match ev with IoPoll t => Some t | _ => None end) l).

(** A descriptor without an end-point. *)
Definition nowhere : Connect.t :=
  {| Connect.url := None;
     Connect.type := None;
     Connect.bind := false;
     Connect.options := None;
     Connect.pre_delay := None;
     Connect.post_delay := None |}.

(** A descriptor that asks for the opposite of what a relay device needs:
    it would connect a PUB socket, after a pause of half a second. *)
Definition contrary : Connect.t :=
  {| Connect.url := Some "tcp://127.0.0.1:5560";
     Connect.type := Some PUB;
     Connect.bind := false;
     Connect.options := Some {[ 1 := PyInt 1000 ]};
     Connect.pre_delay := Some (1 # 2)%Q;
     Connect.post_delay := None |}.

(** The timeout with which the basic generator [g] polls when it is asked
    for its next item: the one resolved at its first step, kept in the
    suspended frame from then on. *)
Definition polls_with (t1 : option Z) (sink : BasicSink.t)
    (g : BasicSink.generator) : Prop :=
  match BasicSink.at_ g with
  | BasicSink.Fresh =>
      match BasicSink.timeout g with
      | None => BasicSink.receive_timeout sink
      | Some _ => BasicSink.timeout g
      end = t1
  | BasicSink.Suspended _ t' _ => t' = t1
  | BasicSink.Finished => True
  end.

(** How a wait with the timeout [t1] ends when nothing arrives. *)
Definition gives_up {Y} (t1 : option Z) : step Y :=
  match budget_of t1 with
  | None => Blocks
  | Some _ => Raise ReceiverTimeoutException
  end.

(** How the loop of a worker ends when nothing arrives. *)
Definition worker_gives_up (t1 : option Z) : Worker.ending :=
  match budget_of t1 with
  | None => Worker.Blocked
  | Some _ => Worker.Raised ReceiverTimeoutException
  end.

(** Nothing waits and nothing is to come. *)
Definition quiet {A} : transport A :=
  {| data_q := []; cmd_q := []; future := [] |}.

(** A callback that cannot be interrupted from inside: on [PyInt 0] it
    raises [SystemExit], which is not an [Exception]. *)
Definition exits_on_0 : pyobj -> outcome := fun x =>
  match x with
  | PyInt 0 => RaisesOther {| exn_class := "SystemExit"; exn_text := "0" |}
  | _ => Returns x
  end.

(** A callback that raises an [Exception] that cannot be printed: its
    message is a unicode string outside ASCII, on which [str] raises. *)
Definition garbled : pyobj -> outcome := fun _ =>
  RaisesUnprintable {| exn_class := "UnicodeEncodeError";
                       exn_text := "ascii codec cannot encode character" |}.

(** ** Facts about dictionaries and [MakeSocket] *)

Lemma foldl_insert_union (l : list (Z * pyobj)) (m : gmap Z pyobj) :
  NoDup l.*1 ->
  foldl (fun m kv => <[kv.1 := kv.2]> m) m l = list_to_map l ∪ m.
Proof.
  revert m. induction l as [|[k v] l IH]; intros m Hnd; simpl.
  - by rewrite (left_id_L ∅ (∪)).
  - inversion Hnd as [|? ? Hk Hnd']; subst.
    rewrite IH by done.
    rewrite <- insert_union_l. symmetry.
    apply insert_union_r.
    by apply not_elem_of_list_to_map_1.
Qed.

Lemma py_dict_items_app (a b : gmap Z pyobj) :
  py_dict (items a ++ items b) = b ∪ a.
Proof.
  unfold py_dict, items. rewrite foldl_app.
  rewrite !foldl_insert_union by apply NoDup_fst_map_to_list.
  rewrite !list_to_map_to_list.
  by rewrite (right_id_L ∅ (∪)).
Qed.

Lemma foldl_setsockopt (l : list (Z * pyobj)) (s : socket) (w : world) :
  sockopts (foldl (fun sw kv => setsockopt kv.1 kv.2 sw) (s, w) l).1 =
  foldl (fun m kv => <[kv.1 := kv.2]> m) (sockopts s) l.
Proof.
  revert s w. induction l as [|[k v] l IH]; intros s w; simpl; [done|].
  unfold setsockopt at 2. simpl. by rewrite IH.
Qed.

(** The options on the socket that [MakeSocket] returns are the merged
    dictionary. *)
Lemma MakeSocket_sockopts self w u ty b o pre post s w' :
  Connect.MakeSocket self w u ty b o pre post = (inr s, w') ->
  sockopts s = Connect.merged_options self o.
Proof.
  unfold Connect.MakeSocket.
  destruct (Connect.or_else ty _) as [t1|]; [|done].
  destruct (sleep_opt _ _) as [[?|?] w2]; [done|].
  destruct (Connect.or_else u _) as [u1|]; [|done].
  destruct (sleep_opt _ _) as [[?|?] w4]; [done|].
  intros [= <- <-]. simpl.
  rewrite foldl_setsockopt. simpl.
  unfold items. rewrite foldl_insert_union by apply NoDup_fst_map_to_list.
  rewrite list_to_map_to_list. by rewrite (right_id_L ∅ (∪)).
Qed.

(** With options on both sides the merged dictionary is the union in which
    the descriptor's entry is kept on a common key. *)
Lemma merged_options_union self own o :
  Connect.options self = Some own ->
  Connect.merged_options self (Some o) = own ∪ o.
Proof.
  intros H. unfold Connect.merged_options. rewrite H.
  apply py_dict_items_app.
Qed.

(** The keys applied are the union of the keys of both dictionaries, and
    on a key of the descriptor the descriptor's value is applied, whatever
    the caller gave for it. *)
Lemma MakeSocket_descriptor_wins self w u ty b own o pre post s w' :
  Connect.options self = Some own ->
  Connect.MakeSocket self w u ty b (Some o) pre post = (inr s, w') ->
  dom (sockopts s) = dom own ∪ dom o /\
  (forall k v, own !! k = Some v -> sockopts s !! k = Some v) /\
  (forall k, own !! k = None -> sockopts s !! k = o !! k).
Proof.
  intros Hown Hmk. apply MakeSocket_sockopts in Hmk.
  rewrite Hmk, (merged_options_union _ own) by done.
  split; [by rewrite dom_union_L|]. split.
  - intros k v Hk. by apply lookup_union_Some_l.
  - intros k Hk. by apply lookup_union_r.
Qed.

(** C1, at the input of the option-merge scenario: the descriptor carries
    [{SUBSCRIBE: ""}] and the caller overrides with [{SUBSCRIBE: "foo"}].
    The socket is created, [SUBSCRIBE] is the only option applied, and its
    value is the descriptor's [""], not the caller's ["foo"]. *)
Theorem MakeSocket_override_is_overridden :
  exists s w,
    Connect.MakeSocket subscriber world0 None None None
      (Some {[ SUBSCRIBE := PyStr "foo" ]}) None None = (inr s, w) /\
    sockopts s = {[ SUBSCRIBE := PyStr "" ]} /\
    sockopts s !! SUBSCRIBE <> Some (PyStr "foo").
Proof.
  destruct (Connect.MakeSocket subscriber world0 None None None
              (Some {[ SUBSCRIBE := PyStr "foo" ]}) None None)
    as [[x|s] w] eqn:E.
  - vm_compute in E. discriminate.
  - exists s, w. split; [done|].
    assert (sockopts s = {[ SUBSCRIBE := PyStr "" ]}) as ->.
    { apply MakeSocket_sockopts in E. rewrite E.
      rewrite (merged_options_union subscriber {[ SUBSCRIBE := PyStr "" ]}) by done.
      apply map_eq. intros k. rewrite lookup_union.
      destruct (decide (k = SUBSCRIBE)) as [->|Hne].
      - by rewrite !lookup_singleton_eq.
      - by rewrite !lookup_singleton_ne. }
    split; [done|]. by rewrite lookup_singleton_eq.
Qed.

(** ** The ventilator *)


(** [Setup] records the reading of the clock, taken once the socket is
    there, plus the configured delay. *)
Lemma Setup_records_ready_instant self w self' w' :
  BasicVentilator.Setup self w = (inr tt, self', w') ->
  BasicVentilator._connect_delay self' =
    Some (time_time w' + BasicVentilator.worker_connect_delay self)%Q /\
  BasicVentilator._ready self' = true.
Proof.
  unfold BasicVentilator.Setup.
  destruct (materialize _ _ _) as [[x|s] w1]; [done|].
  by intros [= <- <-].
Qed.

Lemma send_all_trace self s requests n w :
  BasicVentilator._sender self = Some s ->
  BasicVentilator.send_all self requests n w =
    (inr (n + Z.of_nat (length requests)),
     {| clock := clock w;
        trace := trace w ++ map (fun r => (clock w, EvSendPyobj r)) requests |}).
Proof.
  intros Hs. revert n w.
  induction requests as [|r rest IH]; intros n w; simpl.
  - rewrite Z.add_0_r, app_nil_r. by destruct w.
  - rewrite Hs, IH. simpl. f_equal; [f_equal; lia|].
    by rewrite <- app_assoc.
Qed.

(** What [Send] does on a ventilator that is set up: it sleeps exactly
    when the clock is past the recorded instant, and then for the time by
    which it is past it. *)
Lemma Send_when_ready self s ready_at requests w :
  BasicVentilator._ready self = true ->
  BasicVentilator._sender self = Some s ->
  BasicVentilator._connect_delay self = Some ready_at ->
  BasicVentilator.Send self requests w =
    if BasicVentilator.positive (clock w - ready_at)
    then (inr (Z.of_nat (length requests)), self,
          {| clock := (clock w + (clock w - ready_at))%Q;
             trace := (trace w ++ [(clock w, EvSleep (clock w - ready_at)%Q)])
                      ++ map (fun r => ((clock w + (clock w - ready_at))%Q,
                                        EvSendPyobj r)) requests |})
    else (inr (Z.of_nat (length requests)), self,
          {| clock := clock w;
             trace := trace w ++ map (fun r => (clock w, EvSendPyobj r)) requests |}).
Proof.
  intros Hr Hs Hd. unfold BasicVentilator.Send. rewrite Hr, Hd.
  unfold time_time.
  destruct (BasicVentilator.positive _) eqn:Hpos.
  - unfold time_sleep.
    assert (Qle_bool 0 (clock w - ready_at) = true) as ->.
    { unfold BasicVentilator.positive in Hpos.
      apply negb_true_iff in Hpos.
      apply Qle_bool_iff.
      destruct (Qlt_le_dec 0 (clock w - ready_at)) as [Hlt|Hle].
      - by apply Qlt_le_weak.
      - apply Qle_bool_iff in Hle. congruence. }
    by rewrite (send_all_trace _ s).
  - by rewrite (send_all_trace _ s).
Qed.

(** C2, at two inputs.  A ventilator with the default delay of one second
    is given a live socket.  (1) Its first [Send], at clock 0, sets it up
    with the ready instant 1 and transmits the payload at clock 0, with no
    sleep: before the ready instant.  (2) A [Send] at clock 3, after the
    ready instant, sleeps 2 seconds and transmits at clock 5. *)
Theorem Send_sleeps_after_ready_not_before :
  (exists v w,
     BasicVentilator.Send ventilator0 [PyInt 7] world0 = (inr 1, v, w) /\
     BasicVentilator._connect_delay v = Some 1%Q /\
     trace w = [(0%Q, EvSendPyobj (PyInt 7))]) /\
  (exists v v' w,
     BasicVentilator.Setup ventilator0 world0 = (inr tt, v, world0) /\
     BasicVentilator._connect_delay v = Some 1%Q /\
     BasicVentilator.Send v [PyInt 7] {| clock := 3; trace := [] |}
       = (inr 1, v', w) /\
     trace w = [(3%Q, EvSleep 2); (5%Q, EvSendPyobj (PyInt 7))]).
Proof.
  split.
  - eexists _, _. split; [vm_compute; reflexivity|]. split; reflexivity.
  - eexists _, _, _. split; [vm_compute; reflexivity|].
    split; [reflexivity|]. split; [vm_compute; reflexivity|reflexivity].
Qed.

(** ** Shutdown *)




Lemma sink1_is_Setup : BasicSink.Setup sink0 world0 = (inr tt, sink1, world0).
Proof. reflexivity. Qed.

Lemma ventilator1_is_Setup :
  BasicVentilator.Setup ventilator0 world0 = (inr tt, ventilator1, world0).
Proof. vm_compute. reflexivity. Qed.

(** C9 as stated fails: on the ventilator and on the sink that [Setup]
    has just made, the first [Shutdown] succeeds and the second one
    raises. *)
Lemma Shutdown_twice_raises :
  (exists v,
     BasicVentilator.Shutdown ventilator1 = (inr tt, v) /\
     BasicVentilator.Shutdown v = (inl (AttributeError "_sender"), v)) /\
  (exists k,
     BasicSink.Shutdown sink1 = (inr tt, k) /\
     BasicSink.Shutdown k = (inl (AttributeError "_poller"), k)).
Proof. split; eexists; split; reflexivity. Qed.

(** C9, amended: on a ventilator and on a sink whose sockets are bound,
    [Shutdown] succeeds and removes them; it is not idempotent, a second
    [Shutdown] raises [AttributeError] and changes nothing. *)
Theorem Shutdown_succeeds_once
    (v : BasicVentilator.t) (s : socket)
    (k : BasicSink.t) (p : list sock_id) (r : socket) (c : option socket) :
  BasicVentilator._sender v = Some s ->
  BasicSink._poller k = Some p ->
  BasicSink._receiver_socket k = Some r ->
  BasicSink._command_socket k = Some c ->
  (exists v',
     BasicVentilator.Shutdown v = (inr tt, v') /\
     BasicVentilator._sender v' = None /\
     BasicVentilator._ready v' = false /\
     BasicVentilator.Shutdown v' = (inl (AttributeError "_sender"), v')) /\
  (exists k',
     BasicSink.Shutdown k = (inr tt, k') /\
     BasicSink._poller k' = None /\
     BasicSink._receiver_socket k' = None /\
     BasicSink._command_socket k' = None /\
     BasicSink.Shutdown k' = (inl (AttributeError "_poller"), k')).
Proof.
  intros Hs Hp Hr Hc. split.
  - unfold BasicVentilator.Shutdown. rewrite Hs.
    eexists. split; [reflexivity|]. simpl. done.
  - unfold BasicSink.Shutdown. rewrite Hp. simpl. rewrite Hr. simpl. rewrite Hc.
    eexists. split; [reflexivity|]. simpl. done.
Qed.

Lemma Shutdown_succeeds_once_witness :
  (exists v',
     BasicVentilator.Shutdown ventilator1 = (inr tt, v') /\
     BasicVentilator._sender v' = None /\
     BasicVentilator._ready v' = false /\
     BasicVentilator.Shutdown v' = (inl (AttributeError "_sender"), v')) /\
  (exists k',
     BasicSink.Shutdown sink1 = (inr tt, k') /\
     BasicSink._poller k' = None /\
     BasicSink._receiver_socket k' = None /\
     BasicSink._command_socket k' = None /\
     BasicSink.Shutdown k' = (inl (AttributeError "_poller"), k')).
Proof.
  apply (Shutdown_succeeds_once ventilator1 push_socket sink1
           [DataSock; CmdSock] pull_socket (Some sub_socket));
    reflexivity.
Defined.

(** ** The worker's envelopes *)

Lemma Setup_keeps_callback self w r self' w' :
  Worker.Setup self w = (r, self', w') ->
  Worker.callback self' = Worker.callback self.
Proof.
  unfold Worker.Setup.
  destruct (Connect.MakeSocket _ _ _ _ _ _ _ _) as [[?|?] ?]; [by intros [= <- <- <-]|].
  destruct (Connect.MakeSocket _ _ _ _ _ _ _ _) as [[?|?] ?]; [by intros [= <- <- <-]|].
  destruct (Worker.command_receiver self) as [[c|?]|]; try by intros [= <- <- <-].
  destruct (Connect.MakeSocket _ _ _ _ _ _ _ _) as [[?|?] ?]; by intros [= <- <- <-].
Qed.

(** C3 as stated fails: a worker whose callback returns [None] sends, for
    the request [1], an envelope whose status is the success constant and
    whose payload is not populated. *)
Lemma envelope_discipline_fails_on_None :
  exists r,
    IoSend r ∈ io (Worker.Run (worker0 returns_none None)
                     (surroundings [PyInt 1] [Worker.CMD_KILL] [])).2 /\
    ClusterResult.status r = Some ClusterResult.STATUS_SUCCESS /\
    ~ envelope_discipline r.
Proof.
  exists {| ClusterResult.status := Some ClusterResult.STATUS_SUCCESS;
            ClusterResult.payload := PyNone;
            ClusterResult.exception := None |}.
  split; [|split; [done|]].
  - vm_compute. apply list_elem_of_In. vm_compute. tauto.
  - intros [H _]. simpl in H. apply H; done.
Qed.

(** ** The worker loop *)

Lemma poll_ready {A} registered timeout (tr : transport A) s socks :
  ready_socks registered (data_q tr) (cmd_q tr) = s :: socks ->
  poll registered timeout tr = PollReturns (s :: socks) tr.
Proof. unfold poll. by intros ->. Qed.

Lemma mem_ready_cmd {A} registered (dq : list A) (cq : list pyobj) :
  mem CmdSock (ready_socks registered dq cq) = true ->
  exists c cq', cq = c :: cq'.
Proof.
  destruct cq as [|c cq']; [|eauto]. intros H. exfalso.
  induction registered as [|[] registered IH]; simpl in H; [done| |by auto].
  destruct dq; simpl in H; auto.
Qed.

Lemma Worker_set_up_shape self :
  Worker.set_up self = true ->
  exists r s,
    Worker.receiver self = Some r /\ Worker.sender self = Some s /\
    ((Worker.poller self = Some [DataSock] /\ Worker.cmd_subscriber self = Some None) \/
     (Worker.poller self = Some [DataSock; CmdSock] /\
      exists c, Worker.cmd_subscriber self = Some (Some c))).
Proof.
  unfold Worker.set_up.
  destruct (Worker.receiver self) as [r|]; [|done].
  destruct (Worker.sender self) as [s|]; [|done].
  destruct (Worker.poller self) as [[|[] [|[] [|]]]|]; try done;
    destruct (Worker.cmd_subscriber self) as [[c|]|]; try done; intros _;
    exists r, s; eauto 10.
Qed.

(** ** The basic sink's generator *)

Lemma BasicSink_set_up_shape sink :
  BasicSink.set_up sink = true ->
  BasicSink._ready sink = true /\
  exists rs,
    BasicSink._receiver_socket sink = Some rs /\
    ((BasicSink._poller sink = Some [DataSock] /\
      BasicSink._command_socket sink = Some None) \/
     (BasicSink._poller sink = Some [DataSock; CmdSock] /\
      exists c, BasicSink._command_socket sink = Some (Some c))).
Proof.
  unfold BasicSink.set_up. intros H. apply andb_true_iff in H as [Hr H].
  split; [done|].
  destruct (BasicSink._poller sink) as [[|[] [|[] [|]]]|]; try done;
    destruct (BasicSink._receiver_socket sink) as [rs|]; try done;
    destruct (BasicSink._command_socket sink) as [[c|]|]; try done;
    exists rs; eauto 10.
Qed.

(** At the top of the loop with an envelope waiting: the envelope is
    received and yielded, and the generator is suspended with the set of
    sockets that the poll reported. *)
Lemma run_top_yield fuel n t sink idx (k : BasicSink.env) envelope dq reg rs :
  BasicSink._poller sink = Some (DataSock :: reg) ->
  BasicSink._receiver_socket sink = Some rs ->
  data_q (net k) = envelope :: dq ->
  match n with Some m => idx < m | None => True end ->
  BasicSink.run (S fuel) n t sink (BasicSink.AtTop idx) k =
    (Yield envelope,
     BasicSink.Suspended idx t
       (ready_socks (DataSock :: reg) (data_q (net k)) (cmd_q (net k))),
     log (IoRecvData envelope)
       (with_net {| data_q := dq; cmd_q := cmd_q (net k); future := future (net k) |}
          (log (IoPoll t) k))).
Proof.
  intros Hp Hrs Hdq Hn. simpl.
  assert (match n with Some m => m <=? idx | None => false end = false) as ->.
  { destruct n; [|done]. apply Z.leb_gt. lia. }
  rewrite Hp.
  assert (ready_socks (DataSock :: reg) (data_q (net k)) (cmd_q (net k))
          = DataSock :: ready_socks reg (data_q (net k)) (cmd_q (net k))) as Hready.
  { rewrite Hdq. reflexivity. }
  rewrite (poll_ready _ _ _ _ _ Hready).
  rewrite Hrs. simpl. unfold recv_data. rewrite Hdq. simpl.
  by destruct k.
Qed.

(** Resumed after a [yield] with the command socket in the reported set:
    the command is received; the kill command ends the generator, any
    other command is dropped and the loop goes on. *)
Lemma run_command_recv fuel n t sink idx socks (k : BasicSink.env) c cq cs :
  BasicSink._command_socket sink = Some (Some cs) ->
  mem CmdSock socks = true ->
  cmd_q (net k) = c :: cq ->
  BasicSink.run (S fuel) n t sink (BasicSink.AtCommand idx socks) k =
    let k1 := log (IoRecvCommand c)
                (with_net {| data_q := data_q (net k); cmd_q := cq;
                             future := future (net k) |} k) in
    if bool_decide (c = BasicSink.CMD_KILL)
    then (StopIteration, BasicSink.Finished, k1)
    else BasicSink.run fuel n t sink (BasicSink.AtTop idx) k1.
Proof.
  intros Hcs Hmem Hcq. simpl. rewrite Hcs, Hmem.
  unfold recv_cmd. by rewrite Hcq.
Qed.

Lemma run_command_skip fuel n t sink idx socks (k : BasicSink.env) cs :
  BasicSink._command_socket sink = Some cs ->
  mem CmdSock socks = false ->
  BasicSink.run (S fuel) n t sink (BasicSink.AtCommand idx socks) k =
    BasicSink.run fuel n t sink (BasicSink.AtTop idx) k.
Proof.
  intros Hcs Hmem. simpl. rewrite Hcs, Hmem. by destruct cs.
Qed.


(** The first step of a fresh generator on a sink that is set up enters
    the loop with the timeout of the call, or the sink's own when the call
    gives none. *)
Lemma next_fresh_ready n t sink (k : BasicSink.env) :
  BasicSink._ready sink = true ->
  BasicSink.next (BasicSink.Receive n t) sink k =
    let t1 := match t with None => BasicSink.receive_timeout sink | Some _ => t end in
    let '(r, pc1, k1) :=
      BasicSink.run (BasicSink.fuel_for k) n t1 sink (BasicSink.AtTop 0) k in
    (r, {| BasicSink.num_results := n; BasicSink.timeout := t; BasicSink.at_ := pc1 |},
     sink, k1).
Proof.
  intros Hr. unfold BasicSink.next. simpl. rewrite Hr.
  assert (with_world (env_world k) k = k) as -> by (by destruct k).
  done.
Qed.

(** A suspended generator resumes after its [yield]: [idx += 1], then the
    command socket. *)
Lemma next_suspended n t idx t1 socks sink (k : BasicSink.env) :
  BasicSink.next
    {| BasicSink.num_results := n; BasicSink.timeout := t;
       BasicSink.at_ := BasicSink.Suspended idx t1 socks |} sink k =
    let '(r, pc1, k1) :=
      BasicSink.run (BasicSink.fuel_for k) n t1 sink
        (BasicSink.AtCommand (idx + 1) socks) k in
    (r, {| BasicSink.num_results := n; BasicSink.timeout := t; BasicSink.at_ := pc1 |},
     sink, k1).
Proof. reflexivity. Qed.

(** ** Timeouts *)

Lemma ready_socks_nil {A} registered :
  ready_socks (A := A) registered [] [] = [].
Proof. induction registered as [|[] registered IH]; simpl; auto. Qed.

(** A poll with a limit of [t] milliseconds on idle sockets returns
    without any socket, zero included. *)
Lemma poll_idle {A} registered t (tr : transport A) :
  0 <= t -> idle_for t tr ->
  exists tr', poll registered (Some t) tr = PollReturns [] tr'.
Proof.
  intros Ht (Hdq & Hcq & Hfut). unfold poll. rewrite Hdq, Hcq, ready_socks_nil.
  unfold budget_of. assert ((t <? 0) = false) as -> by (apply Z.ltb_ge; lia).
  destruct (future tr) as [|[d a] rest]; simpl; [eauto|].
  assert ((d <=? t) = false) as -> by (apply Z.leb_gt; lia). eauto.
Qed.

(** A poll without a limit never returns without a socket. *)
Lemma wait_unlimited {A} registered fut (dq : list A) cq socks tr :
  wait registered None fut dq cq = PollReturns socks tr -> socks <> [].
Proof.
  revert dq cq. induction fut as [|[d a] rest IH]; intros dq cq; simpl; [done|].
  destruct (ready_socks registered _ _) eqn:Hready; [apply IH|].
  by intros [= <- <-].
Qed.

Lemma poll_times_out {A} registered t d (a : arrival A) rest :
  0 <= t < d ->
  poll registered (Some t) {| data_q := []; cmd_q := []; future := (d, a) :: rest |}
    = PollReturns [] {| data_q := []; cmd_q := []; future := (d - t, a) :: rest |}.
Proof.
  intros Ht. unfold poll. simpl. rewrite ready_socks_nil.
  unfold budget_of. assert ((t <? 0) = false) as -> by (apply Z.ltb_ge; lia).
  simpl. by assert ((d <=? t) = false) as -> by (apply Z.leb_gt; lia).
Qed.

Lemma Run_when_set_up self (e : Worker.env) :
  Worker.set_up self = true ->
  Worker.Run self e =
    let '(r, e1) := Worker.loop (Worker.fuel_for e) self e in (r, self, e1).
Proof.
  intros Hset. destruct (Worker_set_up_shape _ Hset) as (r & s & Hr & _).
  unfold Worker.Run. rewrite Hr.
  by assert (with_world (env_world e) e = e) as -> by (by destruct e).
Qed.

(** ** The strict sink *)

Lemma basic_next_yields n t idx g sink (k : BasicSink.env) envelope dq :
  BasicSink.set_up sink = true ->
  awaiting n t idx g ->
  data_q (net k) = envelope :: dq ->
  cmd_q (net k) = [] ->
  match n with Some m => idx < m | None => True end ->
  exists g' k',
    BasicSink.next g sink k = (Yield envelope, g', sink, k') /\
    awaiting n t (idx + 1) g' /\
    net k' = {| data_q := dq; cmd_q := []; future := future (net k) |} /\
    exists t1, io k' = io k ++ [IoPoll t1; IoRecvData envelope].
Proof.
  intros Hset (Hn & Ht & Hat) Hdq Hcq Hidx.
  destruct (BasicSink_set_up_shape _ Hset) as (Hready & rs & Hrs & Hshape).
  assert (exists reg, BasicSink._poller sink = Some (DataSock :: reg))
    as [reg Hreg] by (destruct Hshape as [[-> _]|[-> _]]; eauto).
  assert (exists cs, BasicSink._command_socket sink = Some cs)
    as [cs Hcs] by (destruct Hshape as [[_ ->]|[_ [c ->]]]; eauto).
  assert (mem CmdSock (ready_socks (DataSock :: reg) (data_q (net k)) (cmd_q (net k)))
          = false) as Hnocmd.
  { destruct (mem CmdSock _) eqn:Hmem; [|done].
    apply mem_ready_cmd in Hmem as (c & cq' & Hc). congruence. }
  destruct g as [n0 t0 pc0]. simpl in Hn, Ht, Hat. subst n0 t0.
  destruct pc0 as [|i t1 socks|]; [| |done].
  - subst idx.
    change {| BasicSink.num_results := n; BasicSink.timeout := t;
              BasicSink.at_ := BasicSink.Fresh |} with (BasicSink.Receive n t).
    rewrite next_fresh_ready by done. cbv zeta.
    unfold BasicSink.fuel_for.
    rewrite (run_top_yield _ _ _ _ _ _ _ _ _ _ Hreg Hrs Hdq Hidx).
    eexists _, _. split; [reflexivity|]. split; [|split].
    + split; [done|]. split; [done|]. simpl. split; [lia|exact Hnocmd].
    + simpl. by rewrite Hcq.
    + eexists. simpl. by rewrite <- app_assoc.
  - destruct Hat as [-> Hmem]. rewrite next_suspended.
    unfold BasicSink.fuel_for.
    rewrite (run_command_skip _ _ _ _ _ _ _ _ Hcs Hmem).
    rewrite (run_top_yield _ _ _ _ _ _ _ _ _ _ Hreg Hrs Hdq Hidx).
    eexists _, _. split; [reflexivity|]. split; [|split].
    + split; [done|]. split; [done|]. simpl. split; [lia|exact Hnocmd].
    + simpl. by rewrite Hcq.
    + eexists. simpl. by rewrite <- app_assoc.
Qed.

(** One turn of the strict sink's [for] loop on a waiting envelope: a
    success is unwrapped to its payload, anything else raises and
    finishes the generator; in both cases exactly that envelope has been
    taken off the socket. *)
Lemma iterate_step n t idx g inner sink (k : BasicSink.env) envelope dq :
  BasicSink.set_up sink = true ->
  awaiting n t idx inner ->
  data_q (net k) = envelope :: dq ->
  cmd_q (net k) = [] ->
  match n with Some m => idx < m | None => True end ->
  exists inner' k',
    awaiting n t (idx + 1) inner' /\
    net k' = {| data_q := dq; cmd_q := []; future := future (net k) |} /\
    Sink.iterate g inner sink k =
      if bool_decide (ClusterResult.status envelope = Some ClusterResult.STATUS_SUCCESS)
      then (Yield (ClusterResult.payload envelope),
            Sink.goto g (Sink.Iterating inner'), sink, k')
      else (Raise (RaisedWorkerException
                     (Sink.make_WorkerException (ClusterResult.exception envelope))),
            Sink.goto g Sink.Finished, sink, k').
Proof.
  intros Hset Hinner Hdq Hcq Hidx.
  destruct (basic_next_yields _ _ _ _ _ _ _ _ Hset Hinner Hdq Hcq Hidx)
    as (inner' & k' & Hnext & Hawait & Hnet & _).
  exists inner', k'. split; [done|]. split; [done|].
  unfold Sink.iterate. by rewrite Hnext.
Qed.


(** ** What the strict sink raises *)

Lemma sleep_opt_own_error d w x w' :
  sleep_opt d w = (inl x, w') -> own_error x.
Proof.
  destruct d as [d|]; simpl; [|done]. unfold time_sleep.
  destruct (Qle_bool 0 d); [done|]. by intros [= <- <-].
Qed.

Lemma MakeSocket_own_error self w u ty b o pre post x w' :
  Connect.MakeSocket self w u ty b o pre post = (inl x, w') -> own_error x.
Proof.
  unfold Connect.MakeSocket.
  destruct (Connect.or_else ty _); [|by intros [= <- <-]].
  destruct (sleep_opt _ _) as [[y|?] w2] eqn:Hpre.
  { intros [= <- <-]. by eapply sleep_opt_own_error. }
  destruct (Connect.or_else u _); [|by intros [= <- <-]].
  destruct (sleep_opt (Connect.or_else post _) _) as [[y|?] w4] eqn:Hpost;
    [|intros H; discriminate H].
  intros [= <- <-]. by eapply sleep_opt_own_error.
Qed.

Lemma materialize_own_error c ty w x w' :
  materialize c ty w = (inl x, w') -> own_error x.
Proof. destruct c; simpl; [apply MakeSocket_own_error|done]. Qed.

Lemma BasicSink_Setup_own_error sink w x sink' w' :
  BasicSink.Setup sink w = (inl x, sink', w') -> own_error x.
Proof.
  unfold BasicSink.Setup.
  destruct (materialize _ PULL w) as [[y|rs] w1] eqn:H1.
  { intros [= <- <- <-]. by eapply materialize_own_error. }
  destruct (BasicSink.command_receiver sink) as [c|]; [|done].
  destruct (materialize c SUB w1) as [[y|cs] w2] eqn:H2; [|done].
  intros [= <- <- <-]. by eapply materialize_own_error.
Qed.

Lemma run_own_error fuel n t sink pos (k : BasicSink.env) x pc k' :
  BasicSink.run fuel n t sink pos k = (Raise x, pc, k') -> own_error x.
Proof.
  revert pos k. induction fuel as [|fuel IH]; intros pos k; simpl; [done|].
  destruct pos as [idx|idx socks].
  - destruct (match n with Some m => m <=? idx | None => false end); [done|].
    destruct (BasicSink._poller sink) as [registered|]; [|by intros [= <- <- <-]].
    destruct (poll _ _ _) as [|socks tr1]; [done|].
    destruct socks as [|s socks]; [by intros [= <- <- <-]|].
    destruct (BasicSink._receiver_socket sink); [|by intros [= <- <- <-]].
    destruct (mem DataSock (s :: socks)); [|apply IH].
    by destruct (recv_data _) as [[result tr2]|].
  - destruct (BasicSink._command_socket sink) as [cs|]; [|by intros [= <- <- <-]].
    destruct (match cs with Some _ => _ | None => _ end); [|apply IH].
    destruct (recv_cmd _) as [[cmd tr1]|]; [|done].
    destruct (bool_decide _); [done|apply IH].
Qed.

(** The basic sink raises only errors of its own. *)
Lemma BasicSink_next_own_error g sink (k : BasicSink.env) x g' sink' k' :
  BasicSink.next g sink k = (Raise x, g', sink', k') -> own_error x.
Proof.
  unfold BasicSink.next. destruct (BasicSink.at_ g) as [|idx t1 socks|]; [| |done].
  - destruct (if BasicSink._ready sink then _ else _) as [[[y|?] self1] w1] eqn:Hsetup.
    + intros [= <- <- <- <-].
      destruct (BasicSink._ready sink); [done|]. by eapply BasicSink_Setup_own_error.
    + destruct (BasicSink.run _ _ _ _ _ _) as [[r pc1] k1] eqn:Hrun.
      intros [= -> <- <- <-]. by eapply run_own_error.
  - destruct (BasicSink.run _ _ _ _ _ _) as [[r pc1] k1] eqn:Hrun.
    intros [= -> <- <- <-]. by eapply run_own_error.
Qed.

Lemma run_yield_last fuel n t sink pos (k : BasicSink.env) result pc k' :
  BasicSink.run fuel n t sink pos k = (Yield result, pc, k') ->
  exists prefix, io k' = prefix ++ [IoRecvData result].
Proof.
  revert pos k. induction fuel as [|fuel IH]; intros pos k; simpl; [done|].
  destruct pos as [idx|idx socks].
  - destruct (match n with Some m => m <=? idx | None => false end); [done|].
    destruct (BasicSink._poller sink) as [registered|]; [|done].
    destruct (poll _ _ _) as [|socks tr1]; [done|].
    destruct socks as [|s socks]; [done|].
    destruct (BasicSink._receiver_socket sink); [|done].
    destruct (mem DataSock (s :: socks)); [|apply IH].
    destruct (recv_data _) as [[result' tr2]|]; [|done].
    intros [= <- <- <-]. simpl. eauto.
  - destruct (BasicSink._command_socket sink) as [cs|]; [|done].
    destruct (match cs with Some _ => _ | None => _ end); [|apply IH].
    destruct (recv_cmd _) as [[cmd tr1]|]; [|done].
    destruct (bool_decide _); [done|apply IH].
Qed.

Lemma BasicSink_next_yield_last g sink (k : BasicSink.env) result g' sink' k' :
  BasicSink.next g sink k = (Yield result, g', sink', k') ->
  exists prefix, io k' = prefix ++ [IoRecvData result].
Proof.
  unfold BasicSink.next. destruct (BasicSink.at_ g) as [|idx t1 socks|]; [| |done].
  - destruct (if BasicSink._ready sink then _ else _) as [[[y|?] self1] w1]; [done|].
    destruct (BasicSink.run _ _ _ _ _ _) as [[r pc1] k1] eqn:Hrun.
    intros [= -> <- <- <-]. by eapply run_yield_last.
  - destruct (BasicSink.run _ _ _ _ _ _) as [[r pc1] k1] eqn:Hrun.
    intros [= -> <- <- <-]. by eapply run_yield_last.
Qed.

(** C10: whenever a step of the strict sink's [Receive] raises a
    [WorkerException], its [worker_exception] attribute is [None]; the
    envelope just received is not a success, and the text of its exception
    is in the message, after the fixed prefix. *)
Theorem WorkerException_carries_only_text
    (g : Sink.generator) (sink : BasicSink.t) (k : BasicSink.env)
    (w : WorkerException) (g' : Sink.generator) (sink' : BasicSink.t)
    (k' : BasicSink.env) :
  Sink.next g sink k = (Raise (RaisedWorkerException w), g', sink', k') ->
  worker_exception w = None /\
  exists result prefix,
    io k' = prefix ++ [IoRecvData result] /\
    ClusterResult.status result <> Some ClusterResult.STATUS_SUCCESS /\
    we_message w = "Caught exception in worker node: "
                     +:+ Sink.str_exception (ClusterResult.exception result).
Proof.
  assert (forall inner,
            Sink.iterate g inner sink k
              = (Raise (RaisedWorkerException w), g', sink', k') ->
            worker_exception w = None /\
            exists result prefix,
              io k' = prefix ++ [IoRecvData result] /\
              ClusterResult.status result <> Some ClusterResult.STATUS_SUCCESS /\
              we_message w = "Caught exception in worker node: "
                               +:+ Sink.str_exception (ClusterResult.exception result))
    as Hiter.
  { intros inner. unfold Sink.iterate.
    destruct (BasicSink.next inner sink k) as [[[r inner1] sink1] k1] eqn:Hnext.
    destruct r as [result| |x| |]; try done.
    - destruct (bool_decide _) eqn:Hstatus; [done|].
      apply bool_decide_eq_false in Hstatus.
      intros [= <- <- <- <-]. split; [done|].
      apply BasicSink_next_yield_last in Hnext as [prefix Hio].
      by exists result, prefix.
    - intros [= -> <- <- <-]. by apply BasicSink_next_own_error in Hnext. }
  unfold Sink.next. destruct (Sink.at_ g); [apply Hiter|apply Hiter|done].
Qed.

Lemma WorkerException_carries_only_text_witness :
  exists w g' k',
    Sink.next (Sink.Receive None None) sink1 (surroundings [failure bad] [] [])
      = (Raise (RaisedWorkerException w), g', sink1, k') /\
    worker_exception w = None /\
    we_message w = "Caught exception in worker node: bad".
Proof.
  eexists _, _, _. split; [vm_compute; reflexivity|].
  destruct (WorkerException_carries_only_text
              (Sink.Receive None None) sink1 (surroundings [failure bad] [] [])
              _ _ _ _ eq_refl) as [Hnone _].
  split; [exact Hnone | reflexivity].
Defined.
(** ** [Connect.MakeSocket] in general *)

Lemma merged_options_lookup self o k :
  Connect.merged_options self o !! k =
    match Connect.options self with
    | Some own =>
        match own !! k with
        | Some v => Some v
        | None => match o with Some o => o !! k | None => None end
        end
    | None => match o with Some o => o !! k | None => None end
    end.
Proof.
  unfold Connect.merged_options.
  destruct (Connect.options self) as [own|].
  - rewrite py_dict_items_app.
    destruct (own !! k) as [v|] eqn:Hk.
    + by apply lookup_union_Some_l.
    + rewrite lookup_union_r by done. by destruct o.
  - by destruct o.
Qed.

(** X1.  The options that [MakeSocket] leaves on the socket, whichever of
    the two dictionaries is given: at every key the descriptor's value when
    the descriptor has one, otherwise the caller's, otherwise none. *)
Theorem MakeSocket_applies_merged_options self w u ty b o pre post s w' k :
  Connect.MakeSocket self w u ty b o pre post = (inr s, w') ->
  sockopts s !! k =
    match Connect.options self with
    | Some own =>
        match own !! k with
        | Some v => Some v
        | None => match o with Some o => o !! k | None => None end
        end
    | None => match o with Some o => o !! k | None => None end
    end.
Proof.
  intros Hmk. apply MakeSocket_sockopts in Hmk. rewrite Hmk.
  apply merged_options_lookup.
Qed.

Lemma MakeSocket_applies_merged_options_witness :
  exists s w',
    Connect.MakeSocket contrary world0 None None None
      (Some {[ 1 := PyInt 5; SUBSCRIBE := PyStr "a" ]}) None None = (inr s, w') /\
    sockopts s !! 1 = Some (PyInt 1000) /\
    sockopts s !! SUBSCRIBE = Some (PyStr "a").
Proof.
  destruct (Connect.MakeSocket contrary world0 None None None
              (Some {[ 1 := PyInt 5; SUBSCRIBE := PyStr "a" ]}) None None)
    as [[x|s] w'] eqn:E; [vm_compute in E; discriminate E|].
  exists s, w'. split; [reflexivity|]. split.
  - rewrite (MakeSocket_applies_merged_options _ _ _ _ _ _ _ _ _ _ 1 E).
    reflexivity.
  - rewrite (MakeSocket_applies_merged_options _ _ _ _ _ _ _ _ _ _ SUBSCRIBE E).
    reflexivity.
Defined.

Lemma foldl_setsockopt_world (l : list (Z * pyobj)) (s : socket) (w : world) :
  (foldl (fun sw kv => setsockopt kv.1 kv.2 sw) (s, w) l).2 =
    {| clock := clock w;
       trace := trace w ++ map (fun kv => (clock w, EvSetsockopt kv.1 kv.2)) l |}.
Proof.
  revert s w. induction l as [|[k v] l IH]; intros s w; simpl.
  - rewrite app_nil_r. by destruct w.
  - unfold setsockopt at 2. rewrite IH. simpl. by rewrite <- app_assoc.
Qed.

Lemma sleep_opt_inv d w r w' :
  sleep_opt d w = (r, w') ->
  (acceptable d /\ r = inr tt /\
   w' = {| clock := after d (clock w);
           trace := trace w ++ sleep_events d (clock w) |}) \/
  (~ acceptable d /\ r = inl IOError /\ w' = w).
Proof.
  destruct d as [d|]; unfold acceptable, sleep_opt, time_sleep, after, sleep_events.
  - destruct (Qle_bool 0 d) eqn:Hd; intros [= <- <-].
    + by left.
    + by right.
  - intros [= <- <-]. left. rewrite app_nil_r. by destruct w.
Qed.

(** What a successful [MakeSocket] has done, in full. *)
Lemma MakeSocket_success self w u ty b o pre post s w' :
  Connect.MakeSocket self w u ty b o pre post = (inr s, w') ->
  let pre1 := Connect.or_else pre (Connect.pre_delay self) in
  let post1 := Connect.or_else post (Connect.post_delay self) in
  let bound := match b with Some b => b | None => Connect.bind self end in
  exists ty1 u1,
    Connect.or_else ty (Connect.type self) = Some ty1 /\
    Connect.or_else u (Connect.url self) = Some u1 /\
    acceptable pre1 /\ acceptable post1 /\
    s = {| sock_type := ty1; sockopts := Connect.merged_options self o;
           sock_bound := bound; sock_url := Some u1 |} /\
    clock w' = after post1 (after pre1 (clock w)) /\
    trace w' =
      trace w
      ++ map (fun kv => (clock w, EvSetsockopt kv.1 kv.2))
           (items (Connect.merged_options self o))
      ++ sleep_events pre1 (clock w)
      ++ [(after pre1 (clock w), if bound then EvBind u1 else EvConnect u1)]
      ++ sleep_events post1 (after pre1 (clock w)).
Proof.
  intros Hmk. pose proof (MakeSocket_sockopts _ _ _ _ _ _ _ _ _ _ Hmk) as Hopts.
  revert Hmk. unfold Connect.MakeSocket.
  destruct (Connect.or_else ty _) as [ty1|]; [|done].
  rewrite foldl_setsockopt_world.
  destruct (sleep_opt _ _) as [[?|[]] w2] eqn:Hpre; [done|].
  destruct (Connect.or_else u _) as [u1|]; [|done].
  destruct (sleep_opt (Connect.or_else post _) _) as [[?|[]] w4] eqn:Hpost; [done|].
  intros [= <- <-]. simpl in Hopts.
  apply sleep_opt_inv in Hpre as [(Hpa & _ & ->)|(_ & ? & _)]; [|done].
  apply sleep_opt_inv in Hpost as [(Hpo & _ & ->)|(_ & ? & _)]; [|done].
  simpl. exists ty1, u1. repeat split; try done.
  - by rewrite Hopts.
  - by rewrite <- !app_assoc.
Qed.

Lemma sent_objects_app l1 l2 :
  sent_objects (l1 ++ l2) = sent_objects l1 ++ sent_objects l2.
Proof. apply omap_app. Qed.

Lemma sent_objects_setsockopt c (l : list (Z * pyobj)) :
  sent_objects (map (fun kv => (c, EvSetsockopt kv.1 kv.2)) l) = [].
Proof. by induction l. Qed.

Lemma sent_objects_sleep d c : sent_objects (sleep_events d c) = [].
Proof. by destruct d. Qed.

Lemma sent_objects_send c (requests : list pyobj) :
  sent_objects (map (fun r => (c, EvSendPyobj r)) requests) = requests.
Proof. induction requests as [|r l IH]; [done|]. simpl. by rewrite IH. Qed.

(** A [MakeSocket] that raises has at most set options and slept. *)
Lemma MakeSocket_failure_trace self w u ty b o pre post x w' :
  Connect.MakeSocket self w u ty b o pre post = (inl x, w') ->
  exists rest, trace w' = trace w ++ rest /\ sent_objects rest = [].
Proof.
  unfold Connect.MakeSocket.
  destruct (Connect.or_else ty _) as [ty1|].
  2:{ intros [= <- <-]. exists []. by rewrite app_nil_r. }
  rewrite foldl_setsockopt_world.
  destruct (sleep_opt _ _) as [[y|[]] w2] eqn:Hpre.
  { apply sleep_opt_inv in Hpre as [(_ & ? & _)|(Hna & [= ->] & ->)]; [done|].
    intros [= <- <-]. eexists. split; [reflexivity|].
    apply sent_objects_setsockopt. }
  apply sleep_opt_inv in Hpre as [(Hpa & _ & ->)|(_ & ? & _)]; [|done].
  destruct (Connect.or_else u _) as [u1|].
  2:{ intros [= <- <-]. simpl. eexists. split; [by rewrite <- app_assoc|].
      by rewrite sent_objects_app, sent_objects_setsockopt, sent_objects_sleep. }
  destruct (sleep_opt (Connect.or_else post _) _) as [[y|[]] w4] eqn:Hpost;
    [|intros H; discriminate H].
  apply sleep_opt_inv in Hpost as [(_ & ? & _)|(Hna & [= ->] & ->)]; [done|].
  intros [= <- <-]. simpl. eexists. split; [by rewrite <- !app_assoc|].
  rewrite !sent_objects_app, sent_objects_setsockopt, sent_objects_sleep.
  simpl. by destruct (match b with Some _ => _ | None => _ end).
Qed.

(** Whether it returns a socket or raises, [MakeSocket] sends nothing. *)
Lemma MakeSocket_sends_nothing self w u ty b o pre post r w' :
  Connect.MakeSocket self w u ty b o pre post = (r, w') ->
  sent_objects (trace w') = sent_objects (trace w).
Proof.
  destruct r as [x|s]; intros Hmk.
  - apply MakeSocket_failure_trace in Hmk as (rest & Htr & Hrest).
    by rewrite Htr, sent_objects_app, Hrest, app_nil_r.
  - apply MakeSocket_success in Hmk as (ty1 & u1 & _ & _ & _ & _ & _ & _ & Htr).
    rewrite Htr, !sent_objects_app, sent_objects_setsockopt, !sent_objects_sleep.
    assert (forall c (bd : bool),
              sent_objects [(c, if bd then EvBind u1 else EvConnect u1)] = [])
      as -> by (by intros ? []).
    by rewrite !app_nil_r.
Qed.

Lemma materialize_sends_nothing x ty w r w' :
  materialize x ty w = (r, w') ->
  sent_objects (trace w') = sent_objects (trace w).
Proof.
  destruct x; simpl.
  - apply MakeSocket_sends_nothing.
  - by intros [= <- <-].
Qed.

(** X2.  [MakeSocket] returns a socket only when a type and an end-point
    can be resolved, from the argument or else from the descriptor, and
    neither of the delays in force is negative. *)
Theorem MakeSocket_returns_only_if self w u ty b o pre post s w' :
  Connect.MakeSocket self w u ty b o pre post = (inr s, w') ->
  Connect.or_else ty (Connect.type self) <> None /\
  Connect.or_else u (Connect.url self) <> None /\
  acceptable (Connect.or_else pre (Connect.pre_delay self)) /\
  acceptable (Connect.or_else post (Connect.post_delay self)).
Proof.
  intros Hmk.
  apply MakeSocket_success in Hmk as (ty1 & u1 & -> & -> & ? & ? & _).
  done.
Qed.

Lemma MakeSocket_returns_only_if_witness :
  exists s w',
    Connect.MakeSocket contrary world0 None None None None None (Some 2%Q)
      = (inr s, w') /\
    acceptable (Some (1 # 2)%Q) /\ acceptable (Some 2%Q).
Proof.
  destruct (Connect.MakeSocket contrary world0 None None None None None (Some 2%Q))
    as [[x|s] w'] eqn:E; [vm_compute in E; discriminate E|].
  exists s, w'. split; [reflexivity|].
  destruct (MakeSocket_returns_only_if _ _ _ _ _ _ _ _ _ _ E) as (_ & _ & H1 & H2).
  exact (conj H1 H2).
Defined.

(** X4.  For the type, the end-point, the bind flag and the two delays an
    argument of [MakeSocket] does take precedence over the attribute of
    the descriptor, also when the argument is [False] or zero; the
    attribute is used when the argument is [None]. *)
Theorem MakeSocket_arguments_take_precedence self w u ty b o pre post s w' :
  Connect.MakeSocket self w u ty b o pre post = (inr s, w') ->
  Some (sock_type s) = match ty with Some _ => ty | None => Connect.type self end /\
  sock_url s = match u with Some _ => u | None => Connect.url self end /\
  sock_bound s = match b with Some b => b | None => Connect.bind self end /\
  clock w' =
    after (match post with Some _ => post | None => Connect.post_delay self end)
      (after (match pre with Some _ => pre | None => Connect.pre_delay self end)
         (clock w)).
Proof.
  intros Hmk.
  apply MakeSocket_success in Hmk
    as (ty1 & u1 & Hty & Hu & _ & _ & -> & Hclock & _).
  unfold Connect.or_else in *. simpl. by rewrite Hty, Hu.
Qed.

Lemma MakeSocket_arguments_take_precedence_witness :
  exists s w',
    Connect.MakeSocket contrary world0 None (Some SUB) (Some true) None
      (Some 0%Q) None = (inr s, w') /\
    sock_type s = SUB /\ sock_bound s = true /\ clock w' = (0 + 0)%Q.
Proof.
  destruct (Connect.MakeSocket contrary world0 None (Some SUB) (Some true) None
              (Some 0%Q) None) as [[x|s] w'] eqn:E;
    [vm_compute in E; discriminate E|].
  exists s, w'. split; [reflexivity|].
  destruct (MakeSocket_arguments_take_precedence _ _ _ _ _ _ _ _ _ _ E)
    as (Hty & _ & Hb & Hc).
  repeat split; [by injection Hty|done|done].
Defined.


(** ** The ventilator in general *)

Lemma send_all_inv self requests n w m w' :
  BasicVentilator.send_all self requests n w = (inr m, w') ->
  m = n + Z.of_nat (length requests) /\
  w' = {| clock := clock w;
          trace := trace w ++ map (fun r => (clock w, EvSendPyobj r)) requests |}.
Proof.
  destruct (BasicVentilator._sender self) as [s|] eqn:Hs.
  - rewrite (send_all_trace _ s) by done. by intros [= <- <-].
  - destruct requests as [|r l]; simpl; [|by rewrite Hs].
    intros [= <- <-]. split; [lia|]. rewrite app_nil_r. by destruct w.
Qed.

Lemma Setup_sends_nothing self w r self' w' :
  BasicVentilator.Setup self w = (r, self', w') ->
  sent_objects (trace w') = sent_objects (trace w).
Proof.
  unfold BasicVentilator.Setup.
  destruct (materialize _ _ _) as [[x|s] w1] eqn:Hm; intros [= <- <- <-];
    by eapply materialize_sends_nothing.
Qed.

(** X6.  Whenever [Send] returns, on a ventilator in any state, the
    number it returns is the number of requests it was given, the requests
    have been sent in the order given and nothing else has, and the
    ventilator is ready. *)
Theorem Send_sends_every_request_in_order self requests w n self' w' :
  BasicVentilator.Send self requests w = (inr n, self', w') ->
  n = Z.of_nat (length requests) /\
  sent_objects (trace w') = sent_objects (trace w) ++ requests /\
  BasicVentilator._ready self' = true.
Proof.
  unfold BasicVentilator.Send.
  destruct (if BasicVentilator._ready self then _ else _)
    as [[r self1] w1] eqn:Hsetup.
  assert (sent_objects (trace w1) = sent_objects (trace w) /\
          (r = inr tt -> BasicVentilator._ready self1 = true)) as [Hsent Hready].
  { destruct (BasicVentilator._ready self) eqn:Hr.
    - by injection Hsetup as <- <- <-.
    - split; [by eapply Setup_sends_nothing|].
      intros ->. by eapply Setup_records_ready_instant. }
  destruct r as [x|[]]; [done|].
  destruct (BasicVentilator._connect_delay self1) as [ready_at|]; [|done].
  destruct (if BasicVentilator.positive _ then _ else _) as [r2 w2] eqn:Hsleep.
  assert (sent_objects (trace w2) = sent_objects (trace w1)) as Hsent2.
  { destruct (BasicVentilator.positive _).
    - unfold time_sleep in Hsleep. destruct (Qle_bool _ _).
      + injection Hsleep as <- <-. simpl.
        rewrite sent_objects_app. simpl. by rewrite app_nil_r.
      + by injection Hsleep as <- <-.
    - by injection Hsleep as <- <-. }
  destruct r2 as [x|[]]; [done|].
  destruct (BasicVentilator.send_all _ _ _ _) as [r3 w3] eqn:Hall.
  intros [= -> <- <-].
  apply send_all_inv in Hall as [-> ->]. simpl.
  rewrite sent_objects_app, sent_objects_send, Hsent2, Hsent.
  split; [lia|]. split; [done|]. by apply Hready.
Qed.

Lemma Send_sends_every_request_in_order_witness :
  exists self' w',
    BasicVentilator.Send ventilator0 [PyInt 1; PyInt 2; PyInt 3] world0
      = (inr 3, self', w') /\
    sent_objects (trace w') = [PyInt 1; PyInt 2; PyInt 3].
Proof.
  destruct (BasicVentilator.Send ventilator0 [PyInt 1; PyInt 2; PyInt 3] world0)
    as [[r self'] w'] eqn:E.
  assert (r = inr 3) as -> by (vm_compute in E; by injection E as <- _ _).
  exists self', w'. split; [reflexivity|].
  by destruct (Send_sends_every_request_in_order _ _ _ _ _ _ E) as (_ & H & _).
Defined.

(** X8.  A ventilator can be used again after [Shutdown]: [Shutdown]
    clears the ready flag, so the next [Send] runs [Setup], which binds the
    sender and records a new instant. *)
Theorem ventilator_is_set_up_again_after_Shutdown v s s0 requests w :
  BasicVentilator._sender v = Some s ->
  BasicVentilator.request_sender v = BySocket s0 ->
  exists v1 v2 w',
    BasicVentilator.Shutdown v = (inr tt, v1) /\
    BasicVentilator._ready v1 = false /\
    BasicVentilator.Send v1 requests w = (inr (Z.of_nat (length requests)), v2, w') /\
    BasicVentilator._ready v2 = true /\
    BasicVentilator._sender v2 = Some s0 /\
    BasicVentilator._connect_delay v2 =
      Some (clock w + BasicVentilator.worker_connect_delay v)%Q /\
    sent_objects (trace w') = sent_objects (trace w) ++ requests.
Proof.
  intros Hs Hrs. unfold BasicVentilator.Shutdown. rewrite Hs.
  eexists _.
  destruct (BasicVentilator.Send _ requests w) as [[r v2] w'] eqn:E.
  exists v2, w'. split; [done|]. split; [done|].
  revert E. unfold BasicVentilator.Send, BasicVentilator.Setup. simpl.
  rewrite Hrs. simpl. unfold time_time.
  destruct (BasicVentilator.positive _) eqn:Hpos.
  - unfold time_sleep.
    assert (Qle_bool 0
              (clock w - (clock w + BasicVentilator.worker_connect_delay v)) = true)
      as ->.
    { unfold BasicVentilator.positive in Hpos. apply negb_true_iff in Hpos.
      apply Qle_bool_iff.
      destruct (Qlt_le_dec 0
                  (clock w - (clock w + BasicVentilator.worker_connect_delay v)))
        as [Hlt|Hle]; [by apply Qlt_le_weak|].
      apply Qle_bool_iff in Hle. congruence. }
    rewrite (send_all_trace _ s0) by done.
    intros [= <- <- <-]. simpl.
    rewrite !sent_objects_app, sent_objects_send. simpl.
    by rewrite app_nil_r.
  - rewrite (send_all_trace _ s0) by done.
    intros [= <- <- <-]. simpl.
    by rewrite !sent_objects_app, sent_objects_send.
Qed.

Lemma ventilator_is_set_up_again_after_Shutdown_witness :
  exists v1 v2 w',
    BasicVentilator.Shutdown ventilator1 = (inr tt, v1) /\
    BasicVentilator._ready v1 = false /\
    BasicVentilator.Send v1 [PyInt 7] {| clock := 10; trace := [] |}
      = (inr (Z.of_nat (length [PyInt 7])), v2, w') /\
    BasicVentilator._ready v2 = true /\
    BasicVentilator._sender v2 = Some push_socket /\
    BasicVentilator._connect_delay v2 = Some (10 + 1)%Q /\
    sent_objects (trace w') = [] ++ [PyInt 7].
Proof.
  exact (ventilator_is_set_up_again_after_Shutdown ventilator1 push_socket
           push_socket [PyInt 7] {| clock := 10; trace := [] |} eq_refl eq_refl).
Defined.
(** ** Setting up and shutting down *)

Lemma merged_options_None self :
  Connect.merged_options self None =
    match Connect.options self with Some own => own | None => ∅ end.
Proof.
  unfold Connect.merged_options. destruct (Connect.options self) as [own|]; [|done].
  rewrite py_dict_items_app. apply (right_id_L ∅ (∪)).
Qed.

(** What [materialize] gives: the caller's socket as it is, or a new
    socket of the type asked for, with the descriptor's own options. *)
Lemma materialize_success x ty w s w' :
  materialize x ty w = (inr s, w') ->
  match x with
  | BySocket s0 => s = s0 /\ w' = w
  | ByConnect c =>
      sock_type s = ty /\
      sockopts s = match Connect.options c with Some own => own | None => ∅ end /\
      sock_bound s = Connect.bind c /\
      sock_url s = Connect.url c
  end.
Proof.
  destruct x as [c|s0]; simpl.
  - intros Hmk.
    apply MakeSocket_success in Hmk as (ty1 & u1 & [= <-] & Hu & _ & _ & -> & _).
    simpl in *. by rewrite merged_options_None.
  - by intros [= <- <-].
Qed.

(** X9.  A sink cannot be used again after [Shutdown]: [Shutdown] removes
    the poller and the sockets and leaves the ready flag set, so the next
    [Receive] does not run [Setup] and fails on the missing poller at its
    first step, before anything is read. *)
Theorem Receive_after_Shutdown_raises sink sink' n t (k : BasicSink.env) :
  BasicSink._ready sink = true ->
  BasicSink.Shutdown sink = (inr tt, sink') ->
  match n with Some m => 0 < m | None => True end ->
  BasicSink._ready sink' = true /\
  BasicSink.next (BasicSink.Receive n t) sink' k =
    (Raise (AttributeError "_poller"),
     {| BasicSink.num_results := n; BasicSink.timeout := t;
        BasicSink.at_ := BasicSink.Finished |},
     sink', k).
Proof.
  intros Hr Hsh Hn.
  assert (BasicSink._ready sink' = true /\ BasicSink._poller sink' = None)
    as [Hr' Hp'].
  { revert Hsh. unfold BasicSink.Shutdown.
    destruct (BasicSink._poller sink); [|done]. simpl.
    destruct (BasicSink._receiver_socket sink); [|done]. simpl.
    destruct (BasicSink._command_socket sink); [|done].
    by intros [= <-]. }
  split; [done|].
  rewrite next_fresh_ready by done. simpl.
  assert (match n with Some n0 => n0 <=? 0 | None => false end = false) as ->.
  { destruct n as [m|]; [|done]. by apply Z.leb_gt. }
  by rewrite Hp'.
Qed.

Lemma Receive_after_Shutdown_raises_witness :
  exists sink',
    BasicSink.Shutdown sink1 = (inr tt, sink') /\
    BasicSink.next (BasicSink.Receive None None) sink'
      (surroundings [success (PyInt 1)] [] []) =
      (Raise (AttributeError "_poller"),
       {| BasicSink.num_results := None; BasicSink.timeout := None;
          BasicSink.at_ := BasicSink.Finished |},
       sink', surroundings [success (PyInt 1)] [] []).
Proof.
  eexists. split; [reflexivity|].
  exact (proj2 (Receive_after_Shutdown_raises sink1 _ None None
                  (surroundings [success (PyInt 1)] [] []) eq_refl eq_refl I)).
Defined.

(** X10.  A [Setup] of the sink that returns leaves it set up: ready, the
    data socket registered with the poller, and the command socket
    registered exactly when a command receiver was given; a socket handed
    to the constructor is used as it is, a descriptor gives a PULL socket
    whatever type it names itself; the configuration is unchanged and
    nothing has been sent. *)
Theorem BasicSink_Setup_sets_up sink w sink' w' :
  BasicSink.Setup sink w = (inr tt, sink', w') ->
  BasicSink.set_up sink' = true /\
  BasicSink._poller sink' =
    Some (match BasicSink.command_receiver sink with
          | Some _ => [DataSock; CmdSock]
          | None => [DataSock]
          end) /\
  (exists rs,
     BasicSink._receiver_socket sink' = Some rs /\
     match BasicSink.result_receiver sink with
     | BySocket s => rs = s
     | ByConnect _ => sock_type rs = PULL
     end) /\
  BasicSink.result_receiver sink' = BasicSink.result_receiver sink /\
  BasicSink.command_receiver sink' = BasicSink.command_receiver sink /\
  BasicSink.receive_timeout sink' = BasicSink.receive_timeout sink /\
  sent_objects (trace w') = sent_objects (trace w).
Proof.
  unfold BasicSink.Setup.
  destruct (materialize _ PULL w) as [[x|rs] w1] eqn:H1; [done|].
  pose proof (materialize_sends_nothing _ _ _ _ _ H1) as Hs1.
  apply materialize_success in H1.
  destruct (BasicSink.command_receiver sink) as [c|] eqn:Hc.
  - destruct (materialize c SUB w1) as [[x|cs] w2] eqn:H2; [done|].
    pose proof (materialize_sends_nothing _ _ _ _ _ H2) as Hs2.
    intros [= <- <-]. unfold BasicSink.set_up. simpl.
    repeat split; try done; [|congruence].
    exists rs. split; [done|].
    destruct (BasicSink.result_receiver sink); tauto.
  - intros [= <- <-]. unfold BasicSink.set_up. simpl.
    repeat split; try done.
    exists rs. split; [done|].
    destruct (BasicSink.result_receiver sink); tauto.
Qed.

Lemma BasicSink_Setup_sets_up_witness :
  BasicSink.set_up sink1 = true /\
  BasicSink._poller sink1 = Some [DataSock; CmdSock].
Proof.
  destruct (BasicSink_Setup_sets_up sink0 world0 sink1 world0 sink1_is_Setup)
    as (H1 & H2 & _).
  exact (conj H1 H2).
Defined.

(** X11.  A [Setup] of the sink that raises does not mark the sink
    ready.  The error reaches the consumer at the first step of the
    generator, not at the call of [Receive], and nothing has been read by
    then. *)
Theorem failed_Setup_leaves_sink_not_ready sink (k : BasicSink.env) x sink' w' n t :
  BasicSink._ready sink = false ->
  BasicSink.Setup sink (env_world k) = (inl x, sink', w') ->
  BasicSink._ready sink' = false /\
  BasicSink.next (BasicSink.Receive n t) sink k =
    (Raise x,
     {| BasicSink.num_results := n; BasicSink.timeout := t;
        BasicSink.at_ := BasicSink.Finished |},
     sink', with_world w' k).
Proof.
  intros Hr Hsetup. split.
  - revert Hsetup. unfold BasicSink.Setup.
    destruct (materialize _ PULL _) as [[y|rs] w1]; [by intros [= <- <- <-]|].
    destruct (BasicSink.command_receiver sink) as [c|]; [|done].
    destruct (materialize c SUB w1) as [[y|cs] w2]; [|done].
    by intros [= <- <- <-].
  - unfold BasicSink.next. simpl. by rewrite Hr, Hsetup.
Qed.

Lemma failed_Setup_leaves_sink_not_ready_witness :
  exists sink' k',
    BasicSink.next (BasicSink.Receive None None)
      (BasicSink.init (ByConnect nowhere) None None)
      (surroundings [success (PyInt 1)] [] []) =
      (Raise TypeError,
       {| BasicSink.num_results := None; BasicSink.timeout := None;
          BasicSink.at_ := BasicSink.Finished |},
       sink', k') /\
    BasicSink._ready sink' = false /\
    net k' = net (surroundings (B := unit) [success (PyInt 1)] [] []).
Proof.
  destruct (BasicSink.Setup (BasicSink.init (ByConnect nowhere) None None)
              (env_world (surroundings (B := unit) [success (PyInt 1)] [] [])))
    as [[r sink'] w'] eqn:E.
  assert (r = inl TypeError) as -> by (vm_compute in E; by injection E as <- _ _).
  destruct (failed_Setup_leaves_sink_not_ready
              (BasicSink.init (ByConnect nowhere) None None)
              (surroundings [success (PyInt 1)] [] []) TypeError sink' w'
              None None eq_refl E)
    as (H1 & H3).
  exists sink', (with_world w' (surroundings [success (PyInt 1)] [] [])).
  split; [exact H3|]. split; [exact H1|reflexivity].
Defined.

(** X12.  A [Setup] of the worker that returns leaves it set up: a PULL
    socket for the requests and a PUSH socket for the results, whatever
    types the descriptors name themselves, the request socket registered
    with the poller, and the command socket registered exactly when a
    command receiver was given; the callback and the timeout are
    unchanged and nothing has been sent. *)
Theorem Worker_Setup_sets_up self w self' w' :
  Worker.Setup self w = (inr tt, self', w') ->
  Worker.set_up self' = true /\
  (exists r s,
     Worker.receiver self' = Some r /\ sock_type r = PULL /\
     Worker.sender self' = Some s /\ sock_type s = PUSH) /\
  Worker.poller self' =
    Some (match Worker.command_receiver self with
          | Some _ => [DataSock; CmdSock]
          | None => [DataSock]
          end) /\
  Worker.callback self' = Worker.callback self /\
  Worker.receiver_timeout self' = Worker.receiver_timeout self /\
  sent_objects (trace w') = sent_objects (trace w).
Proof.
  unfold Worker.Setup.
  destruct (Connect.MakeSocket (Worker.request_receiver self) _ _ _ _ _ _ _)
    as [[x|r] w1] eqn:H1; [done|].
  pose proof (MakeSocket_sends_nothing _ _ _ _ _ _ _ _ _ _ H1) as Hs1.
  apply MakeSocket_success in H1 as (? & ? & [= <-] & _ & _ & _ & -> & _).
  destruct (Connect.MakeSocket (Worker.result_sender self) _ _ _ _ _ _ _)
    as [[x|s] w2] eqn:H2; [done|].
  pose proof (MakeSocket_sends_nothing _ _ _ _ _ _ _ _ _ _ H2) as Hs2.
  apply MakeSocket_success in H2 as (? & ? & [= <-] & _ & _ & _ & -> & _).
  destruct (Worker.command_receiver self) as [[c|raw]|] eqn:Hc.
  - destruct (Connect.MakeSocket c _ _ _ _ _ _ _) as [[x|cs] w3] eqn:H3; [done|].
    pose proof (MakeSocket_sends_nothing _ _ _ _ _ _ _ _ _ _ H3) as Hs3.
    intros [= <- <-]. unfold Worker.set_up. simpl.
    repeat split; try done; [|congruence].
    eexists _, _. by repeat split.
  - done.
  - intros [= <- <-]. unfold Worker.set_up. simpl.
    repeat split; try done; [|congruence].
    eexists _, _. by repeat split.
Qed.

Lemma Worker_Setup_sets_up_witness :
  exists self' w',
    Worker.Setup (worker0 double_unless_3 None) world0 = (inr tt, self', w') /\
    Worker.set_up self' = true /\
    Worker.poller self' = Some [DataSock; CmdSock].
Proof.
  destruct (Worker.Setup (worker0 double_unless_3 None) world0)
    as [[r self'] w'] eqn:E.
  assert (r = inr tt) as -> by (vm_compute in E; by injection E as <- _ _).
  exists self', w'. split; [reflexivity|].
  destruct (Worker_Setup_sets_up _ _ _ _ E) as (H1 & _ & H2 & _).
  exact (conj H1 H2).
Defined.

(** X13.  The command socket of a worker is always subscribed: [Setup]
    gives [MakeSocket] the match-all filter, so the SUB socket carries a
    subscription, the descriptor's own when it has one and the match-all
    filter otherwise. *)
Theorem worker_command_socket_is_subscribed self w self' w' c :
  Worker.command_receiver self = Some (ByConnect c) ->
  Worker.Setup self w = (inr tt, self', w') ->
  exists cs,
    Worker.cmd_subscriber self' = Some (Some cs) /\
    sock_type cs = SUB /\
    sockopts cs !! SUBSCRIBE =
      Some (match Connect.options c with
            | Some own =>
                match own !! SUBSCRIBE with Some v => v | None => PyStr "" end
            | None => PyStr ""
            end).
Proof.
  intros Hc. unfold Worker.Setup. rewrite Hc.
  destruct (Connect.MakeSocket (Worker.request_receiver self) _ _ _ _ _ _ _)
    as [[x|r] w1]; [done|].
  destruct (Connect.MakeSocket (Worker.result_sender self) _ _ _ _ _ _ _)
    as [[x|s] w2]; [done|].
  destruct (Connect.MakeSocket c _ _ _ _ _ _ _) as [[x|cs] w3] eqn:H3; [done|].
  intros [= <- <-]. exists cs. split; [done|].
  apply MakeSocket_success in H3 as (? & ? & [= <-] & _ & _ & _ & -> & _).
  split; [done|]. simpl. rewrite merged_options_lookup.
  destruct (Connect.options c) as [own|].
  - destruct (own !! SUBSCRIBE); [done|]. by rewrite lookup_singleton_eq.
  - by rewrite lookup_singleton_eq.
Qed.

Lemma worker_command_socket_is_subscribed_witness :
  exists self' w' cs,
    Worker.Setup (worker0 double_unless_3 None) world0 = (inr tt, self', w') /\
    Worker.cmd_subscriber self' = Some (Some cs) /\
    sockopts cs !! SUBSCRIBE = Some (PyStr "").
Proof.
  destruct (Worker.Setup (worker0 double_unless_3 None) world0)
    as [[r self'] w'] eqn:E.
  assert (r = inr tt) as -> by (vm_compute in E; by injection E as <- _ _).
  destruct (worker_command_socket_is_subscribed (worker0 double_unless_3 None)
              world0 self' w' (plain "tcp://127.0.0.1:5557") eq_refl E)
    as (cs & H1 & _ & H2).
  exists self', w', cs. split; [reflexivity|]. exact (conj H1 H2).
Defined.

(** X14.  The command socket of a sink is subscribed only by its
    descriptor: [Setup] gives [MakeSocket] no options, so the SUB socket
    carries the descriptor's own options and nothing else, and no
    subscription when the descriptor has none. *)
Theorem sink_command_socket_has_only_its_own_options sink w sink' w' c :
  BasicSink.command_receiver sink = Some (ByConnect c) ->
  BasicSink.Setup sink w = (inr tt, sink', w') ->
  exists cs,
    BasicSink._command_socket sink' = Some (Some cs) /\
    sock_type cs = SUB /\
    sockopts cs = match Connect.options c with Some own => own | None => ∅ end /\
    (Connect.options c = None -> sockopts cs !! SUBSCRIBE = None).
Proof.
  intros Hc. unfold BasicSink.Setup. rewrite Hc.
  destruct (materialize _ PULL w) as [[x|rs] w1]; [done|].
  destruct (materialize _ SUB w1) as [[x|cs] w2] eqn:H2; [done|].
  intros [= <- <-]. exists cs. split; [done|].
  apply materialize_success in H2 as (Hty & Hopts & _).
  repeat split; try done.
  intros Hnone. by rewrite Hopts, Hnone.
Qed.

Lemma sink_command_socket_has_only_its_own_options_witness :
  exists sink' w' cs,
    BasicSink.Setup
      (BasicSink.init (BySocket pull_socket)
         (Some (ByConnect (plain "tcp://127.0.0.1:5557"))) None) world0
      = (inr tt, sink', w') /\
    BasicSink._command_socket sink' = Some (Some cs) /\
    sock_type cs = SUB /\
    sockopts cs !! SUBSCRIBE = None.
Proof.
  destruct (BasicSink.Setup
              (BasicSink.init (BySocket pull_socket)
                 (Some (ByConnect (plain "tcp://127.0.0.1:5557"))) None) world0)
    as [[r sink'] w'] eqn:E.
  assert (r = inr tt) as -> by (vm_compute in E; by injection E as <- _ _).
  destruct (sink_command_socket_has_only_its_own_options
              (BasicSink.init (BySocket pull_socket)
                 (Some (ByConnect (plain "tcp://127.0.0.1:5557"))) None)
              world0 sink' w' (plain "tcp://127.0.0.1:5557") eq_refl E)
    as (cs & H1 & H2 & _ & H3).
  exists sink', w', cs. split; [reflexivity|].
  exact (conj H1 (conj H2 (H3 eq_refl))).
Defined.

(** X15.  A worker accepts a command receiver only as a descriptor: with
    a socket in its place [Setup] cannot return, so [Run] raises before
    the loop is entered and no request is read; when the two data sockets
    can be made the error is the missing [MakeSocket] attribute. *)
Theorem worker_refuses_a_raw_command_socket self (e : Worker.env) raw :
  Worker.receiver self = None ->
  Worker.command_receiver self = Some (BySocket raw) ->
  exists x self' e',
    Worker.Run self e = (Worker.Raised x, self', e') /\
    io e' = io e /\ net e' = net e /\
    Worker.cmd_subscriber self' = Worker.cmd_subscriber self /\
    ((exists r w1 s w2,
        Connect.MakeSocket (Worker.request_receiver self) (env_world e)
          None (Some PULL) None None None None = (inr r, w1) /\
        Connect.MakeSocket (Worker.result_sender self) w1
          None (Some PUSH) None None None None = (inr s, w2)) ->
     x = AttributeError "MakeSocket").
Proof.
  intros Hr Hc. unfold Worker.Run, Worker.Setup. rewrite Hr, Hc.
  destruct (Connect.MakeSocket (Worker.request_receiver self) _ _ _ _ _ _ _)
    as [[x|r] w1] eqn:H1.
  { eexists _, _, _. repeat split. by intros (? & ? & ? & ? & [=] & _). }
  destruct (Connect.MakeSocket (Worker.result_sender self) _ _ _ _ _ _ _)
    as [[x|s] w2] eqn:H2.
  { eexists _, _, _. repeat split.
    intros (? & ? & ? & ? & [= <- <-] & H). rewrite H2 in H. discriminate H. }
  eexists _, _, _. by repeat split.
Qed.

Lemma worker_refuses_a_raw_command_socket_witness :
  exists self' e',
    Worker.Run
      (Worker.init (plain "tcp://127.0.0.1:5555") (plain "tcp://127.0.0.1:5556")
         double_unless_3 (Some (BySocket sub_socket)) None)
      (surroundings [PyInt 1] [] [])
      = (Worker.Raised (AttributeError "MakeSocket"), self', e') /\
    io e' = [].
Proof.
  destruct (worker_refuses_a_raw_command_socket
              (Worker.init (plain "tcp://127.0.0.1:5555")
                 (plain "tcp://127.0.0.1:5556") double_unless_3
                 (Some (BySocket sub_socket)) None)
              (surroundings [PyInt 1] [] []) sub_socket eq_refl eq_refl)
    as (x & self' & e' & Hrun & Hio & _ & _ & Hx).
  exists self', e'. split; [|exact Hio].
  rewrite Hrun. f_equal. f_equal. f_equal. apply Hx.
  eexists _, _, _, _. split; reflexivity.
Defined.
(** ** The basic generator in general *)

Lemma polls_app {A B} (l1 l2 : list (io_event A B)) :
  polls (l1 ++ l2) = (polls l1 + polls l2)%nat.
Proof. unfold polls. by rewrite omap_app, length_app. Qed.

Lemma received_commands_app {A B} (l1 l2 : list (io_event A B)) :
  received_commands (l1 ++ l2) = received_commands l1 ++ received_commands l2.
Proof. apply omap_app. Qed.

Lemma sent_envelopes_app {A B} (l1 l2 : list (io_event A B)) :
  sent_envelopes (l1 ++ l2) = sent_envelopes l1 ++ sent_envelopes l2.
Proof. apply omap_app. Qed.

(** With the count reached the generator ends without a poll. *)
Lemma basic_next_stops m t idx g sink (k : BasicSink.env) :
  BasicSink.set_up sink = true ->
  awaiting (Some m) t idx g ->
  m <= idx ->
  BasicSink.next g sink k =
    (StopIteration,
     {| BasicSink.num_results := Some m; BasicSink.timeout := t;
        BasicSink.at_ := BasicSink.Finished |},
     sink, k).
Proof.
  intros Hset (Hn & Ht & Hat) Hidx.
  destruct (BasicSink_set_up_shape _ Hset) as (Hready & rs & Hrs & Hshape).
  assert (exists cs, BasicSink._command_socket sink = Some cs)
    as [cs Hcs] by (destruct Hshape as [[_ ->]|[_ [c ->]]]; eauto).
  destruct g as [n0 t0 pc0]. simpl in Hn, Ht, Hat. subst n0 t0.
  destruct pc0 as [|i t1 socks|]; [| |done].
  - subst idx.
    change {| BasicSink.num_results := Some m; BasicSink.timeout := t;
              BasicSink.at_ := BasicSink.Fresh |} with (BasicSink.Receive (Some m) t).
    rewrite next_fresh_ready by done. cbv zeta.
    unfold BasicSink.fuel_for. simpl.
    by assert ((m <=? 0) = true) as -> by (by apply Z.leb_le).
  - destruct Hat as [-> Hmem]. rewrite next_suspended.
    unfold BasicSink.fuel_for.
    rewrite (run_command_skip _ _ _ _ _ _ _ _ Hcs Hmem). simpl.
    by assert ((m <=? i + 1) = true) as -> by (by apply Z.leb_le).
Qed.

Lemma basic_consume_count sink t rest :
  BasicSink.set_up sink = true ->
  forall first fuel g idx m (k : BasicSink.env),
    awaiting (Some m) t idx g ->
    data_q (net k) = first ++ rest ->
    cmd_q (net k) = [] ->
    idx + Z.of_nat (length first) = m ->
    (length first < fuel)%nat ->
    exists k',
      BasicSink.consume fuel g sink k = (first, StopIteration, sink, k') /\
      net k' = {| data_q := rest; cmd_q := []; future := future (net k) |} /\
      polls (io k') = (polls (io k) + length first)%nat.
Proof.
  intros Hset. induction first as [|r first IH];
    intros fuel g idx m k Hat Hdq Hcq Hm Hfuel;
    (destruct fuel as [|fuel]; [simpl in Hfuel; lia|]); simpl in *.
  - rewrite (basic_next_stops m t idx) by (done || lia).
    exists k. split; [done|]. split; [|lia].
    destruct k as [? [] ?]. simpl in *. by subst.
  - destruct (basic_next_yields _ _ _ _ _ k r (first ++ rest) Hset Hat Hdq Hcq)
      as (g' & k' & Hnext & Hat' & Hnet & t1 & Hio); [lia|].
    destruct (IH fuel g' (idx + 1) m k') as (k'' & Hc & Hnet'' & Hpolls);
      try done.
    + by rewrite Hnet.
    + by rewrite Hnet.
    + lia.
    + lia.
    + exists k''. rewrite Hnext, Hc. split; [done|]. split.
      * by rewrite Hnet'', Hnet.
      * rewrite Hpolls, Hio, polls_app. unfold polls at 2. simpl. lia.
Qed.

(** X16.  [Receive(num_results = n)] on a sink that is set up, with at
    least [n] envelopes waiting and no command: a consumer that takes all
    the items gets exactly the first [n] envelopes, in order, and then the
    end of the iteration; the other envelopes stay on the socket; the
    poller has been asked [n] times, so no poll, and no timeout, follows
    the last item. *)
Theorem Receive_yields_exactly_num_results
    (sink : BasicSink.t) (k : BasicSink.env) (t : option Z)
    (first rest : list ClusterResult.t) (fuel : nat) :
  BasicSink.set_up sink = true ->
  data_q (net k) = first ++ rest ->
  cmd_q (net k) = [] ->
  (length first < fuel)%nat ->
  exists k',
    BasicSink.consume fuel (BasicSink.Receive (Some (Z.of_nat (length first))) t)
      sink k = (first, StopIteration, sink, k') /\
    net k' = {| data_q := rest; cmd_q := []; future := future (net k) |} /\
    polls (io k') = (polls (io k) + length first)%nat.
Proof.
  intros Hset Hdq Hcq Hfuel.
  apply (basic_consume_count sink t rest Hset first fuel _ 0
           (Z.of_nat (length first))); done.
Qed.

Lemma Receive_yields_exactly_num_results_witness :
  exists k',
    BasicSink.consume 3 (BasicSink.Receive (Some 2) (Some 0)) sink1
      (surroundings [success (PyInt 1); failure bad; success (PyInt 3)] [] [])
      = ([success (PyInt 1); failure bad], StopIteration, sink1, k') /\
    net k' = {| data_q := [success (PyInt 3)]; cmd_q := []; future := [] |} /\
    polls (io k') = 2%nat.
Proof.
  exact (Receive_yields_exactly_num_results sink1
           (surroundings [success (PyInt 1); failure bad; success (PyInt 3)] [] [])
           (Some 0) [success (PyInt 1); failure bad] [success (PyInt 3)] 3
           eq_refl eq_refl eq_refl (le_n 3)).
Defined.

(** X17.  A count that is zero or negative ends the iteration at the
    first step, on a sink that is ready, before the poller or a socket is
    touched: the envelopes that wait are not read, and a sink that has
    lost its poller does not fail. *)
Theorem Receive_of_nothing_stops_at_once sink (k : BasicSink.env) m t :
  BasicSink._ready sink = true ->
  m <= 0 ->
  BasicSink.next (BasicSink.Receive (Some m) t) sink k =
    (StopIteration,
     {| BasicSink.num_results := Some m; BasicSink.timeout := t;
        BasicSink.at_ := BasicSink.Finished |},
     sink, k).
Proof.
  intros Hready Hm. rewrite next_fresh_ready by done. cbv zeta.
  unfold BasicSink.fuel_for. simpl.
  by assert ((m <=? 0) = true) as -> by (by apply Z.leb_le).
Qed.

Lemma Receive_of_nothing_stops_at_once_witness :
  exists sink',
    BasicSink.Shutdown sink1 = (inr tt, sink') /\
    BasicSink.next (BasicSink.Receive (Some 0) None) sink'
      (surroundings [success (PyInt 1)] [] []) =
      (StopIteration,
       {| BasicSink.num_results := Some 0; BasicSink.timeout := None;
          BasicSink.at_ := BasicSink.Finished |},
       sink', surroundings [success (PyInt 1)] [] []).
Proof.
  eexists. split; [reflexivity|].
  apply Receive_of_nothing_stops_at_once; [reflexivity|lia].
Defined.

(** The loop of the sink with commands only: every command that is not
    the kill command is taken off the socket and dropped; the kill command
    ends the generator. *)
Lemma run_commands n t sink rs cs rest :
  BasicSink._poller sink = Some [DataSock; CmdSock] ->
  BasicSink._receiver_socket sink = Some rs ->
  BasicSink._command_socket sink = Some (Some cs) ->
  forall cmds fuel idx (k : BasicSink.env),
    Forall (fun c => c <> BasicSink.CMD_KILL) cmds ->
    data_q (net k) = [] ->
    cmd_q (net k) = cmds ++ BasicSink.CMD_KILL :: rest ->
    match n with Some m => idx < m | None => True end ->
    (2 * length cmds + 2 <= fuel)%nat ->
    exists k',
      BasicSink.run fuel n t sink (BasicSink.AtTop idx) k
        = (StopIteration, BasicSink.Finished, k') /\
      net k' = {| data_q := []; cmd_q := rest; future := future (net k) |} /\
      received_commands (io k') =
        received_commands (io k) ++ cmds ++ [BasicSink.CMD_KILL] /\
      env_world k' = env_world k.
Proof.
  intros Hp Hrs Hcs cmds.
  assert (forall fuel idx (k : BasicSink.env) c cq,
            data_q (net k) = [] -> cmd_q (net k) = c :: cq ->
            match n with Some m => idx < m | None => True end ->
            BasicSink.run (S (S fuel)) n t sink (BasicSink.AtTop idx) k =
              let k1 := log (IoRecvCommand c)
                          (with_net {| data_q := []; cmd_q := cq;
                                       future := future (net k) |}
                             (log (IoPoll t) k)) in
              if bool_decide (c = BasicSink.CMD_KILL)
              then (StopIteration, BasicSink.Finished, k1)
              else BasicSink.run fuel n t sink (BasicSink.AtTop idx) k1) as Hturn.
  { intros fuel idx k c cq Hdq Hcq Hn.
    change (BasicSink.run (S (S fuel)) n t sink (BasicSink.AtTop idx) k)
      with (if match n with Some n0 => n0 <=? idx | None => false end
            then (StopIteration, BasicSink.Finished, k)
            else
              match BasicSink._poller sink with
              | None => (Raise (AttributeError "_poller"), BasicSink.Finished, k)
              | Some registered =>
                  match poll registered t (net k) with
                  | PollBlocks => (Blocks, BasicSink.Finished, k)
                  | PollReturns socks tr1 =>
                      let e1 := log (IoPoll t) (with_net tr1 k) in
                      match socks with
                      | [] => (Raise ReceiverTimeoutException, BasicSink.Finished, e1)
                      | _ =>
                          match BasicSink._receiver_socket sink with
                          | None =>
                              (Raise (AttributeError "_receiver_socket"),
                               BasicSink.Finished, e1)
                          | Some _ =>
                              if mem DataSock socks then
                                match recv_data (net e1) with
                                | None => (Blocks, BasicSink.Finished, e1)
                                | Some (result, tr2) =>
                                    (Yield result, BasicSink.Suspended idx t socks,
                                     log (IoRecvData result) (with_net tr2 e1))
                                end
                              else BasicSink.run (S fuel) n t sink
                                     (BasicSink.AtCommand idx socks) e1
                          end
                      end
                  end
              end).
    assert (match n with Some m => m <=? idx | None => false end = false) as ->.
    { destruct n; [|done]. apply Z.leb_gt. lia. }
    rewrite Hp.
    assert (ready_socks [DataSock; CmdSock] (data_q (net k)) (cmd_q (net k))
            = [CmdSock]) as Hready by (by rewrite Hdq, Hcq).
    rewrite (poll_ready _ _ _ _ _ Hready). cbv zeta. rewrite Hrs.
    change (mem DataSock [CmdSock]) with false. cbv iota.
    rewrite (run_command_recv _ _ _ _ _ [CmdSock] _ c cq cs Hcs eq_refl)
      by (simpl; exact Hcq).
    simpl. rewrite Hdq. by destruct k. }
  induction cmds as [|c cmds IH]; intros fuel idx k Hall Hdq Hcq Hn Hfuel.
  - destruct fuel as [|[|fuel]]; [simpl in Hfuel; lia..|].
    rewrite (Hturn _ _ _ _ _ Hdq Hcq Hn). cbv zeta.
    rewrite bool_decide_eq_true_2 by done.
    eexists. split; [reflexivity|]. simpl. split; [done|]. split; [|done].
    rewrite !received_commands_app. simpl. by rewrite app_nil_r.
  - destruct fuel as [|[|fuel]]; [simpl in Hfuel; lia..|].
    apply Forall_cons in Hall as [Hc Hall].
    rewrite (Hturn _ _ _ _ _ Hdq Hcq Hn). cbv zeta.
    rewrite bool_decide_eq_false_2 by done.
    edestruct (IH fuel idx) as (k' & Hrun & Hnet & Hrecv & Hw);
      [exact Hall| | |exact Hn| |].
    4:{ exists k'. split; [exact Hrun|]. split; [exact Hnet|].
        split; [|exact Hw].
        rewrite Hrecv. simpl. rewrite !received_commands_app. simpl.
        by rewrite app_nil_r, <- app_assoc. }
    + done.
    + done.
    + simpl in Hfuel. lia.
Qed.

(** X18.  A sink with a command socket, no envelope waiting and commands
    waiting: every command before the first kill command is received and
    ignored, the kill command ends the iteration without an error, and the
    commands behind it stay on the socket.  The kill command of the
    workers is one of those that the sink ignores. *)
Theorem sink_ignores_commands_until_its_kill
    (sink : BasicSink.t) (k : BasicSink.env) (n t : option Z)
    (cmds rest : list pyobj) :
  BasicSink.set_up sink = true ->
  BasicSink._poller sink = Some [DataSock; CmdSock] ->
  Forall (fun c => c <> BasicSink.CMD_KILL) cmds ->
  data_q (net k) = [] ->
  cmd_q (net k) = cmds ++ BasicSink.CMD_KILL :: rest ->
  match n with Some m => 0 < m | None => True end ->
  exists g' k',
    BasicSink.next (BasicSink.Receive n t) sink k = (StopIteration, g', sink, k') /\
    BasicSink.at_ g' = BasicSink.Finished /\
    net k' = {| data_q := []; cmd_q := rest; future := future (net k) |} /\
    received_commands (io k') =
      received_commands (io k) ++ cmds ++ [BasicSink.CMD_KILL].
Proof.
  intros Hset Hp Hall Hdq Hcq Hn.
  destruct (BasicSink_set_up_shape _ Hset) as (Hready & rs & Hrs & Hshape).
  destruct Hshape as [[Hp' _]|[_ [cs Hcs]]]; [congruence|].
  rewrite next_fresh_ready by done. cbv zeta.
  destruct (run_commands n
              (match t with None => BasicSink.receive_timeout sink | Some _ => t end)
              sink rs cs rest Hp Hrs Hcs cmds (BasicSink.fuel_for k) 0 k)
    as (k' & Hrun & Hnet & Hrecv & _); try done.
  { unfold BasicSink.fuel_for, pending. rewrite Hcq, length_app. simpl. lia. }
  rewrite Hrun. by eexists _, _.
Qed.

Lemma sink_ignores_commands_until_its_kill_witness :
  exists g' k',
    BasicSink.next (BasicSink.Receive None None) sink1
      (surroundings [] [Worker.CMD_KILL; PyInt 5; BasicSink.CMD_KILL; PyInt 6] [])
      = (StopIteration, g', sink1, k') /\
    cmd_q (net k') = [PyInt 6] /\
    received_commands (io k') = [Worker.CMD_KILL; PyInt 5; BasicSink.CMD_KILL].
Proof.
  destruct (sink_ignores_commands_until_its_kill sink1
              (surroundings [] [Worker.CMD_KILL; PyInt 5; BasicSink.CMD_KILL; PyInt 6] [])
              None None [Worker.CMD_KILL; PyInt 5] [PyInt 6])
    as (g' & k' & Hnext & _ & Hnet & Hrecv);
    [reflexivity|reflexivity| |reflexivity|reflexivity|exact I|].
  { repeat constructor; discriminate. }
  exists g', k'. split; [exact Hnext|]. split; [by rewrite Hnet|exact Hrecv].
Defined.
(** ** Iterations that run dry *)

Lemma poll_quiet {A} registered t1 :
  poll (A := A) registered t1 quiet =
    match budget_of t1 with
    | None => PollBlocks
    | Some _ => PollReturns [] quiet
    end.
Proof. unfold poll. simpl. rewrite ready_socks_nil. by destruct (budget_of t1). Qed.

Lemma run_yield_pc fuel n t sink pos (k : BasicSink.env) result pc k' :
  BasicSink.run fuel n t sink pos k = (Yield result, pc, k') ->
  exists idx socks, pc = BasicSink.Suspended idx t socks.
Proof.
  revert pos k. induction fuel as [|fuel IH]; intros pos k; simpl; [done|].
  destruct pos as [idx|idx socks].
  - destruct (match n with Some m => m <=? idx | None => false end); [done|].
    destruct (BasicSink._poller sink) as [registered|]; [|done].
    destruct (poll _ _ _) as [|socks tr1]; [done|].
    destruct socks as [|s socks]; [done|].
    destruct (BasicSink._receiver_socket sink); [|done].
    destruct (mem DataSock (s :: socks)); [|apply IH].
    destruct (recv_data _) as [[result' tr2]|]; [|done].
    intros [= <- <- <-]. eauto.
  - destruct (BasicSink._command_socket sink) as [cs|]; [|done].
    destruct (match cs with Some _ => _ | None => _ end); [|apply IH].
    destruct (recv_cmd _) as [[cmd tr1]|]; [|done].
    destruct (bool_decide _); [done|apply IH].
Qed.

(** The timeout is resolved once, at the first step of the generator. *)
Lemma next_keeps_timeout t1 g sink (k : BasicSink.env) result g' sink' k' :
  BasicSink._ready sink = true ->
  polls_with t1 sink g ->
  BasicSink.next g sink k = (Yield result, g', sink', k') ->
  polls_with t1 sink' g'.
Proof.
  intros Hready. unfold polls_with, BasicSink.next.
  destruct (BasicSink.at_ g) as [|idx t0 socks|]; [| |done].
  - rewrite Hready. intros <-.
    destruct (BasicSink.run _ _ _ _ _ _) as [[r pc1] k1] eqn:Hrun.
    intros [= -> <- <- <-]. simpl.
    by apply run_yield_pc in Hrun as (i & socks & ->).
  - intros ->.
    destruct (BasicSink.run _ _ _ _ _ _) as [[r pc1] k1] eqn:Hrun.
    intros [= -> <- <- <-]. simpl.
    by apply run_yield_pc in Hrun as (i & socks' & ->).
Qed.

Lemma basic_next_gives_up n t idx t1 g sink (k : BasicSink.env) :
  BasicSink.set_up sink = true ->
  awaiting n t idx g ->
  polls_with t1 sink g ->
  net k = quiet ->
  match n with Some m => idx < m | None => True end ->
  exists g' k',
    BasicSink.next g sink k = (gives_up t1, g', sink, k') /\
    net k' = quiet /\ env_world k' = env_world k.
Proof.
  intros Hset (Hn & Ht & Hat) Hpw Hnet Hidx.
  destruct (BasicSink_set_up_shape _ Hset) as (Hready & rs & Hrs & Hshape).
  assert (exists reg, BasicSink._poller sink = Some reg)
    as [reg Hreg] by (destruct Hshape as [[-> _]|[-> _]]; eauto).
  assert (exists cs, BasicSink._command_socket sink = Some cs)
    as [cs Hcs] by (destruct Hshape as [[_ ->]|[_ [c ->]]]; eauto).
  assert (forall fuel,
            exists k',
              BasicSink.run (S fuel) n t1 sink (BasicSink.AtTop idx) k
                = (gives_up t1, BasicSink.Finished, k') /\
              net k' = quiet /\ env_world k' = env_world k) as Htop.
  { intros fuel. simpl.
    assert (match n with Some m => m <=? idx | None => false end = false) as ->.
    { destruct n; [|done]. apply Z.leb_gt. lia. }
    rewrite Hreg, Hnet, poll_quiet. unfold gives_up.
    destruct (budget_of t1); eexists; (split; [reflexivity|done]). }
  destruct g as [n0 t0 pc0]. unfold polls_with in Hpw.
  simpl in Hn, Ht, Hat, Hpw. subst n0 t0.
  destruct pc0 as [|i t2 socks|]; [| |done].
  - subst idx.
    change {| BasicSink.num_results := n; BasicSink.timeout := t;
              BasicSink.at_ := BasicSink.Fresh |} with (BasicSink.Receive n t).
    rewrite next_fresh_ready by done. cbv zeta. rewrite Hpw.
    unfold BasicSink.fuel_for.
    destruct (Htop (S (S (pending (net k) + pending (net k)))))
      as (k' & -> & ? & ?).
    by eexists _, k'.
  - destruct Hat as [-> Hmem]. subst t2. rewrite next_suspended.
    unfold BasicSink.fuel_for.
    rewrite (run_command_skip _ _ _ _ _ _ _ _ Hcs Hmem).
    destruct (Htop (S (pending (net k) + pending (net k))))
      as (k' & -> & ? & ?).
    by eexists _, k'.
Qed.

Lemma basic_consume_drains sink n t t1 :
  BasicSink.set_up sink = true ->
  forall all fuel g idx (k : BasicSink.env),
    awaiting n t idx g ->
    polls_with t1 sink g ->
    net k = {| data_q := all; cmd_q := []; future := [] |} ->
    match n with Some m => idx + Z.of_nat (length all) < m | None => True end ->
    (length all < fuel)%nat ->
    exists k',
      BasicSink.consume fuel g sink k = (all, gives_up t1, sink, k') /\
      net k' = quiet.
Proof.
  intros Hset.
  destruct (BasicSink_set_up_shape _ Hset) as (Hready & _).
  induction all as [|r all IH];
    intros fuel g idx k Hat Hpw Hnet Hn Hfuel;
    (destruct fuel as [|fuel]; [simpl in Hfuel; lia|]); simpl in *.
  - destruct (basic_next_gives_up n t idx t1 g sink k) as (g' & k' & Hnext & Hq & _);
      try done.
    { destruct n; [|done]. lia. }
    exists k'. rewrite Hnext. split; [|done].
    unfold gives_up. by destruct (budget_of t1).
  - destruct (basic_next_yields n t idx g sink k r all Hset Hat)
      as (g' & k' & Hnext & Hat' & Hnet' & _).
    { by rewrite Hnet. }
    { by rewrite Hnet. }
    { destruct n; [|done]. lia. }
    pose proof (next_keeps_timeout _ _ _ _ _ _ _ _ Hready Hpw Hnext) as Hpw'.
    destruct (IH fuel g' (idx + 1) k') as (k'' & Hc & Hq); try done.
    + rewrite Hnet'. by rewrite Hnet.
    + destruct n; [|done]. lia.
    + lia.
    + exists k''. rewrite Hnext, Hc. done.
Qed.

(** X19.  An iteration over [Receive()] without a count does not end by
    itself.  With the envelopes [all] waiting, no command and nothing to
    come, a consumer gets every envelope, in order, and then the
    iteration gives up: with the receiver-timeout error when the timeout
    in force, the argument or else the sink's own, is a number that is not
    negative, and by waiting for ever when it is absent or negative. *)
Theorem Receive_drains_then_gives_up
    (sink : BasicSink.t) (k : BasicSink.env) (t : option Z)
    (all : list ClusterResult.t) (fuel : nat) :
  BasicSink.set_up sink = true ->
  net k = {| data_q := all; cmd_q := []; future := [] |} ->
  (length all < fuel)%nat ->
  exists k',
    BasicSink.consume fuel (BasicSink.Receive None t) sink k =
      (all,
       gives_up (match t with
                 | None => BasicSink.receive_timeout sink
                 | Some _ => t
                 end),
       sink, k') /\
    net k' = quiet.
Proof.
  intros Hset Hnet Hfuel.
  by apply (basic_consume_drains sink None t _ Hset all fuel _ 0).
Qed.

Lemma Receive_drains_then_gives_up_witness :
  exists k',
    BasicSink.consume 3 (BasicSink.Receive None None) sink1
      (surroundings [success (PyInt 1); failure bad] [] [])
      = ([success (PyInt 1); failure bad], Raise ReceiverTimeoutException,
         sink1, k') /\
    net k' = quiet.
Proof.
  exact (Receive_drains_then_gives_up sink1
           (surroundings [success (PyInt 1); failure bad] [] []) None
           [success (PyInt 1); failure bad] 3 eq_refl eq_refl (le_n 3)).
Defined.

(** ** The worker in general *)


Lemma iteration_quiet self (e : Worker.env) :
  Worker.set_up self = true ->
  net e = quiet ->
  exists e',
    Worker.iteration self e = (Some (worker_gives_up (Worker.receiver_timeout self)), e') /\
    sent_envelopes (io e') = sent_envelopes (io e) /\
    net e' = quiet.
Proof.
  intros Hset Hnet.
  destruct (Worker_set_up_shape _ Hset) as (r & s & Hr & Hs & Hshape).
  assert (exists reg, Worker.poller self = Some reg) as [reg Hp]
    by (destruct Hshape as [[-> _]|[-> _]]; eauto).
  unfold Worker.iteration, worker_gives_up. rewrite Hp, Hnet, poll_quiet.
  destruct (budget_of _); eexists; (split; [reflexivity|]); [|done].
  simpl. rewrite sent_envelopes_app. simpl. by rewrite app_nil_r.
Qed.




(** X21.  What the worker does not catch: when the callback raises
    something that is not an [Exception], the request has been taken off
    the socket, no envelope is sent for it, and the exception leaves
    [Run]; the requests behind it are not read. *)
Theorem uncaught_exception_leaves_Run
    (self : Worker.t) (e : Worker.env) (request : pyobj) (dq : list pyobj) (x : exn) :
  Worker.set_up self = true ->
  data_q (net e) = request :: dq ->
  Worker.callback self request = RaisesOther x ->
  exists e',
    Worker.Run self e = (Worker.Raised (Escaped x), self, e') /\
    io e' = io e ++ [IoPoll (Worker.receiver_timeout self); IoRecvData request;
                     IoCallback request] /\
    net e' = {| data_q := dq; cmd_q := cmd_q (net e); future := future (net e) |}.
Proof.
  intros Hset Hdq Hcb. rewrite Run_when_set_up by done.
  destruct (Worker_set_up_shape _ Hset) as (r & s & Hr & Hs & Hshape).
  assert (exists reg, Worker.poller self = Some (DataSock :: reg)) as [reg Hp]
    by (destruct Hshape as [[-> _]|[-> _]]; eauto).
  unfold Worker.fuel_for. simpl. unfold Worker.iteration. rewrite Hp.
  assert (ready_socks (DataSock :: reg) (data_q (net e)) (cmd_q (net e))
          = DataSock :: ready_socks reg (data_q (net e)) (cmd_q (net e))) as Hready.
  { rewrite Hdq. reflexivity. }
  rewrite (poll_ready _ _ _ _ _ Hready). cbv zeta.
  unfold Worker.serve_request. rewrite Hr.
  assert (forall l, mem DataSock (DataSock :: l) = true) as -> by done.
  unfold recv_data. simpl. rewrite Hdq. unfold Worker.process. rewrite Hcb.
  eexists. split; [reflexivity|]. simpl. split; [|done].
  by rewrite <- !app_assoc.
Qed.

Lemma uncaught_exception_leaves_Run_witness :
  exists e',
    Worker.Run (worker1 exits_on_0 None) (surroundings [PyInt 0; PyInt 1] [] [])
      = (Worker.Raised (Escaped {| exn_class := "SystemExit"; exn_text := "0" |}),
         worker1 exits_on_0 None, e') /\
    sent_envelopes (io e') = [] /\
    data_q (net e') = [PyInt 1].
Proof.
  destruct (uncaught_exception_leaves_Run (worker1 exits_on_0 None)
              (surroundings [PyInt 0; PyInt 1] [] []) (PyInt 0) [PyInt 1]
              {| exn_class := "SystemExit"; exn_text := "0" |}
              eq_refl eq_refl eq_refl)
    as (e' & Hrun & Hio & Hnet).
  exists e'. split; [exact Hrun|]. split; [by rewrite Hio|by rewrite Hnet].
Defined.

(** One turn of the loop on a command, with no request waiting. *)
Lemma iteration_command self (e : Worker.env) c cq cs :
  Worker.set_up self = true ->
  Worker.poller self = Some [DataSock; CmdSock] ->
  Worker.cmd_subscriber self = Some (Some cs) ->
  data_q (net e) = [] ->
  cmd_q (net e) = c :: cq ->
  Worker.iteration self e =
    (if bool_decide (c = Worker.CMD_KILL) then Some Worker.Returned else None,
     log (IoRecvCommand c)
       (with_net {| data_q := []; cmd_q := cq; future := future (net e) |}
          (log (IoPoll (Worker.receiver_timeout self)) e))).
Proof.
  intros Hset Hp Hcs Hdq Hcq.
  destruct (Worker_set_up_shape _ Hset) as (r & s & Hr & Hs & _).
  unfold Worker.iteration. rewrite Hp.
  assert (ready_socks [DataSock; CmdSock] (data_q (net e)) (cmd_q (net e))
          = [CmdSock]) as Hready by (by rewrite Hdq, Hcq).
  rewrite (poll_ready _ _ _ _ _ Hready). cbv zeta.
  unfold Worker.serve_request. rewrite Hr.
  change (mem DataSock [CmdSock]) with false. cbv iota.
  unfold Worker.serve_command. rewrite Hcs.
  change (mem CmdSock [CmdSock]) with true. cbv iota.
  unfold recv_cmd. simpl. rewrite Hcq, Hdq.
  destruct (bool_decide _); by destruct e.
Qed.

Lemma loop_commands self cs rest :
  Worker.set_up self = true ->
  Worker.poller self = Some [DataSock; CmdSock] ->
  Worker.cmd_subscriber self = Some (Some cs) ->
  forall cmds fuel (e : Worker.env),
    Forall (fun c => c <> Worker.CMD_KILL) cmds ->
    data_q (net e) = [] ->
    cmd_q (net e) = cmds ++ Worker.CMD_KILL :: rest ->
    (length cmds < fuel)%nat ->
    exists e',
      Worker.loop fuel self e = (Worker.Returned, e') /\
      net e' = {| data_q := []; cmd_q := rest; future := future (net e) |} /\
      received_commands (io e') =
        received_commands (io e) ++ cmds ++ [Worker.CMD_KILL] /\
      sent_envelopes (io e') = sent_envelopes (io e).
Proof.
  intros Hset Hp Hcs. induction cmds as [|c cmds IH];
    intros fuel e Hall Hdq Hcq Hfuel;
    (destruct fuel as [|fuel]; [simpl in Hfuel; lia|]); simpl in *.
  - rewrite (iteration_command self e _ _ cs Hset Hp Hcs Hdq Hcq).
    rewrite bool_decide_eq_true_2 by done.
    eexists. split; [reflexivity|]. simpl. split; [done|].
    rewrite !received_commands_app, !sent_envelopes_app. simpl.
    by rewrite !app_nil_r.
  - apply Forall_cons in Hall as [Hc Hall].
    rewrite (iteration_command self e _ _ cs Hset Hp Hcs Hdq Hcq).
    rewrite bool_decide_eq_false_2 by done.
    edestruct (IH fuel) as (e' & -> & Hnet & Hrecv & Hsent);
      [exact Hall| | | |].
    4:{ exists e'. split; [done|]. split; [exact Hnet|]. split.
        - rewrite Hrecv. simpl. rewrite !received_commands_app. simpl.
          by rewrite app_nil_r, <- app_assoc.
        - rewrite Hsent. simpl. rewrite !sent_envelopes_app. simpl.
          by rewrite !app_nil_r. }
    + done.
    + done.
    + lia.
Qed.

(** X22.  A worker with a command socket, no request waiting and commands
    waiting: every command before the first kill command is received and
    ignored, the kill command makes [Run] return, the commands behind it
    stay on the socket, and no envelope is sent.  The kill command of the
    sink is one of those that the worker ignores. *)
Theorem worker_ignores_commands_until_its_kill
    (self : Worker.t) (e : Worker.env) (cmds rest : list pyobj) :
  Worker.set_up self = true ->
  Worker.poller self = Some [DataSock; CmdSock] ->
  Forall (fun c => c <> Worker.CMD_KILL) cmds ->
  data_q (net e) = [] ->
  cmd_q (net e) = cmds ++ Worker.CMD_KILL :: rest ->
  exists e',
    Worker.Run self e = (Worker.Returned, self, e') /\
    net e' = {| data_q := []; cmd_q := rest; future := future (net e) |} /\
    received_commands (io e') =
      received_commands (io e) ++ cmds ++ [Worker.CMD_KILL] /\
    sent_envelopes (io e') = sent_envelopes (io e).
Proof.
  intros Hset Hp Hall Hdq Hcq. rewrite Run_when_set_up by done.
  destruct (Worker_set_up_shape _ Hset) as (r & s & _ & _ & Hshape).
  destruct Hshape as [[Hp' _]|[_ [cs Hcs]]]; [congruence|].
  destruct (loop_commands self cs rest Hset Hp Hcs cmds (Worker.fuel_for e) e)
    as (e' & -> & H); try done.
  { unfold Worker.fuel_for, pending. rewrite Hcq, length_app. simpl. lia. }
  by exists e'.
Qed.

Lemma worker_ignores_commands_until_its_kill_witness :
  exists e',
    Worker.Run (worker1 double_unless_3 None)
      (surroundings [] [BasicSink.CMD_KILL; Worker.CMD_KILL; PyInt 6] [])
      = (Worker.Returned, worker1 double_unless_3 None, e') /\
    cmd_q (net e') = [PyInt 6] /\
    received_commands (io e') = [BasicSink.CMD_KILL; Worker.CMD_KILL].
Proof.
  destruct (worker_ignores_commands_until_its_kill (worker1 double_unless_3 None)
              (surroundings [] [BasicSink.CMD_KILL; Worker.CMD_KILL; PyInt 6] [])
              [BasicSink.CMD_KILL] [PyInt 6])
    as (e' & Hrun & Hnet & Hrecv & _);
    [reflexivity|reflexivity| |reflexivity|reflexivity|].
  { repeat constructor; discriminate. }
  exists e'. split; [exact Hrun|]. split; [by rewrite Hnet|exact Hrecv].
Defined.
(** ** The strict sink, and the worker and the sink together *)

Lemma strict_consume_count t sink rest :
  BasicSink.set_up sink = true ->
  forall oks,
    Forall (fun r => ClusterResult.status r = Some ClusterResult.STATUS_SUCCESS) oks ->
    forall fuel g inner idx m (k : BasicSink.env),
      (forall sink0 k0, Sink.next g sink0 k0 = Sink.iterate g inner sink0 k0) ->
      awaiting (Some m) t idx inner ->
      data_q (net k) = oks ++ rest ->
      cmd_q (net k) = [] ->
      idx + Z.of_nat (length oks) = m ->
      (length oks < fuel)%nat ->
      exists k',
        Sink.consume fuel g sink k =
          (map ClusterResult.payload oks, StopIteration, sink, k') /\
        net k' = {| data_q := rest; cmd_q := []; future := future (net k) |}.
Proof.
  intros Hset oks Hoks.
  induction Hoks as [|r oks Hr Hoks IH];
    intros fuel g inner idx m k Hat Hinner Hdq Hcq Hm Hfuel;
    (destruct fuel as [|fuel]; [simpl in Hfuel; lia|]); simpl in Hdq, Hm.
  - exists k. simpl. rewrite Hat. unfold Sink.iterate.
    rewrite (basic_next_stops m t idx) by (done || lia).
    split; [done|]. destruct k as [? [] ?]. simpl in *. by subst.
  - assert (idx < m) as Hidx by lia.
    destruct (iterate_step (Some m) t idx g inner sink k r (oks ++ rest)
                Hset Hinner Hdq Hcq Hidx)
      as (inner' & k' & Hawait & Hnet & Hstep).
    destruct (IH fuel (Sink.goto g (Sink.Iterating inner')) inner' (idx + 1) m k')
      as (k'' & Hconsume & Hnet''); try done.
    + by rewrite Hnet.
    + by rewrite Hnet.
    + lia.
    + simpl in Hfuel. lia.
    + exists k''. split.
      * simpl. rewrite Hat, Hstep.
        rewrite bool_decide_eq_true_2 by done. by rewrite Hconsume.
      * by rewrite Hnet'', Hnet.
Qed.

(** X23.  The strict sink on successes: with the envelopes [oks] waiting,
    every one a success, and the count set to their number, a consumer
    gets the payload of each envelope, in order and unwrapped, and then
    the end of the iteration; no exception is raised and what waits
    behind them is not read. *)
Theorem strict_sink_unwraps_successes
    (sink : BasicSink.t) (k : BasicSink.env) (t : option Z)
    (oks rest : list ClusterResult.t) (fuel : nat) :
  BasicSink.set_up sink = true ->
  Forall (fun r => ClusterResult.status r = Some ClusterResult.STATUS_SUCCESS) oks ->
  data_q (net k) = oks ++ rest ->
  cmd_q (net k) = [] ->
  (length oks < fuel)%nat ->
  exists k',
    Sink.consume fuel (Sink.Receive (Some (Z.of_nat (length oks))) t) sink k =
      (map ClusterResult.payload oks, StopIteration, sink, k') /\
    net k' = {| data_q := rest; cmd_q := []; future := future (net k) |}.
Proof.
  intros Hset Hoks Hdq Hcq Hfuel.
  by apply (strict_consume_count t sink rest Hset oks Hoks fuel _
              (BasicSink.Receive (Some (Z.of_nat (length oks))) t) 0
              (Z.of_nat (length oks))).
Qed.

Lemma strict_sink_unwraps_successes_witness :
  exists k',
    Sink.consume 3 (Sink.Receive (Some 2) None) sink1
      (surroundings [success (PyInt 2); success PyNone; failure bad] [] [])
      = ([PyInt 2; PyNone], StopIteration, sink1, k') /\
    net k' = {| data_q := [failure bad]; cmd_q := []; future := [] |}.
Proof.
  refine (strict_sink_unwraps_successes sink1
            (surroundings [success (PyInt 2); success PyNone; failure bad] [] [])
            None [success (PyInt 2); success PyNone] [failure bad] 3
            eq_refl _ eq_refl eq_refl (le_n 3)).
  repeat constructor.
Defined.










(** ** Relay devices and kill commands *)

(** X26.  The streamer device runs on two bound sockets, a PULL socket at
    the end-point of the frontend descriptor and a PUSH socket at that of
    the backend descriptor, whatever type and bind flag the descriptors
    name themselves; the frontend is made first, so the clock has passed
    the frontend's delays when the backend is bound. *)
Theorem streamer_binds_both_sockets frontend_connect backend_connect w
    kind frontend backend w' :
  LaunchStreamerDevice frontend_connect backend_connect w
    = (DeviceRuns kind frontend backend, w') ->
  kind = STREAMER /\
  sock_type frontend = PULL /\ sock_bound frontend = true /\
  sock_url frontend = Connect.url frontend_connect /\
  sock_type backend = PUSH /\ sock_bound backend = true /\
  sock_url backend = Connect.url backend_connect /\
  clock w' =
    after (Connect.post_delay backend_connect)
      (after (Connect.pre_delay backend_connect)
         (after (Connect.post_delay frontend_connect)
            (after (Connect.pre_delay frontend_connect) (clock w)))).
Proof.
  unfold LaunchStreamerDevice.
  destruct (Connect.MakeSocket frontend_connect _ _ _ _ _ _ _)
    as [[x|f] w1] eqn:H1; [done|].
  destruct (Connect.MakeSocket backend_connect _ _ _ _ _ _ _)
    as [[x|b] w2] eqn:H2; [done|].
  intros [= <- <- <- <-].
  apply MakeSocket_success in H1 as (? & ? & [= <-] & Hu1 & _ & _ & -> & Hc1 & _).
  apply MakeSocket_success in H2 as (? & ? & [= <-] & Hu2 & _ & _ & -> & Hc2 & _).
  simpl in *. rewrite Hc2, Hc1. by repeat split.
Qed.

Lemma streamer_binds_both_sockets_witness :
  exists frontend backend w',
    LaunchStreamerDevice contrary (plain "tcp://127.0.0.1:5561") world0
      = (DeviceRuns STREAMER frontend backend, w') /\
    sock_type frontend = PULL /\ sock_bound frontend = true /\
    sock_type backend = PUSH /\ sock_bound backend = true.
Proof.
  destruct (LaunchStreamerDevice contrary (plain "tcp://127.0.0.1:5561") world0)
    as [[x|kind f b] w'] eqn:E; [vm_compute in E; discriminate E|].
  destruct (streamer_binds_both_sockets _ _ _ _ _ _ _ E)
    as (-> & H1 & H2 & _ & H3 & H4 & _).
  exists f, b, w'. split; [reflexivity|]. by repeat split.
Defined.

(** X27.  The forwarder device runs on a SUB socket that is connected,
    not bound, to the end-point of the frontend descriptor, also when the
    descriptor asks to bind, and that carries a subscription, the
    descriptor's own when it has one and the match-all filter otherwise;
    and on a PUB socket bound at the end-point of the backend
    descriptor. *)
Theorem forwarder_connects_a_subscribed_frontend frontend_connect backend_connect w
    kind frontend backend w' :
  LaunchForwarderDevice frontend_connect backend_connect w
    = (DeviceRuns kind frontend backend, w') ->
  kind = FORWARDER /\
  sock_type frontend = SUB /\ sock_bound frontend = false /\
  sock_url frontend = Connect.url frontend_connect /\
  sockopts frontend !! SUBSCRIBE =
    Some (match Connect.options frontend_connect with
          | Some own =>
              match own !! SUBSCRIBE with Some v => v | None => PyStr "" end
          | None => PyStr ""
          end) /\
  sock_type backend = PUB /\ sock_bound backend = true /\
  sock_url backend = Connect.url backend_connect.
Proof.
  unfold LaunchForwarderDevice.
  destruct (Connect.MakeSocket frontend_connect _ _ _ _ _ _ _)
    as [[x|f] w1] eqn:H1; [done|].
  destruct (Connect.MakeSocket backend_connect _ _ _ _ _ _ _)
    as [[x|b] w2] eqn:H2; [done|].
  intros [= <- <- <- <-].
  apply MakeSocket_success in H1 as (? & ? & [= <-] & Hu1 & _ & _ & -> & _).
  apply MakeSocket_success in H2 as (? & ? & [= <-] & Hu2 & _ & _ & -> & _).
  simpl in *. repeat split; try done.
  rewrite merged_options_lookup.
  destruct (Connect.options frontend_connect) as [own|].
  - destruct (own !! SUBSCRIBE); [done|]. by rewrite lookup_singleton_eq.
  - by rewrite lookup_singleton_eq.
Qed.

Lemma forwarder_connects_a_subscribed_frontend_witness :
  exists frontend backend w',
    LaunchForwarderDevice
      {| Connect.url := Some "tcp://127.0.0.1:5562"; Connect.type := None;
         Connect.bind := true; Connect.options := None;
         Connect.pre_delay := None; Connect.post_delay := None |}
      contrary world0
      = (DeviceRuns FORWARDER frontend backend, w') /\
    sock_bound frontend = false /\
    sockopts frontend !! SUBSCRIBE = Some (PyStr "") /\
    sock_type backend = PUB /\ sock_bound backend = true.
Proof.
  destruct (LaunchForwarderDevice
              {| Connect.url := Some "tcp://127.0.0.1:5562"; Connect.type := None;
                 Connect.bind := true; Connect.options := None;
                 Connect.pre_delay := None; Connect.post_delay := None |}
              contrary world0)
    as [[x|kind f b] w'] eqn:E; [vm_compute in E; discriminate E|].
  destruct (forwarder_connects_a_subscribed_frontend _ _ _ _ _ _ _ E)
    as (-> & _ & H1 & _ & H2 & H3 & H4 & _).
  exists f, b, w'. split; [reflexivity|]. by repeat split.
Defined.

Lemma kill_is_sent_after_a_second (kill : pyobj) c w w' :
  match materialize c PUB w with
  | (inl e, w1) => (inl e, w1)
  | (inr _, w1) =>
      match time_sleep 1 w1 with
      | (inl e, w2) => (inl e, w2)
      | (inr _, w2) => (inr tt, emit (EvSendPyobj kill) w2)
      end
  end = (inr tt, w') ->
  exists s w1,
    materialize c PUB w = (inr s, w1) /\
    clock w' = (clock w1 + 1)%Q /\
    trace w' =
      trace w1 ++ [(clock w1, EvSleep 1); ((clock w1 + 1)%Q, EvSendPyobj kill)] /\
    sent_objects (trace w') = sent_objects (trace w) ++ [kill].
Proof.
  destruct (materialize c PUB w) as [[x|s] w1] eqn:Hm; [done|].
  unfold time_sleep. simpl. intros [= <-]. exists s, w1. simpl.
  split; [done|]. split; [done|]. split; [by rewrite <- app_assoc|].
  rewrite !sent_objects_app. simpl.
  by rewrite app_nil_r, (materialize_sends_nothing _ _ _ _ _ Hm).
Qed.

(** X28.  [BasicSink.SendKillCommand] and [Worker.SendKillCommand],
    whenever they return: the publisher has been had, the caller's socket
    or a new PUB socket; the call has then slept one second and after that
    sent one object and no other, the kill command of its own component.
    The sink's command differs from the worker's, so neither call stops
    the other component. *)
Theorem SendKillCommand_sends_its_own_kill (command_sender : endpoint) (w w' : world) :
  (BasicSink.SendKillCommand command_sender w = (inr tt, w') ->
   exists s w1,
     materialize command_sender PUB w = (inr s, w1) /\
     clock w' = (clock w1 + 1)%Q /\
     trace w' =
       trace w1 ++ [(clock w1, EvSleep 1);
                    ((clock w1 + 1)%Q, EvSendPyobj BasicSink.CMD_KILL)] /\
     sent_objects (trace w') = sent_objects (trace w) ++ [BasicSink.CMD_KILL]) /\
  (Worker.SendKillCommand command_sender w = (inr tt, w') ->
   exists s w1,
     materialize command_sender PUB w = (inr s, w1) /\
     clock w' = (clock w1 + 1)%Q /\
     trace w' =
       trace w1 ++ [(clock w1, EvSleep 1);
                    ((clock w1 + 1)%Q, EvSendPyobj Worker.CMD_KILL)] /\
     sent_objects (trace w') = sent_objects (trace w) ++ [Worker.CMD_KILL]) /\
  BasicSink.CMD_KILL <> Worker.CMD_KILL.
Proof.
  split; [|split; [|done]].
  - apply (kill_is_sent_after_a_second BasicSink.CMD_KILL).
  - apply (kill_is_sent_after_a_second Worker.CMD_KILL).
Qed.
(** ** After a failure *)

(** X29.  A worker whose [Setup] has raised is not set up again by a
    later [Run] once the request socket exists, because [Run] looks at
    [receiver] alone.  Either the request socket could not be made, and
    [receiver] is still [None]; or the result socket could not, and every
    later [Run] fails on the missing poller before it reads anything; or
    the command socket could not, and a later [Run] serves one request and
    then fails on the missing [cmd_subscriber]. *)
Theorem half_set_up_worker_is_not_repaired self w x self' w' :
  Worker.receiver self = None ->
  Worker.sender self = None ->
  Worker.poller self = None ->
  Worker.cmd_subscriber self = None ->
  Worker.Setup self w = (inl x, self', w') ->
  Worker.receiver self' = None \/
  (Worker.receiver self' <> None /\ Worker.sender self' = None /\
   forall e : Worker.env,
     Worker.Run self' e = (Worker.Raised (AttributeError "poller"), self', e)) \/
  (Worker.receiver self' <> None /\ Worker.sender self' <> None /\
   forall (e : Worker.env) request dq result,
     data_q (net e) = request :: dq ->
     Worker.process (Worker.callback self) request = inr result ->
     exists e',
       Worker.Run self' e =
         (Worker.Raised (AttributeError "cmd_subscriber"), self', e') /\
       sent_envelopes (io e') = sent_envelopes (io e) ++ [result] /\
       data_q (net e') = dq).
Proof.
  intros Hr Hs Hp Hc. unfold Worker.Setup. rewrite Hs, Hp, Hc.
  destruct (Connect.MakeSocket (Worker.request_receiver self) _ _ _ _ _ _ _)
    as [[y|r] w1]; [intros [= <- <- <-]; by left|].
  destruct (Connect.MakeSocket (Worker.result_sender self) _ _ _ _ _ _ _)
    as [[y|s] w2].
  { intros [= <- <- <-]. right. left. split; [done|]. split; [done|].
    intros e. unfold Worker.Run, Worker.fuel_for. simpl.
    unfold Worker.iteration. simpl. by destruct e. }
  assert (forall (e : Worker.env) request dq result,
            data_q (net e) = request :: dq ->
            Worker.process (Worker.callback self) request = inr result ->
            exists e',
              Worker.Run (Worker.update self (Some r) (Some s) (Some [DataSock]) None) e
              = (Worker.Raised (AttributeError "cmd_subscriber"),
                 Worker.update self (Some r) (Some s) (Some [DataSock]) None, e') /\
              sent_envelopes (io e') = sent_envelopes (io e) ++ [result] /\
              data_q (net e') = dq) as Hlater.
  { intros e request dq result Hdq Hproc.
    unfold Worker.Run, Worker.fuel_for. simpl.
    unfold Worker.iteration. simpl.
    assert (ready_socks [DataSock] (data_q (net e)) (cmd_q (net e)) = [DataSock])
      as Hready by (by rewrite Hdq).
    assert (with_world (env_world e) e = e) as -> by (by destruct e).
    rewrite (poll_ready _ _ _ _ _ Hready). cbv zeta.
    unfold Worker.serve_request. simpl.
    unfold recv_data. simpl. rewrite Hdq, Hproc.
    unfold Worker.serve_command. simpl.
    eexists. split; [reflexivity|]. simpl. split; [|done].
    rewrite !sent_envelopes_app. simpl. by rewrite !app_nil_r. }
  destruct (Worker.command_receiver self) as [[c|raw]|]; [| |done].
  - destruct (Connect.MakeSocket c _ _ _ _ _ _ _) as [[y|cs] w3]; [|done].
    intros [= <- <- <-]. right. right. by repeat split.
  - intros [= <- <- <-]. right. right. by repeat split.
Qed.

Lemma half_set_up_worker_is_not_repaired_witness :
  exists x self' w' e',
    Worker.Setup
      (Worker.init (plain "tcp://127.0.0.1:5555") (plain "tcp://127.0.0.1:5556")
         double_unless_3 (Some (ByConnect nowhere)) None) world0
      = (inl x, self', w') /\
    Worker.Run self' (surroundings [PyInt 4; PyInt 5] [] [])
      = (Worker.Raised (AttributeError "cmd_subscriber"), self', e') /\
    sent_envelopes (io e') = [] ++ [success (PyInt 8)] /\
    data_q (net e') = [PyInt 5].
Proof.
  destruct (Worker.Setup
              (Worker.init (plain "tcp://127.0.0.1:5555")
                 (plain "tcp://127.0.0.1:5556") double_unless_3
                 (Some (ByConnect nowhere)) None) world0)
    as [[[x|[]] self'] w'] eqn:E; [|vm_compute in E; discriminate E].
  destruct (half_set_up_worker_is_not_repaired
              (Worker.init (plain "tcp://127.0.0.1:5555")
                 (plain "tcp://127.0.0.1:5556") double_unless_3
                 (Some (ByConnect nowhere)) None) world0 x self' w'
              eq_refl eq_refl eq_refl eq_refl E)
    as [H|[(_ & H & _)|(_ & _ & H)]].
  - vm_compute in E. injection E as _ <- _. discriminate H.
  - vm_compute in E. injection E as _ <- _. discriminate H.
  - destruct (H (surroundings [PyInt 4; PyInt 5] [] []) (PyInt 4) [PyInt 5]
                (success (PyInt 8)) eq_refl eq_refl) as (e' & H1 & H2 & H3).
    by exists x, self', w', e'.
Defined.

(** X30.  The strict sink after a failure.  The generator that has raised
    the [WorkerException] is finished: asked again it only reports the end
    of the iteration and reads nothing.  The sink itself is unchanged, and
    a new [Receive] on it goes on with the envelopes that wait behind the
    failed one. *)
Theorem sink_survives_WorkerException
    (sink : BasicSink.t) (k : BasicSink.env) (n t t2 : option Z)
    (bad : ClusterResult.t) (oks rest : list ClusterResult.t) (fuel : nat) :
  BasicSink.set_up sink = true ->
  ClusterResult.status bad <> Some ClusterResult.STATUS_SUCCESS ->
  Forall (fun r => ClusterResult.status r = Some ClusterResult.STATUS_SUCCESS) oks ->
  data_q (net k) = bad :: oks ++ rest ->
  cmd_q (net k) = [] ->
  match n with Some m => 0 < m | None => True end ->
  (length oks < fuel)%nat ->
  exists g1 k1,
    Sink.next (Sink.Receive n t) sink k =
      (Raise (RaisedWorkerException
                (Sink.make_WorkerException (ClusterResult.exception bad))),
       g1, sink, k1) /\
    Sink.next g1 sink k1 = (StopIteration, g1, sink, k1) /\
    exists k2,
      Sink.consume fuel (Sink.Receive (Some (Z.of_nat (length oks))) t2) sink k1 =
        (map ClusterResult.payload oks, StopIteration, sink, k2) /\
      net k2 = {| data_q := rest; cmd_q := []; future := future (net k) |}.
Proof.
  intros Hset Hbad Hoks Hdq Hcq Hn Hfuel.
  destruct (iterate_step n t 0 (Sink.Receive n t) (BasicSink.Receive n t)
              sink k bad (oks ++ rest) Hset)
    as (inner' & k1 & _ & Hnet & Hstep); try done.
  eexists _, k1. split; [|split].
  - change (Sink.next (Sink.Receive n t) sink k)
      with (Sink.iterate (Sink.Receive n t) (BasicSink.Receive n t) sink k).
    rewrite Hstep. by rewrite bool_decide_eq_false_2.
  - done.
  - destruct (strict_consume_count t2 sink rest Hset oks Hoks fuel
                (Sink.Receive (Some (Z.of_nat (length oks))) t2)
                (BasicSink.Receive (Some (Z.of_nat (length oks))) t2) 0
                (Z.of_nat (length oks)) k1)
      as (k2 & Hconsume & Hnet2); try done.
    + by rewrite Hnet.
    + by rewrite Hnet.
    + exists k2. split; [done|]. by rewrite Hnet2, Hnet.
Qed.

Lemma sink_survives_WorkerException_witness :
  exists g1 k1 k2,
    Sink.next (Sink.Receive None None) sink1
      (surroundings [failure bad; success (PyInt 7)] [] []) =
      (Raise (RaisedWorkerException (Sink.make_WorkerException (Some bad))),
       g1, sink1, k1) /\
    Sink.next g1 sink1 k1 = (StopIteration, g1, sink1, k1) /\
    Sink.consume 2 (Sink.Receive (Some 1) None) sink1 k1 =
      ([PyInt 7], StopIteration, sink1, k2).
Proof.
  destruct (sink_survives_WorkerException sink1
              (surroundings [failure bad; success (PyInt 7)] [] [])
              None None None (failure bad) [success (PyInt 7)] [] 2)
    as (g1 & k1 & H1 & H2 & k2 & H3 & _);
    [reflexivity|discriminate| |reflexivity|reflexivity|exact I|simpl; lia|].
  { repeat constructor. }
  by exists g1, k1, k2.
Defined.

(** ** The kill commands at work *)

Lemma SendKillCommand_sends_its_own_kill_witness :
  sent_objects (trace (BasicSink.SendKillCommand (BySocket push_socket) world0).2)
    = [] ++ [BasicSink.CMD_KILL].
Proof.
  destruct (proj1 (SendKillCommand_sends_its_own_kill (BySocket push_socket) world0
                     (BasicSink.SendKillCommand (BySocket push_socket) world0).2)
              eq_refl) as (s & w1 & _ & _ & _ & H).
  exact H.
Defined.

(** ** An exception that cannot be printed *)

(** X31.  What the handler of the worker cannot report: when the callback
    raises an [Exception] on which [str] raises [x], the handler raises
    [x] while it builds its line for the log, before the envelope is
    filled.  The request has been taken off the socket, no envelope is
    sent for it, [x] leaves [Run], and the requests behind it are not
    read. *)
Theorem unprintable_exception_leaves_Run
    (self : Worker.t) (e : Worker.env) (request : pyobj) (dq : list pyobj) (x : exn) :
  Worker.set_up self = true ->
  data_q (net e) = request :: dq ->
  Worker.callback self request = RaisesUnprintable x ->
  exists e',
    Worker.Run self e = (Worker.Raised (Escaped x), self, e') /\
    io e' = io e ++ [IoPoll (Worker.receiver_timeout self); IoRecvData request;
                     IoCallback request] /\
    net e' = {| data_q := dq; cmd_q := cmd_q (net e); future := future (net e) |}.
Proof.
  intros Hset Hdq Hcb. rewrite Run_when_set_up by done.
  destruct (Worker_set_up_shape _ Hset) as (r & s & Hr & Hs & Hshape).
  assert (exists reg, Worker.poller self = Some (DataSock :: reg)) as [reg Hp]
    by (destruct Hshape as [[-> _]|[-> _]]; eauto).
  unfold Worker.fuel_for. simpl. unfold Worker.iteration. rewrite Hp.
  assert (ready_socks (DataSock :: reg) (data_q (net e)) (cmd_q (net e))
          = DataSock :: ready_socks reg (data_q (net e)) (cmd_q (net e))) as Hready.
  { rewrite Hdq. reflexivity. }
  rewrite (poll_ready _ _ _ _ _ Hready). cbv zeta.
  unfold Worker.serve_request. rewrite Hr.
  assert (forall l, mem DataSock (DataSock :: l) = true) as -> by done.
  unfold recv_data. simpl. rewrite Hdq. unfold Worker.process. rewrite Hcb.
  eexists. split; [reflexivity|]. simpl. split; [|done].
  by rewrite <- !app_assoc.
Qed.

Lemma unprintable_exception_leaves_Run_witness :
  exists e',
    Worker.Run (worker1 garbled (Some 0))
      (surroundings [PyInt 1; PyInt 2] [Worker.CMD_KILL] [])
      = (Worker.Raised
           (Escaped {| exn_class := "UnicodeEncodeError";
                       exn_text := "ascii codec cannot encode character" |}),
         worker1 garbled (Some 0), e') /\
    sent_envelopes (io e') = [] /\
    data_q (net e') = [PyInt 2] /\
    cmd_q (net e') = [Worker.CMD_KILL].
Proof.
  destruct (unprintable_exception_leaves_Run (worker1 garbled (Some 0))
              (surroundings [PyInt 1; PyInt 2] [Worker.CMD_KILL] []) (PyInt 1)
              [PyInt 2]
              {| exn_class := "UnicodeEncodeError";
                 exn_text := "ascii codec cannot encode character" |}
              eq_refl eq_refl eq_refl)
    as (e' & Hrun & Hio & Hnet).
  exists e'. split; [exact Hrun|]. split; [by rewrite Hio|by rewrite Hnet].
Defined.
(** ** The worker's envelopes, request by request *)

Lemma answers_only_silent {A B} (P : A -> B -> Prop) (new : list (io_event A B)) :
  (forall r, IoSend r ∉ new) -> answers_only P new.
Proof.
  intros Hno pre r post ->. exfalso. apply (Hno r).
  apply elem_of_app. right. by left.
Qed.

Lemma answers_only_app {A B} (P : A -> B -> Prop) (l1 l2 : list (io_event A B)) :
  answers_only P l1 -> answers_only P l2 -> answers_only P (l1 ++ l2).
Proof.
  intros H1 H2 pre r post Heq.
  apply app_eq_app in Heq as [l [[-> Hl]|[-> Hl]]].
  - destruct l as [|x l].
    + simpl in Hl. destruct (H2 [] r post) as (pre' & request & Hpre & HP);
        [by rewrite <- Hl|].
      exfalso. by destruct pre' as [|? [|? ?]].
    + injection Hl as <- ->.
      apply (H1 pre r l). done.
  - destruct (H2 l r post Hl) as (pre' & request & -> & HP).
    exists (l1 ++ pre'), request. split; [by rewrite app_assoc|done].
Qed.

Lemma answers_only_served {A B} (P : A -> B -> Prop) (request : A) (r : B) :
  P request r ->
  answers_only P [IoRecvData request; IoCallback request; IoSend r].
Proof.
  intros HP pre r' post Heq.
  destruct pre as [|a [|b [|c pre]]]; simpl in Heq; try discriminate Heq.
  - injection Heq as <- <- <- <-. by exists [], request.
  - injection Heq as _ _ _ Heq. by destruct pre.
Qed.

Lemma answering_refl {A B} (P : A -> B -> Prop) (e : env A B) : answering P e e.
Proof.
  exists []. split; [by rewrite app_nil_r|].
  apply answers_only_silent. intros r Hr. inversion Hr.
Qed.

Lemma answering_trans {A B} (P : A -> B -> Prop) (e1 e2 e3 : env A B) :
  answering P e1 e2 -> answering P e2 e3 -> answering P e1 e3.
Proof.
  intros (n1 & H1 & P1) (n2 & H2 & P2). exists (n1 ++ n2). split.
  - by rewrite H2, H1, app_assoc.
  - by apply answers_only_app.
Qed.

Lemma answering_silent {A B} (P : A -> B -> Prop) (ev : io_event A B) (e e' : env A B) :
  io e' = io e ->
  (forall r, ev <> IoSend r) ->
  answering P e (log ev e').
Proof.
  intros H Hev. exists [ev]. split; [simpl; by rewrite H|].
  apply answers_only_silent. intros r Hr.
  apply list_elem_of_singleton in Hr. by apply (Hev r).
Qed.

Lemma process_wellformed cb request r :
  Worker.process cb request = inr r -> envelope_wellformed cb request r.
Proof.
  unfold Worker.process.
  destruct (cb request) as [v|x|x|x] eqn:Hcb; intros [= <-];
    unfold envelope_wellformed; simpl.
  - split; [by left|]. by repeat split.
  - split; [by right|]. repeat split; try done. by intros y [= <-].
Qed.

Lemma serve_request_answers self socks e x e' :
  Worker.serve_request self socks e = (x, e') ->
  answering (envelope_wellformed (Worker.callback self)) e e'.
Proof.
  unfold Worker.serve_request.
  destruct (match Worker.receiver self with Some _ => _ | None => _ end);
    [|intros [= <- <-]; apply answering_refl].
  destruct (recv_data (net e)) as [[request tr1]|];
    [|intros [= <- <-]; apply answering_refl].
  assert (answering (envelope_wellformed (Worker.callback self)) e
            (log (IoCallback request) (log (IoRecvData request) (with_net tr1 e))))
    as Hpre.
  { apply (answering_trans _ _ (log (IoRecvData request) (with_net tr1 e)));
      by apply answering_silent. }
  destruct (Worker.process _ request) as [y|result] eqn:Hp.
  - by intros [= <- <-].
  - destruct (Worker.sender self); intros [= <- <-]; [|done].
    exists [IoRecvData request; IoCallback request; IoSend result]. split.
    + simpl. by rewrite <- !app_assoc.
    + apply answers_only_served. by apply process_wellformed.
Qed.

Lemma serve_command_answers {P : pyobj -> ClusterResult.t -> Prop} self socks e x e' :
  Worker.serve_command self socks e = (x, e') -> answering P e e'.
Proof.
  unfold Worker.serve_command.
  destruct (Worker.cmd_subscriber self) as [cs|];
    [|intros [= <- <-]; apply answering_refl].
  destruct (match cs with Some _ => _ | None => _ end);
    [|intros [= <- <-]; apply answering_refl].
  destruct (recv_cmd (net e)) as [[cmd tr1]|];
    [|intros [= <- <-]; apply answering_refl].
  destruct (bool_decide _); intros [= <- <-]; by apply answering_silent.
Qed.

Lemma iteration_answers self e x e' :
  Worker.iteration self e = (x, e') ->
  answering (envelope_wellformed (Worker.callback self)) e e'.
Proof.
  unfold Worker.iteration.
  destruct (Worker.poller self) as [registered|];
    [|intros [= <- <-]; apply answering_refl].
  destruct (poll _ _ _) as [|socks tr1];
    [intros [= <- <-]; apply answering_refl|].
  assert (answering (envelope_wellformed (Worker.callback self)) e
            (log (IoPoll (Worker.receiver_timeout self)) (with_net tr1 e))) as Hpoll.
  { by apply answering_silent. }
  destruct socks as [|s socks]; [by intros [= <- <-]|].
  destruct (Worker.serve_request self _ _) as [[y|] e2] eqn:Hreq.
  - intros [= <- <-]. eapply answering_trans; [exact Hpoll|].
    by eapply serve_request_answers.
  - intros Hcmd. eapply answering_trans; [exact Hpoll|].
    eapply answering_trans; [by eapply serve_request_answers|].
    by eapply serve_command_answers.
Qed.

Lemma loop_answers fuel self e x e' :
  Worker.loop fuel self e = (x, e') ->
  answering (envelope_wellformed (Worker.callback self)) e e'.
Proof.
  revert e. induction fuel as [|fuel IH]; intros e; simpl.
  - intros [= <- <-]. apply answering_refl.
  - destruct (Worker.iteration self e) as [[y|] e1] eqn:Hit.
    + intros [= <- <-]. by eapply iteration_answers.
    + intros Hl. eapply answering_trans; [by eapply iteration_answers|]. by apply IH.
Qed.

(** C3, amended: whatever the worker and its surroundings, every envelope
    that [Run] sends comes right after the receipt of a request and the
    call of the callback on it, and answers that request: its status is
    the success or the failure constant; the status is success exactly
    when the exception is absent; a failure has no payload; the payload of
    a success is what the callback returned on that request (populated
    unless that is [None]), and the exception of a failure is what the
    callback raised on that request. *)
Theorem worker_envelopes_wellformed self e res self' e' :
  Worker.Run self e = (res, self', e') ->
  exists new,
    io e' = io e ++ new /\
    forall pre r post,
      new = pre ++ IoSend r :: post ->
      exists pre' request,
        pre = pre' ++ [IoRecvData request; IoCallback request] /\
        envelope_wellformed (Worker.callback self) request r.
Proof.
  unfold Worker.Run.
  destruct (match Worker.receiver self with None => _ | Some _ => _ end)
    as [[r self1] w1] eqn:Hsetup.
  assert (Worker.callback self1 = Worker.callback self) as Hcb.
  { destruct (Worker.receiver self); [by inversion Hsetup|].
    by eapply Setup_keeps_callback. }
  destruct r as [x|[]].
  - intros [= <- <- <-]. exists []. split; [by rewrite app_nil_r|].
    intros pre r post H. by destruct pre.
  - destruct (Worker.loop _ _ _) as [r1 e2] eqn:Hloop.
    intros [= <- <- <-]. apply loop_answers in Hloop. by rewrite Hcb in Hloop.
Qed.

Lemma worker_envelopes_wellformed_witness :
  exists new,
    io (Worker.Run (worker0 double_unless_3 None)
          (surroundings [PyInt 3; PyInt 4] [Worker.CMD_KILL] [])).2
      = io (surroundings (B := ClusterResult.t) [PyInt 3; PyInt 4] [Worker.CMD_KILL] [])
        ++ new /\
    IoSend (failure bad) ∈ new /\
    forall pre r post,
      new = pre ++ IoSend r :: post ->
      exists pre' request,
        pre = pre' ++ [IoRecvData request; IoCallback request] /\
        envelope_wellformed double_unless_3 request r.
Proof.
  destruct (worker_envelopes_wellformed (worker0 double_unless_3 None)
              (surroundings [PyInt 3; PyInt 4] [Worker.CMD_KILL] [])
              (Worker.Run (worker0 double_unless_3 None)
                 (surroundings [PyInt 3; PyInt 4] [Worker.CMD_KILL] [])).1.1
              (Worker.Run (worker0 double_unless_3 None)
                 (surroundings [PyInt 3; PyInt 4] [Worker.CMD_KILL] [])).1.2
              (Worker.Run (worker0 double_unless_3 None)
                 (surroundings [PyInt 3; PyInt 4] [Worker.CMD_KILL] [])).2
              eq_refl) as (new & Hio & Hall).
  exists new. split; [exact Hio|]. split; [|exact Hall].
  vm_compute in Hio. apply (app_inv_head []) in Hio. subst new.
  apply list_elem_of_In. vm_compute. tauto.
Defined.
(** ** What the worker catches *)



(** ** The strict sink at the first failure *)

Lemma exhaust_consume fuel g sink (k : BasicSink.env) :
  Sink.consume fuel g sink k =
    let '(ys, r, _, sink', k') := Sink.exhaust fuel g sink k in (ys, r, sink', k').
Proof.
  revert g sink k. induction fuel as [|fuel IH]; intros g sink k; simpl; [done|].
  destruct (Sink.next g sink k) as [[[[y| | | |] g1] sink1] k1]; try done.
  rewrite IH. by destruct (Sink.exhaust fuel g1 sink1 k1) as [[[[ys r] g2] sink2] k2].
Qed.

Lemma exhaust_until_failure n t sink oks bad rest :
  BasicSink.set_up sink = true ->
  Forall (fun r => ClusterResult.status r = Some ClusterResult.STATUS_SUCCESS) oks ->
  ClusterResult.status bad <> Some ClusterResult.STATUS_SUCCESS ->
  forall fuel g inner idx (k : BasicSink.env),
    (forall sink0 k0, Sink.next g sink0 k0 = Sink.iterate g inner sink0 k0) ->
    awaiting n t idx inner ->
    data_q (net k) = oks ++ bad :: rest ->
    cmd_q (net k) = [] ->
    match n with Some m => idx + Z.of_nat (length oks) < m | None => True end ->
    (length oks < fuel)%nat ->
    exists g' k',
      Sink.exhaust fuel g sink k =
        (map ClusterResult.payload oks,
         Raise (RaisedWorkerException
                  (Sink.make_WorkerException (ClusterResult.exception bad))),
         g', sink, k') /\
      Sink.at_ g' = Sink.Finished /\
      net k' = {| data_q := rest; cmd_q := []; future := future (net k) |}.
Proof.
  intros Hset Hoks Hbad.
  induction Hoks as [|r oks Hr Hoks IH];
    intros fuel g inner idx k Hat Hinner Hdq Hcq Hn Hfuel;
    (destruct fuel as [|fuel]; [simpl in Hfuel; lia|]); simpl in Hdq.
  - assert (match n with Some m => idx < m | None => True end) as Hidx.
    { destruct n; [|done]. simpl in Hn. lia. }
    destruct (iterate_step _ _ _ g _ _ _ _ _ Hset Hinner Hdq Hcq Hidx)
      as (inner' & k' & _ & Hnet & Hstep).
    exists (Sink.goto g Sink.Finished), k'. split; [|done].
    simpl. rewrite Hat, Hstep.
    by rewrite bool_decide_eq_false_2.
  - assert (match n with Some m => idx < m | None => True end) as Hidx.
    { destruct n; [|done]. simpl in Hn. lia. }
    destruct (iterate_step _ _ _ g _ _ _ _ _ Hset Hinner Hdq Hcq Hidx)
      as (inner' & k' & Hawait & Hnet & Hstep).
    destruct (IH fuel (Sink.goto g (Sink.Iterating inner')) inner' (idx + 1) k')
      as (g'' & k'' & Hexhaust & Hfin & Hnet''); try done.
    + by rewrite Hnet.
    + by rewrite Hnet.
    + destruct n; [|done]. simpl in Hn. lia.
    + simpl in Hfuel. lia.
    + exists g'', k''. split; [|split; [done|]].
      * simpl. rewrite Hat, Hstep.
        rewrite bool_decide_eq_true_2 by done. by rewrite Hexhaust.
      * by rewrite Hnet'', Hnet.
Qed.

(** C5: a strict sink that is set up finds the envelopes
    [oks ++ bad :: rest] waiting, every one of [oks] a success and [bad]
    not, with no command waiting and a count, if any, that reaches [bad].
    A consumer that takes all the items of [Receive] gets the payloads of
    [oks], in order, and then the [WorkerException] whose message carries
    the text of the exception in [bad]; the envelopes [rest] are still on
    the socket.  The generator is finished by the raise: asked again, it
    reports the end of the iteration and reads nothing. *)
Theorem strict_sink_stops_at_first_failure
    (sink : BasicSink.t) (k : BasicSink.env) (n t : option Z)
    (oks : list ClusterResult.t) (bad : ClusterResult.t)
    (rest : list ClusterResult.t) (fuel : nat) :
  BasicSink.set_up sink = true ->
  Forall (fun r => ClusterResult.status r = Some ClusterResult.STATUS_SUCCESS) oks ->
  ClusterResult.status bad <> Some ClusterResult.STATUS_SUCCESS ->
  data_q (net k) = oks ++ bad :: rest ->
  cmd_q (net k) = [] ->
  match n with Some m => Z.of_nat (length oks) < m | None => True end ->
  (length oks < fuel)%nat ->
  exists g' k',
    Sink.exhaust fuel (Sink.Receive n t) sink k =
      (map ClusterResult.payload oks,
       Raise (RaisedWorkerException
                {| we_message :=
                     "Caught exception in worker node: "
                       +:+ Sink.str_exception (ClusterResult.exception bad);
                   worker_exception := None |}),
       g', sink, k') /\
    Sink.consume fuel (Sink.Receive n t) sink k =
      (map ClusterResult.payload oks,
       Raise (RaisedWorkerException
                {| we_message :=
                     "Caught exception in worker node: "
                       +:+ Sink.str_exception (ClusterResult.exception bad);
                   worker_exception := None |}),
       sink, k') /\
    net k' = {| data_q := rest; cmd_q := []; future := future (net k) |} /\
    Sink.next g' sink k' = (StopIteration, g', sink, k').
Proof.
  intros Hset Hoks Hbad Hdq Hcq Hn Hfuel.
  destruct (exhaust_until_failure n t sink oks bad rest Hset Hoks Hbad fuel
              (Sink.Receive n t) (BasicSink.Receive n t) 0 k)
    as (g' & k' & Hexhaust & Hfin & Hnet); try done.
  exists g', k'. split; [exact Hexhaust|]. split; [|split; [exact Hnet|]].
  - rewrite exhaust_consume. by rewrite Hexhaust.
  - unfold Sink.next. by rewrite Hfin.
Qed.

Lemma strict_sink_stops_at_first_failure_witness :
  exists g' k',
    Sink.exhaust 5 (Sink.Receive (Some 4) None) sink1
      (surroundings [success (PyInt 2); success (PyInt 4); failure bad;
                     success (PyInt 8)] [] []) =
      ([PyInt 2; PyInt 4],
       Raise (RaisedWorkerException
                {| we_message := "Caught exception in worker node: bad";
                   worker_exception := None |}),
       g', sink1, k') /\
    net k' = {| data_q := [success (PyInt 8)]; cmd_q := []; future := [] |} /\
    Sink.next g' sink1 k' = (StopIteration, g', sink1, k').
Proof.
  destruct (strict_sink_stops_at_first_failure sink1
              (surroundings [success (PyInt 2); success (PyInt 4); failure bad;
                             success (PyInt 8)] [] [])
              (Some 4) None [success (PyInt 2); success (PyInt 4)]
              (failure bad) [success (PyInt 8)] 5)
    as (g' & k' & H1 & _ & H2 & H3).
  - reflexivity.
  - repeat constructor.
  - discriminate.
  - reflexivity.
  - reflexivity.
  - reflexivity.
  - simpl. lia.
  - exists g', k'. exact (conj H1 (conj H2 H3)).
Defined.
(** ** The loop of the basic sink, turn by turn *)

(** The step of a generator that is about to look for its next item is
    one run of the loop from its top, with the timeout in force. *)
Lemma next_awaiting n targ idx tm g sink (k : BasicSink.env) :
  BasicSink.set_up sink = true ->
  awaiting n targ idx g ->
  polls_with tm sink g ->
  exists fuel,
    BasicSink.next g sink k =
      let '(r, pc1, k1) :=
        BasicSink.run (S fuel) n tm sink (BasicSink.AtTop idx) k in
      (r, {| BasicSink.num_results := n; BasicSink.timeout := targ;
             BasicSink.at_ := pc1 |},
       sink, k1).
Proof.
  intros Hset (Hn & Ht & Hat) Hpw.
  destruct (BasicSink_set_up_shape _ Hset) as (Hready & rs & Hrs & Hshape).
  assert (exists cs, BasicSink._command_socket sink = Some cs)
    as [cs Hcs] by (destruct Hshape as [[_ ->]|[_ [c ->]]]; eauto).
  destruct g as [n0 t0 pc0]. unfold polls_with in Hpw.
  simpl in Hn, Ht, Hat, Hpw. subst n0 t0.
  destruct pc0 as [|i t2 socks|]; [| |done].
  - subst idx.
    change {| BasicSink.num_results := n; BasicSink.timeout := targ;
              BasicSink.at_ := BasicSink.Fresh |} with (BasicSink.Receive n targ).
    rewrite next_fresh_ready by done. cbv zeta. rewrite Hpw.
    unfold BasicSink.fuel_for. by eexists.
  - destruct Hat as [-> Hmem]. subst t2. rewrite next_suspended.
    unfold BasicSink.fuel_for.
    rewrite (run_command_skip _ _ _ _ _ _ _ _ Hcs Hmem). by eexists.
Qed.

(** One run of the loop from its top, given what the poll returns. *)
Lemma run_top_poll fuel n tm sink idx (k : BasicSink.env) reg rs socks tr1 :
  BasicSink._poller sink = Some reg ->
  BasicSink._receiver_socket sink = Some rs ->
  match n with Some m => idx < m | None => True end ->
  poll reg tm (net k) = PollReturns socks tr1 ->
  BasicSink.run (S fuel) n tm sink (BasicSink.AtTop idx) k =
    match socks with
    | [] =>
        (Raise ReceiverTimeoutException, BasicSink.Finished,
         log (IoPoll tm) (with_net tr1 k))
    | _ =>
        if mem DataSock socks then
          match recv_data tr1 with
          | None => (Blocks, BasicSink.Finished, log (IoPoll tm) (with_net tr1 k))
          | Some (result, tr2) =>
              (Yield result, BasicSink.Suspended idx tm socks,
               log (IoRecvData result)
                 (with_net tr2 (log (IoPoll tm) (with_net tr1 k))))
          end
        else BasicSink.run fuel n tm sink (BasicSink.AtCommand idx socks)
               (log (IoPoll tm) (with_net tr1 k))
    end.
Proof.
  intros Hp Hrs Hn Hpoll. simpl.
  assert (match n with Some m => m <=? idx | None => false end = false) as ->.
  { destruct n; [|done]. apply Z.leb_gt. lia. }
  by rewrite Hp, Hpoll, Hrs.
Qed.


(** ** Timeouts, whatever the state of the generator *)

Lemma budget_of_None_iff (tm : option Z) :
  budget_of tm = None <-> tm = None \/ exists t, tm = Some t /\ t < 0.
Proof.
  unfold budget_of. destruct tm as [t|].
  - destruct (t <? 0) eqn:Hlt.
    + apply Z.ltb_lt in Hlt. split; [eauto|done].
    + apply Z.ltb_ge in Hlt. split; [done|].
      intros [?|(t' & [= <-] & ?)]; [done|lia].
  - split; [by left|done].
Qed.

(** A poll without a limit never returns without a socket. *)
Lemma poll_unbounded {A} registered tm (tr : transport A) socks tr' :
  budget_of tm = None ->
  poll registered tm tr = PollReturns socks tr' -> socks <> [].
Proof.
  intros Hb. unfold poll. rewrite Hb.
  destruct (ready_socks registered _ _) eqn:Hready.
  - apply wait_unlimited.
  - by intros [= <- <-].
Qed.

Lemma iteration_unbounded self e x e' :
  budget_of (Worker.receiver_timeout self) = None ->
  Worker.iteration self e = (Some (Worker.Raised x), e') ->
  x <> ReceiverTimeoutException.
Proof.
  intros Ht. unfold Worker.iteration.
  destruct (Worker.poller self) as [registered|]; [|by intros [= <- <-]].
  destruct (poll _ _ _) as [|socks tr1] eqn:Hpoll; [done|].
  apply (poll_unbounded _ _ _ _ _ Ht) in Hpoll.
  destruct socks as [|s socks]; [done|].
  unfold Worker.serve_request, Worker.serve_command, Worker.process.
  repeat (match goal with
          | |- context [match ?d with _ => _ end] =>
              lazymatch d with
              | context [match _ with _ => _ end] => fail
              | _ => destruct d
              end
          end; try (by intros [= <- <-]); try done).
Qed.

Lemma loop_unbounded fuel self e x e' :
  budget_of (Worker.receiver_timeout self) = None ->
  Worker.loop fuel self e = (Worker.Raised x, e') ->
  x <> ReceiverTimeoutException.
Proof.
  intros Ht. revert e. induction fuel as [|fuel IH]; intros e; simpl; [done|].
  destruct (Worker.iteration self e) as [[r|] e1] eqn:Hit; [|apply IH].
  intros [= -> <-]. by eapply iteration_unbounded.
Qed.

Lemma run_unbounded fuel n tm sink pos (k : BasicSink.env) x pc k' :
  budget_of tm = None ->
  BasicSink.run fuel n tm sink pos k = (Raise x, pc, k') ->
  x <> ReceiverTimeoutException.
Proof.
  intros Hb. revert pos k. induction fuel as [|fuel IH]; intros pos k; simpl; [done|].
  destruct pos as [idx|idx socks].
  - destruct (match n with Some m => m <=? idx | None => false end); [done|].
    destruct (BasicSink._poller sink) as [registered|]; [|by intros [= <- <- <-]].
    destruct (poll _ _ _) as [|socks tr1] eqn:Hpoll; [done|].
    apply (poll_unbounded _ _ _ _ _ Hb) in Hpoll.
    destruct socks as [|s socks]; [done|].
    destruct (BasicSink._receiver_socket sink); [|by intros [= <- <- <-]].
    destruct (mem DataSock (s :: socks)); [|apply IH].
    by destruct (recv_data _) as [[result tr2]|].
  - destruct (BasicSink._command_socket sink) as [cs|]; [|by intros [= <- <- <-]].
    destruct (match cs with Some _ => _ | None => _ end); [|apply IH].
    destruct (recv_cmd _) as [[cmd tr1]|]; [|done].
    destruct (bool_decide _); [done|apply IH].
Qed.

Lemma next_unbounded tm g sink (k : BasicSink.env) :
  BasicSink._ready sink = true ->
  polls_with tm sink g ->
  budget_of tm = None ->
  (BasicSink.next g sink k).1.1.1 <> Raise ReceiverTimeoutException.
Proof.
  intros Hready Hpw Hb. unfold polls_with in Hpw. unfold BasicSink.next.
  destruct (BasicSink.at_ g) as [|idx t0 socks|]; [| |done].
  - rewrite Hready, Hpw.
    destruct (BasicSink.run _ _ _ _ _ _) as [[r pc1] k1] eqn:Hrun. simpl.
    intros ->. by eapply run_unbounded.
  - subst t0.
    destruct (BasicSink.run _ _ _ _ _ _) as [[r pc1] k1] eqn:Hrun. simpl.
    intros ->. by eapply run_unbounded.
Qed.

(** C7 as stated fails.  A worker and a sink with a timeout of zero, with
    nothing waiting and the next message 50 ms away, do not wait: [Run]
    and the first step of [Receive] raise the timeout exception at once. *)
Lemma zero_timeout_raises :
  (Worker.Run (worker1 double_unless_3 (Some 0))
     (surroundings [] [] [(50, OnData (PyInt 1))])).1.1
    = Worker.Raised ReceiverTimeoutException /\
  (BasicSink.next (BasicSink.Receive None (Some 0)) sink1
     (surroundings [] [] [(50, OnData (failure bad))])).1.1.1
    = Raise ReceiverTimeoutException.
Proof. split; vm_compute; reflexivity. Qed.

(** C7, amended: for a worker and a sink that are set up, and the timeout
    [tm] in force, the worker's own or, for a generator of the sink in any
    state, the one it polls with.  The poll waits without limit exactly
    when [tm] is absent or negative.  Then neither [Run] nor a step of
    [Receive] raises the timeout exception, and both wait for ever when
    nothing waits and nothing is to come.  A timeout that is a number
    [t >= 0], zero included, and that elapses with nothing ready makes
    both raise the timeout exception. *)
Theorem a_timeout_blocks_iff_absent_or_negative
    (self : Worker.t) (e : Worker.env) (sink : BasicSink.t) (k : BasicSink.env)
    (g : BasicSink.generator) (tm : option Z) :
  Worker.set_up self = true ->
  BasicSink.set_up sink = true ->
  polls_with tm sink g ->
  (budget_of tm = None <-> tm = None \/ exists t, tm = Some t /\ t < 0) /\
  (budget_of tm = None ->
     (Worker.receiver_timeout self = tm ->
        (Worker.Run self e).1.1 <> Worker.Raised ReceiverTimeoutException /\
        (net e = quiet -> (Worker.Run self e).1.1 = Worker.Blocked)) /\
     (BasicSink.next g sink k).1.1.1 <> Raise ReceiverTimeoutException /\
     (forall n targ idx,
        awaiting n targ idx g ->
        match n with Some m => idx < m | None => True end ->
        net k = quiet ->
        (BasicSink.next g sink k).1.1.1 = Blocks)) /\
  (forall t,
     tm = Some t -> 0 <= t ->
     (Worker.receiver_timeout self = tm -> idle_for t (net e) ->
        (Worker.Run self e).1.1 = Worker.Raised ReceiverTimeoutException) /\
     (forall n targ idx,
        awaiting n targ idx g ->
        match n with Some m => idx < m | None => True end ->
        idle_for t (net k) ->
        (BasicSink.next g sink k).1.1.1 = Raise ReceiverTimeoutException)).
Proof.
  intros Hset Hset' Hpw.
  destruct (BasicSink_set_up_shape _ Hset') as (Hready & rs & Hrs & Hshape).
  assert (exists reg, BasicSink._poller sink = Some reg) as [reg Hreg]
    by (destruct Hshape as [[-> _]|[-> _]]; eauto).
  destruct (Worker_set_up_shape _ Hset) as (r & s & Hr & Hs & Hwshape).
  assert (exists wreg, Worker.poller self = Some wreg) as [wreg Hwreg]
    by (destruct Hwshape as [[-> _]|[-> _]]; eauto).
  rewrite Run_when_set_up by done.
  split; [apply budget_of_None_iff|]. split.
  - intros Hb. split; [|split].
    + intros Htm. split.
      * destruct (Worker.loop _ _ _) as [res e1] eqn:Hloop. simpl.
        intros ->. rewrite <- Htm in Hb.
        by apply (loop_unbounded _ _ _ _ _ Hb Hloop).
      * intros Hq.
        destruct (iteration_quiet self e Hset Hq) as (e' & Hit & _).
        unfold Worker.fuel_for. simpl. rewrite Hit. simpl.
        unfold worker_gives_up. by rewrite Htm, Hb.
    + by apply (next_unbounded tm).
    + intros n targ idx Hat Hn Hq.
      destruct (basic_next_gives_up n targ idx tm g sink k Hset' Hat Hpw Hq Hn)
        as (g' & k' & -> & _). simpl. unfold gives_up. by rewrite Hb.
  - intros t -> Ht. split.
    + intros Htm Hidle. unfold Worker.fuel_for. simpl.
      unfold Worker.iteration. rewrite Hwreg, Htm.
      by destruct (poll_idle wreg t (net e) Ht Hidle) as [tr' ->].
    + intros n targ idx Hat Hn Hidle.
      destruct (next_awaiting n targ idx (Some t) g sink k Hset' Hat Hpw) as [fuel ->].
      destruct (poll_idle reg t (net k) Ht Hidle) as [tr' Hpoll].
      by rewrite (run_top_poll _ _ _ _ _ _ _ _ _ _ Hreg Hrs Hn Hpoll).
Qed.

Lemma a_timeout_blocks_iff_absent_or_negative_witness :
  (Worker.Run (worker1 double_unless_3 (Some (-1))) (surroundings [] [] [])).1.1
    = Worker.Blocked /\
  (BasicSink.next
     {| BasicSink.num_results := None; BasicSink.timeout := Some (-1);
        BasicSink.at_ := BasicSink.Suspended 2 (Some (-1)) [DataSock] |}
     sink1 (surroundings [] [] [])).1.1.1 = Blocks.
Proof.
  destruct (a_timeout_blocks_iff_absent_or_negative
              (worker1 double_unless_3 (Some (-1))) (surroundings [] [] [])
              sink1 (surroundings [] [] [])
              {| BasicSink.num_results := None; BasicSink.timeout := Some (-1);
                 BasicSink.at_ := BasicSink.Suspended 2 (Some (-1)) [DataSock] |}
              (Some (-1)) eq_refl eq_refl eq_refl)
    as (_ & Hblock & _).
  destruct (Hblock eq_refl) as (Hworker & _ & Hsink).
  split.
  - apply Hworker; reflexivity.
  - apply (Hsink None (Some (-1)) 3); repeat split.
Defined.
(** An envelope that arrives within the budget of the poll is reported on
    the data socket. *)
Lemma poll_arrives_in_time {A} registered tm d (m : A) rest :
  registered = [DataSock] \/ registered = [DataSock; CmdSock] ->
  match budget_of tm with None => True | Some t => d <= t end ->
  poll registered tm
    {| data_q := []; cmd_q := []; future := (d, OnData m) :: rest |}
    = PollReturns [DataSock] {| data_q := [m]; cmd_q := []; future := rest |}.
Proof.
  intros Hreg Hd. unfold poll. simpl. rewrite ready_socks_nil.
  destruct (budget_of tm) as [t|]; simpl.
  - assert ((d <=? t) = true) as -> by (apply Z.leb_le; lia).
    by destruct Hreg as [-> | ->].
  - by destruct Hreg as [-> | ->].
Qed.

(** C8: a basic sink that is set up, and a generator of its [Receive] in
    any state in which it is about to look for its next item, the first or
    a later one, polling with a timeout of [t >= 0] milliseconds, given as
    argument or the sink's own; nothing waits and the next envelope is
    [d > t] milliseconds away.  The step of the generator raises the
    timeout exception; the sink object is as it was, and the envelope is
    still to come, [d - t] milliseconds away.  A later [Receive] on the
    same sink, with a timeout, its argument or the sink's own, that is
    without limit or covers the remaining time, yields that envelope. *)
Theorem sink_survives_timeout
    (sink : BasicSink.t) (k : BasicSink.env) (g : BasicSink.generator)
    (n targ : option Z) (idx t d : Z)
    (envelope : ClusterResult.t) (rest : list (Z * arrival ClusterResult.t)) :
  BasicSink.set_up sink = true ->
  awaiting n targ idx g ->
  polls_with (Some t) sink g ->
  match n with Some m => idx < m | None => True end ->
  0 <= t -> t < d ->
  data_q (net k) = [] ->
  cmd_q (net k) = [] ->
  future (net k) = (d, OnData envelope) :: rest ->
  exists g1 k1,
    BasicSink.next g sink k = (Raise ReceiverTimeoutException, g1, sink, k1) /\
    net k1 = {| data_q := []; cmd_q := []; future := (d - t, OnData envelope) :: rest |} /\
    forall n2 targ2,
      match n2 with Some m => 0 < m | None => True end ->
      match budget_of (match targ2 with
                       | None => BasicSink.receive_timeout sink
                       | Some _ => targ2
                       end) with
      | None => True
      | Some t2 => d - t <= t2
      end ->
      exists g2 k2,
        BasicSink.next (BasicSink.Receive n2 targ2) sink k1
          = (Yield envelope, g2, sink, k2) /\
        net k2 = {| data_q := []; cmd_q := []; future := rest |}.
Proof.
  intros Hset Hat Hpw Hn Ht Hd Hdq Hcq Hfut.
  destruct (BasicSink_set_up_shape _ Hset) as (Hready & rs & Hrs & Hshape).
  assert (exists reg, BasicSink._poller sink = Some reg /\
                      (reg = [DataSock] \/ reg = [DataSock; CmdSock]))
    as (reg & Hreg & Hregshape)
    by (destruct Hshape as [[-> _]|[-> _]]; eauto).
  destruct k as [w [dq cq fut] l]. simpl in Hdq, Hcq, Hfut. subst dq cq fut.
  destruct (next_awaiting n targ idx (Some t) g sink
              {| env_world := w;
                 net := {| data_q := []; cmd_q := [];
                           future := (d, OnData envelope) :: rest |};
                 io := l |} Hset Hat Hpw) as [fuel ->].
  rewrite (run_top_poll _ _ _ _ _ _ reg rs [] 
             {| data_q := []; cmd_q := []; future := (d - t, OnData envelope) :: rest |}
             Hreg Hrs Hn)
    by (simpl; apply poll_times_out; lia).
  eexists _, _. split; [reflexivity|]. split; [reflexivity|].
  intros n2 targ2 Hn2 Ht2.
  rewrite next_fresh_ready by done. cbv zeta.
  unfold BasicSink.fuel_for.
  rewrite (run_top_poll _ _ _ _ _ _ reg rs [DataSock]
             {| data_q := [envelope]; cmd_q := []; future := rest |}
             Hreg Hrs Hn2)
    by (simpl; by apply poll_arrives_in_time).
  change (mem DataSock [DataSock]) with true. cbv iota.
  eexists _, _. split; reflexivity.
Qed.

Lemma sink_survives_timeout_witness :
  exists g1 k1,
    BasicSink.next
      {| BasicSink.num_results := None; BasicSink.timeout := None;
         BasicSink.at_ := BasicSink.Suspended 2 (Some 100) [DataSock] |}
      sink1 (surroundings [] [] [(150, OnData (failure bad))])
      = (Raise ReceiverTimeoutException, g1, sink1, k1) /\
    net k1 = {| data_q := []; cmd_q := [];
                future := [(150 - 100, OnData (failure bad))] |} /\
    exists g2 k2,
      BasicSink.next (BasicSink.Receive None None) sink1 k1
        = (Yield (failure bad), g2, sink1, k2) /\
      net k2 = {| data_q := []; cmd_q := []; future := [] |}.
Proof.
  destruct (sink_survives_timeout sink1
              (surroundings [] [] [(150, OnData (failure bad))])
              {| BasicSink.num_results := None; BasicSink.timeout := None;
                 BasicSink.at_ := BasicSink.Suspended 2 (Some 100) [DataSock] |}
              None None 3 100 150 (failure bad) [])
    as (g1 & k1 & H1 & H2 & H3); try reflexivity; try lia; try exact I.
  { repeat split. }
  exists g1, k1. split; [exact H1|]. split; [exact H2|].
  apply (H3 None None); [exact I|]. simpl. lia.
Defined.
